(** * Fixed-width batch files: the codec and the editor of [kyriba_cli.py]

    A shallow embedding of [src/kyriba_cli.py] (classes [FixedWidthFile] and
    [FixedWidthCLI]) together with the Python builtins the program calls.

    Modelling decisions, all of them visible in the definitions below:
    - a Python [str] is a [string]; a character [c : ascii] stands for the
      code point U+0000..U+00FF of the same number (the Latin-1 range), and
      the character classes of the builtins ([isspace], [isdigit], the digits
      [int] and [float] accept) are the ones CPython has on that range;
    - a Python [float] is an IEEE 754 binary64 number, computed with the
      Standard Library's [SpecFloat] at precision 53 and [emax] 1024;
    - an exception is an [exn] carried by [Raise]; the backing file and the
      records handed to [logger] form the [world] threaded through [io];
    - a record field holds what the program can put there: the parser's
      number, or the text [change_field_value] received from the prompt;
    - [hasattr] and [getattr] see the fields of a namedtuple and the members
      every namedtuple has besides ([count], [index], [_replace], ...), as
      CPython 3.11 and 3.12 list them;
    - [int] of a text and [str] of an [int] raise [ValueError] beyond 4300
      digits, the default of [sys.get_int_max_str_digits()];
    - the builtin [sum] adds floats from left to right up to CPython 3.11 and
      with a compensation from 3.12 on: [validate_file_structure] takes the
      choice as its argument [compensated], and no statement depends on it. *)

From Stdlib Require Import ZArith NArith List String Ascii Bool Lia.
From Stdlib Require Import Decimal DecimalString DecimalZ.
From Stdlib Require Import SpecFloat.
Import ListNotations.

Local Open Scope string_scope.
Local Open Scope Z_scope.

(** ** Exceptions and results *)

Inductive exn : Type :=
| IndexError
| ValueError
| OverflowError
| TypeError
| AttributeError.

Inductive outcome (A : Type) : Type :=
| Return (a : A)
| Raise (e : exn).
Arguments Return {A} a.
Arguments Raise {A} e.

Definition obind {A B : Type} (o : outcome A) (k : A -> outcome B) : outcome B :=
  match o with
  | Return a => k a
  | Raise e => Raise e
  end.

(** [or_raise e o]: the value of a builtin that signals failure with [e]. *)
Definition or_raise {A : Type} (e : exn) (o : option A) : outcome A :=
  match o with
  | Some a => Return a
  | None => Raise e
  end.

(** ** Python [str] builtins on Latin-1 text *)

Module PyStr.

Definition LF : ascii := ascii_of_nat 10.
Definition CR : ascii := ascii_of_nat 13.
Definition newline : string := String LF "".

(** [str.isspace] of one character: U+0009..U+000D, U+001C..U+0020,
    U+0085 and U+00A0. *)
Definition isspace (c : ascii) : bool :=
  let n := N_of_ascii c in
  ((9 <=? n) && (n <=? 13) || (28 <=? n) && (n <=? 32)
   || (n =? 133) || (n =? 160))%N.

(** The decimal digits ['0'..'9'], the only Latin-1 characters [int] and
    [float] read as digits. *)
Definition isdecimal_char (c : ascii) : bool :=
  let n := N_of_ascii c in ((48 <=? n) && (n <=? 57))%N.

(** [str.isdigit] of one character: the decimal digits and the superscript
    digits U+00B2, U+00B3 and U+00B9. *)
Definition isdigit_char (c : ascii) : bool :=
  let n := N_of_ascii c in
  (isdecimal_char c || (n =? 178) || (n =? 179) || (n =? 185))%N.

Fixpoint forallb_string (p : ascii -> bool) (s : string) : bool :=
  match s with
  | EmptyString => true
  | String c s' => p c && forallb_string p s'
  end.

(** [s.isdigit()]: at least one character and every character a digit. *)
Definition isdigit (s : string) : bool :=
  match s with
  | EmptyString => false
  | _ => forallb_string isdigit_char s
  end.

Definition len (s : string) : Z := Z.of_nat (String.length s).

(** [s[lo:hi]] for literal bounds [0 <= lo <= hi]; like Python, a bound
    beyond the end of [s] is clamped to it. *)
Definition slice (lo hi : nat) (s : string) : string :=
  substring lo (hi - lo) s.

Fixpoint lstrip (s : string) : string :=
  match s with
  | EmptyString => EmptyString
  | String c s' => if isspace c then lstrip s' else s
  end.

Fixpoint rstrip (s : string) : string :=
  match s with
  | EmptyString => EmptyString
  | String c s' =>
      match rstrip s' with
      | EmptyString => if isspace c then EmptyString else String c EmptyString
      | t => String c t
      end
  end.

(** [s.strip()] *)
Definition strip (s : string) : string := rstrip (lstrip s).

(** [c * n] for a one-character string [c] *)
Fixpoint fill (c : ascii) (n : nat) : string :=
  match n with
  | O => EmptyString
  | S n' => String c (fill c n')
  end.

Definition spaces (n : nat) : string := fill " " n.

(** [s * n] *)
Fixpoint repeat (s : string) (n : nat) : string :=
  match n with
  | O => EmptyString
  | S n' => s ++ repeat s n'
  end.

(** [s.ljust(width)] *)
Definition ljust (width : nat) (s : string) : string :=
  s ++ spaces (width - String.length s).

(** [s.zfill(width)]: zeros go after a leading sign. *)
Definition zfill (width : nat) (s : string) : string :=
  let zeros := fill "0" (width - String.length s) in
  match s with
  | String c s' =>
      if (Ascii.eqb c "+" || Ascii.eqb c "-")%bool
      then String c (zeros ++ s')
      else zeros ++ s
  | EmptyString => zeros
  end.

(** The decimal numeral of an [int], with its sign. *)
Definition str_of_int (z : Z) : string :=
  NilZero.string_of_int (Z.to_int z).

(** Underscores of a numeric literal: each one must stand between two
    decimal digits; they are dropped.  [prev] tells whether the character
    before [s] was a digit. *)
Fixpoint drop_underscores (prev : bool) (s : string) : option string :=
  match s with
  | EmptyString => Some EmptyString
  | String c s' =>
      if Ascii.eqb c "_" then
        match s' with
        | String d _ =>
            if (prev && isdecimal_char d)%bool
            then drop_underscores false s'
            else None
        | EmptyString => None
        end
      else
        option_map (String c) (drop_underscores (isdecimal_char c) s')
  end.

(** A sign, if any, and the rest of the text. *)
Definition split_sign (s : string) : bool * string :=
  match s with
  | String c s' =>
      if Ascii.eqb c "-" then (true, s')
      else if Ascii.eqb c "+" then (false, s')
      else (false, s)
  | EmptyString => (false, s)
  end.

(** One or more decimal digits, read in base 10. *)
Definition digits_value (s : string) : option Z :=
  match s with
  | EmptyString => None
  | _ =>
      if forallb_string isdecimal_char s
      then option_map Z.of_uint (NilEmpty.uint_of_string s)
      else None
  end.

(** [sys.get_int_max_str_digits()]: the most digits [int] reads from a
    text and [str] writes for an [int]. *)
Definition int_max_str_digits : Z := 4300.

(** [int(s)]: surrounding whitespace, a sign, decimal digits with single
    underscores between them, at most [int_max_str_digits] digits (leading
    zeros count, the sign and the underscores do not); [None] is
    [ValueError]. *)
Definition int_of_str (s : string) : option Z :=
  match drop_underscores false (strip s) with
  | Some t =>
      let '(neg, body) := split_sign t in
      if len body <=? int_max_str_digits
      then option_map (fun v => if neg then - v else v) (digits_value body)
      else None
  | None => None
  end.

(** [str(z)] for an [int]: the numeral, or [ValueError] when it has more
    than [int_max_str_digits] digits. *)
Definition str (z : Z) : outcome string :=
  let s := str_of_int z in
  if len (snd (split_sign s)) <=? int_max_str_digits
  then Return s
  else Raise ValueError.

(** Text-mode reading translates ["\r\n"] and a lone ["\r"] to ["\n"]. *)
Fixpoint universal_newlines (s : string) : string :=
  match s with
  | EmptyString => EmptyString
  | String c s' =>
      if Ascii.eqb c CR then
        match s' with
        | String d s'' =>
            if Ascii.eqb d LF
            then String LF (universal_newlines s'')
            else String LF (universal_newlines s')
        | EmptyString => newline
        end
      else String c (universal_newlines s')
  end.

(** Lines of a text, each with its terminator (the last one may lack it). *)
Fixpoint split_lines (s : string) : list string :=
  match s with
  | EmptyString => []
  | String c s' =>
      if Ascii.eqb c LF then String c EmptyString :: split_lines s'
      else match split_lines s' with
           | [] => [String c EmptyString]
           | l :: ls => String c l :: ls
           end
  end.

(** [f.readlines()] of a file opened with [open(path, "r")] *)
Definition readlines (content : string) : list string :=
  split_lines (universal_newlines content).

End PyStr.

(** ** Python [float]: IEEE 754 binary64 *)

Module PyFloat.

Definition float : Type := spec_float.

Definition prec : Z := 53.
Definition emax : Z := 1024.

Definition nan : float := S754_nan.
Definition zero : float := S754_zero false.

(** The float of a small [int] operand, as in [x * 100] and [x / 100]. *)
Definition of_int (z : Z) : float := binary_normalize prec emax z 0 false.

Definition mul (x y : float) : float := SFmul prec emax x y.
Definition div (x y : float) : float := SFdiv prec emax x y.
Definition add (x y : float) : float := SFadd prec emax x y.
Definition sub (x y : float) : float := SFsub prec emax x y.
Definition fabs (x : float) : float := SFabs x.

(** [x == y] and [x != y] *)
Definition eqb (x y : float) : bool := SFeqb x y.
Definition neb (x y : float) : bool := negb (SFeqb x y).
(** [x >= y] *)
Definition geb (x y : float) : bool := SFleb y x.

Definition isfinite (x : float) : bool :=
  match x with
  | S754_zero _ | S754_finite _ _ _ => true
  | S754_infinity _ | S754_nan => false
  end.

(** [int(x)]: truncation towards zero; [ValueError] on a NaN and
    [OverflowError] on an infinity. *)
Definition to_int (x : float) : outcome Z :=
  match x with
  | S754_nan => Raise ValueError
  | S754_infinity _ => Raise OverflowError
  | S754_zero _ => Return 0
  | S754_finite s m e =>
      let magnitude := Z.shiftl (Zpos m) e in
      Return (if s then - magnitude else magnitude)
  end.

(** The binary64 number nearest to [n / d] (ties to even) with sign [neg],
    for [0 <= n] and [0 < d]. *)
Definition of_ratio (neg : bool) (n d : Z) : float :=
  match n with
  | Z0 => S754_zero neg
  | _ =>
      let '(q, e, l) := SFdiv_core_binary prec emax n 0 d 0 in
      binary_round_aux prec emax neg q e l
  end.

(** [n / d] rounded to the nearest integer, ties to even. *)
Definition div_half_even (n d : Z) : Z :=
  let q := n / d in
  match 2 * (n mod d) ?= d with
  | Lt => q
  | Gt => q + 1
  | Eq => if Z.even q then q else q + 1
  end.

(** [round(x, 2)]: the exact value of [x] is rounded to two decimals, ties
    to even, and the decimal is read back as a float; a NaN or an infinity
    is returned as is. *)
Definition round2 (x : float) : float :=
  match x with
  | S754_finite s m e =>
      let hundredths :=
        match e with
        | Zneg p => div_half_even (Zpos m * 100) (2 ^ Zpos p)
        | _ => Zpos m * 100 * 2 ^ e
        end in
      of_ratio s hundredths 100
  | _ => x
  end.

(** The float of the decimal [digits * 10 ^ e10] with sign [neg]. *)
Definition of_decimal (neg : bool) (digits e10 : Z) : float :=
  match e10 with
  | Zneg p => of_ratio neg digits (10 ^ Zpos p)
  | _ => of_ratio neg (digits * 10 ^ e10) 1
  end.

Fixpoint span (p : ascii -> bool) (s : string) : string * string :=
  match s with
  | EmptyString => (EmptyString, EmptyString)
  | String c s' =>
      if p c then let '(a, b) := span p s' in (String c a, b)
      else (EmptyString, s)
  end.

Definition lower (c : ascii) : ascii :=
  let n := N_of_ascii c in
  if ((65 <=? n) && (n <=? 90))%N then ascii_of_N (n + 32) else c.

Fixpoint lower_string (s : string) : string :=
  match s with
  | EmptyString => EmptyString
  | String c s' => String (lower c) (lower_string s')
  end.

(** The exponent part of a decimal literal: nothing, or [e] or [E], a sign
    if any, and digits. *)
Definition exponent_of_str (s : string) : option Z :=
  match s with
  | EmptyString => Some 0
  | String c s' =>
      if Ascii.eqb (lower c) "e" then
        let '(neg, ds) := PyStr.split_sign s' in
        option_map (fun v => if neg then - v else v) (PyStr.digits_value ds)
      else None
  end.

(** An unsigned decimal literal: digits with an optional point and an
    optional exponent, at least one digit before the exponent. *)
Definition decimal_of_str (neg : bool) (s : string) : option float :=
  let '(ip, r1) := span PyStr.isdecimal_char s in
  let '(fp, r2) :=
    match r1 with
    | String c r => if Ascii.eqb c "." then span PyStr.isdecimal_char r
                    else (EmptyString, r1)
    | EmptyString => (EmptyString, r1)
    end in
  match PyStr.digits_value (ip ++ fp), exponent_of_str r2 with
  | Some digits, Some e => Some (of_decimal neg digits (e - PyStr.len fp))
  | _, _ => None
  end.

(** [float(s)]: surrounding whitespace, a sign, then [inf], [infinity],
    [nan] in any case or a decimal literal, with single underscores between
    digits; [None] is [ValueError]. *)
Definition float_of_str (s : string) : option float :=
  match PyStr.drop_underscores false (PyStr.strip s) with
  | Some t =>
      let '(neg, body) := PyStr.split_sign t in
      let word := lower_string body in
      if (String.eqb word "inf" || String.eqb word "infinity")%bool
      then Some (S754_infinity neg)
      else if String.eqb word "nan" then Some S754_nan
      else decimal_of_str neg body
  | None => None
  end.

End PyFloat.

(** ** Python [list] operations with an index *)

Module PyList.

Section Ops.
Context {A : Type}.

Definition len (l : list A) : Z := Z.of_nat (List.length l).

(** [l[i]]: a negative index counts from the end; out of range raises
    [IndexError]. *)
Definition getitem (l : list A) (i : Z) : outcome A :=
  let j := if i <? 0 then i + len l else i in
  if j <? 0 then Raise IndexError
  else or_raise IndexError (nth_error l (Z.to_nat j)).

(** A slice bound: a negative one counts from the end, and the result is
    clamped to [0 .. len l]. *)
Definition clamp (l : list A) (i : Z) : nat :=
  Z.to_nat (if i <? 0 then Z.max 0 (i + len l) else Z.min i (len l)).

(** [l[lo:hi]] *)
Definition slice (lo hi : Z) (l : list A) : list A :=
  let a := clamp l lo in
  let b := clamp l hi in
  firstn (b - a) (skipn a l).

(** [l.insert(i, x)]: the position is clamped like a slice bound. *)
Definition insert (i : Z) (x : A) (l : list A) : list A :=
  let k := clamp l i in
  firstn k l ++ x :: skipn k l.
End Ops.

End PyList.

(** ** The record model *)

Definition float : Type := PyFloat.float.

(** What a counter field holds: the [int] of the parser or of
    [add_transaction], or the text put there by [change_field_value]. *)
Inductive int_or_str : Type :=
| IInt (z : Z)
| IStr (s : string).

(** What an amount field holds: a [float], or the text put there by
    [change_field_value]. *)
Inductive float_or_str : Type :=
| FFloat (x : float)
| FStr (s : string).

(** The three namedtuple classes, as passed for [record_type]. *)
Inductive record_type : Type :=
| cls_Header
| cls_Transaction
| cls_Footer.

(** The result of [getattr]: a field's content, or a member the runtime
    defines on every namedtuple (a method such as [count], [_fields], ...). *)
Inductive value : Type :=
| VStr (s : string)
| VInt (z : Z)
| VFloat (x : float)
| VMember (name : string).

Definition value_of_int_or_str (v : int_or_str) : value :=
  match v with
  | IInt z => VInt z
  | IStr s => VStr s
  end.

Definition value_of_float_or_str (v : float_or_str) : value :=
  match v with
  | FFloat x => VFloat x
  | FStr s => VStr s
  end.

(** Names that resolve on every namedtuple instance besides its fields: the
    members inherited from [tuple] and [object] and the namedtuple helpers,
    the names [dir] lists in CPython 3.11 and 3.12. *)
Definition namedtuple_members : list string :=
  [ "__add__"; "__class__"; "__class_getitem__"; "__contains__";
    "__delattr__"; "__dir__"; "__doc__"; "__eq__"; "__format__"; "__ge__";
    "__getattribute__"; "__getitem__"; "__getnewargs__"; "__getstate__";
    "__gt__"; "__hash__"; "__init__"; "__init_subclass__"; "__iter__";
    "__le__"; "__len__"; "__lt__"; "__match_args__"; "__module__"; "__mul__";
    "__ne__"; "__new__"; "__reduce__"; "__reduce_ex__"; "__repr__";
    "__rmul__"; "__setattr__"; "__sizeof__"; "__slots__"; "__str__";
    "__subclasshook__"; "_asdict"; "_field_defaults"; "_fields"; "_make";
    "_replace"; "count"; "index" ].

Definition is_member (name : string) : bool :=
  existsb (String.eqb name) namedtuple_members.

Arguments is_member : simpl never.

Definition member (name : string) : option value :=
  if is_member name then Some (VMember name) else None.

(** [Header = namedtuple("Header", ["field_id", "name", "surname",
    "patronymic", "address"])] *)
Module Header.
Record t : Type := mk {
  field_id : string;
  name : string;
  surname : string;
  patronymic : string;
  address : string
}.

Definition _fields : list string :=
  ["field_id"; "name"; "surname"; "patronymic"; "address"].

Definition getattr (r : t) (attr : string) : option value :=
  if String.eqb attr "field_id" then Some (VStr (field_id r))
  else if String.eqb attr "name" then Some (VStr (name r))
  else if String.eqb attr "surname" then Some (VStr (surname r))
  else if String.eqb attr "patronymic" then Some (VStr (patronymic r))
  else if String.eqb attr "address" then Some (VStr (address r))
  else member attr.

(** [r._replace] with the keyword [attr] set to [v]: [ValueError] on a
    name that is no field. *)
Definition _replace (r : t) (attr : string) (v : string) : outcome t :=
  if String.eqb attr "field_id"
  then Return (mk v (name r) (surname r) (patronymic r) (address r))
  else if String.eqb attr "name"
  then Return (mk (field_id r) v (surname r) (patronymic r) (address r))
  else if String.eqb attr "surname"
  then Return (mk (field_id r) (name r) v (patronymic r) (address r))
  else if String.eqb attr "patronymic"
  then Return (mk (field_id r) (name r) (surname r) v (address r))
  else if String.eqb attr "address"
  then Return (mk (field_id r) (name r) (surname r) (patronymic r) v)
  else Raise ValueError.
End Header.

(** [Transaction = namedtuple("Transaction", ["field_id", "counter",
    "amount", "currency"])] *)
Module Transaction.
Record t : Type := mk {
  field_id : string;
  counter : int_or_str;
  amount : float_or_str;
  currency : string
}.

Definition _fields : list string :=
  ["field_id"; "counter"; "amount"; "currency"].

Definition getattr (r : t) (attr : string) : option value :=
  if String.eqb attr "field_id" then Some (VStr (field_id r))
  else if String.eqb attr "counter"
  then Some (value_of_int_or_str (counter r))
  else if String.eqb attr "amount"
  then Some (value_of_float_or_str (amount r))
  else if String.eqb attr "currency" then Some (VStr (currency r))
  else member attr.

Definition _replace (r : t) (attr : string) (v : string) : outcome t :=
  if String.eqb attr "field_id"
  then Return (mk v (counter r) (amount r) (currency r))
  else if String.eqb attr "counter"
  then Return (mk (field_id r) (IStr v) (amount r) (currency r))
  else if String.eqb attr "amount"
  then Return (mk (field_id r) (counter r) (FStr v) (currency r))
  else if String.eqb attr "currency"
  then Return (mk (field_id r) (counter r) (amount r) v)
  else Raise ValueError.
End Transaction.

(** [Footer = namedtuple("Footer", ["field_id", "total_counter",
    "control_sum"])] *)
Module Footer.
Record t : Type := mk {
  field_id : string;
  total_counter : int_or_str;
  control_sum : float_or_str
}.

Definition _fields : list string :=
  ["field_id"; "total_counter"; "control_sum"].

Definition getattr (r : t) (attr : string) : option value :=
  if String.eqb attr "field_id" then Some (VStr (field_id r))
  else if String.eqb attr "total_counter"
  then Some (value_of_int_or_str (total_counter r))
  else if String.eqb attr "control_sum"
  then Some (value_of_float_or_str (control_sum r))
  else member attr.

Definition _replace (r : t) (attr : string) (v : string) : outcome t :=
  if String.eqb attr "field_id"
  then Return (mk v (total_counter r) (control_sum r))
  else if String.eqb attr "total_counter"
  then Return (mk (field_id r) (IStr v) (control_sum r))
  else if String.eqb attr "control_sum"
  then Return (mk (field_id r) (total_counter r) (FStr v))
  else Raise ValueError.
End Footer.

(** An element of the list [read_file] returns. *)
Inductive record : Type :=
| RHeader (h : Header.t)
| RTransaction (t : Transaction.t)
| RFooter (f : Footer.t).

Definition isinstance (r : record) (cls : record_type) : bool :=
  match r, cls with
  | RHeader _, cls_Header => true
  | RTransaction _, cls_Transaction => true
  | RFooter _, cls_Footer => true
  | _, _ => false
  end.

Definition getattr (r : record) (attr : string) : option value :=
  match r with
  | RHeader h => Header.getattr h attr
  | RTransaction t => Transaction.getattr t attr
  | RFooter f => Footer.getattr f attr
  end.

(** [hasattr(r, attr)]: [getattr] does not raise. *)
Definition hasattr (r : record) (attr : string) : bool :=
  match getattr r attr with
  | Some _ => true
  | None => false
  end.

Definition _replace (r : record) (attr : string) (v : string) : outcome record :=
  match r with
  | RHeader h => obind (Header._replace h attr v) (fun h' => Return (RHeader h'))
  | RTransaction t =>
      obind (Transaction._replace t attr v) (fun t' => Return (RTransaction t'))
  | RFooter f => obind (Footer._replace f attr v) (fun f' => Return (RFooter f'))
  end.

(** The fields of a class, [cls._fields]. *)
Definition fields_of (cls : record_type) : list string :=
  match cls with
  | cls_Header => Header._fields
  | cls_Transaction => Transaction._fields
  | cls_Footer => Footer._fields
  end.

Definition is_field (cls : record_type) (attr : string) : bool :=
  existsb (String.eqb attr) (fields_of cls).

(** ** Constants *)

Definition HEADER_FIELD_ID : string := "01".
Definition TRANSACTION_FIELD_ID : string := "02".
Definition FOOTER_FIELD_ID : string := "03".
Definition LINE_LENGTH : Z := 120.
Definition CURRENCY_VALUES : list string :=
  ["USD"; "EUR"; "GBP"; "PLN"; "AZN"; "TRL"].

(** [currency in CURRENCY_VALUES] *)
Definition in_CURRENCY_VALUES (currency : string) : bool :=
  existsb (String.eqb currency) CURRENCY_VALUES.

(** ** The world: the backing file and the log *)

(** What the program hands to [logger]; the floats of a message are kept as
    data instead of their printed form. *)
Inductive log_record : Type :=
| Error_invalid_amount_format (amount_str : string)
| Error_invalid_transaction_counter (counter_str : string)
| Error_invalid_currency (currency : string)
| Error_field_not_found (field_name : string) (cls : record_type)
| Error_no_record_of_type (cls : record_type)
| Error_first_record_not_header
| Error_last_record_not_footer
| Error_not_all_transactions
| Error_total_counter_mismatch
| Error_control_sum_mismatch (expected got : float)
| Info_structure_valid.

Record world : Type := mk_world {
  file : string;            (* the text stored at [file_path] *)
  log : list log_record     (* oldest first *)
}.

Definition io (A : Type) : Type := world -> outcome A * world.

Definition ret {A : Type} (a : A) : io A := fun w => (Return a, w).

Definition bind {A B : Type} (m : io A) (k : A -> io B) : io B :=
  fun w =>
    match m w with
    | (Return a, w') => k a w'
    | (Raise e, w') => (Raise e, w')
    end.

Definition lift {A : Type} (o : outcome A) : io A := fun w => (o, w).

Declare Scope io_scope.
Delimit Scope io_scope with io.
Notation "x <- m ;; k" := (bind m (fun x => k))
  (at level 61, m at next level, right associativity) : io_scope.
Notation "m ;; k" := (bind m (fun _ => k))
  (at level 61, right associativity) : io_scope.
Local Open Scope io_scope.

Definition logger_error (msg : log_record) : io unit :=
  fun w => (Return tt, mk_world (file w) (log w ++ [msg])).

Definition logger_info (msg : log_record) : io unit := logger_error msg.

(** [open(file_path, "r")] followed by [f.readlines()] *)
Definition open_readlines : io (list string) :=
  fun w => (Return (PyStr.readlines (file w)), w).

(** [open(file_path, "w")]: the file is emptied. *)
Definition open_write : io unit :=
  fun w => (Return tt, mk_world EmptyString (log w)).

(** [f.write(text)]; leaving the [with] block, also by an exception, flushes
    what was written. *)
Definition f_write (text : string) : io unit :=
  fun w => (Return tt, mk_world (file w ++ text) (log w)).

(** ** class FixedWidthFile *)

Module FixedWidthFile.

Definition parse_header (line : string) : Header.t :=
  Header.mk
    (PyStr.slice 0 2 line)
    (PyStr.strip (PyStr.slice 2 30 line))
    (PyStr.strip (PyStr.slice 30 60 line))
    (PyStr.strip (PyStr.slice 60 90 line))
    (PyStr.strip (PyStr.slice 90 120 line)).

(** [None] is the [None] the source returns after logging. *)
Definition parse_transaction (line : string) : io (option Transaction.t) :=
  let counter_str := PyStr.strip (PyStr.slice 2 8 line) in
  let amount_str := PyStr.strip (PyStr.slice 8 20 line) in
  let currency := PyStr.strip (PyStr.slice 20 23 line) in
  if (negb (PyStr.len amount_str =? 12) || negb (PyStr.isdigit amount_str))%bool
  then logger_error (Error_invalid_amount_format amount_str) ;; ret None
  else
    match PyStr.int_of_str counter_str with
    | None =>
        logger_error (Error_invalid_transaction_counter counter_str) ;;
        ret None
    | Some counter =>
        if negb (in_CURRENCY_VALUES currency)
        then logger_error (Error_invalid_currency currency) ;; ret None
        else
          x <- lift (or_raise ValueError (PyFloat.float_of_str amount_str)) ;;
          let amount := PyFloat.div x (PyFloat.of_int 100) in
          ret (Some (Transaction.mk TRANSACTION_FIELD_ID (IInt counter)
                       (FFloat amount) currency))
    end.

Definition parse_footer (line : string) : io Footer.t :=
  total_counter <-
    lift (or_raise ValueError
            (PyStr.int_of_str (PyStr.strip (PyStr.slice 2 8 line)))) ;;
  x <- lift (or_raise ValueError
               (PyFloat.float_of_str (PyStr.strip (PyStr.slice 8 20 line)))) ;;
  let control_sum := PyFloat.div x (PyFloat.of_int 100) in
  ret (Footer.mk FOOTER_FIELD_ID (IInt total_counter) (FFloat control_sum)).

(** The loop of [read_file] over the lines still to read; [records] is the
    list built so far. *)
Fixpoint read_lines (lines : list string) (records : list record)
  : io (list record) :=
  match lines with
  | [] => ret records
  | line :: rest =>
      let field_id := PyStr.slice 0 2 line in
      if String.eqb field_id HEADER_FIELD_ID then
        read_lines rest (records ++ [RHeader (parse_header line)])
      else if String.eqb field_id TRANSACTION_FIELD_ID then
        transaction <- parse_transaction line ;;
        match transaction with
        | Some t => read_lines rest (records ++ [RTransaction t])
        | None => read_lines rest records
        end
      else if String.eqb field_id FOOTER_FIELD_ID then
        f <- parse_footer line ;;
        read_lines rest (records ++ [RFooter f])
      else read_lines rest records
  end.

Definition read_file : io (list record) :=
  lines <- open_readlines ;;
  read_lines lines [].

Definition format_header (header : Header.t) : string :=
  Header.field_id header
  ++ PyStr.ljust 28 (Header.name header)
  ++ PyStr.ljust 30 (Header.surname header)
  ++ PyStr.ljust 30 (Header.patronymic header)
  ++ PyStr.ljust 30 (Header.address header)
  ++ PyStr.newline.

(** [str(v)] of a counter field *)
Definition str_of_counter (v : int_or_str) : outcome string :=
  match v with
  | IInt z => PyStr.str z
  | IStr s => Return s
  end.

(** [int(v * 100)] of an amount field: a float is multiplied and truncated;
    a text is repeated a hundred times and read as an integer. *)
Definition int_times_100 (v : float_or_str) : outcome Z :=
  match v with
  | FFloat x => PyFloat.to_int (PyFloat.mul x (PyFloat.of_int 100))
  | FStr s => or_raise ValueError (PyStr.int_of_str (PyStr.repeat s 100))
  end.

(** The fields of the f-string are evaluated from left to right: the
    counter is printed before the amount is multiplied. *)
Definition format_transaction (transaction : Transaction.t) : outcome string :=
  obind (str_of_counter (Transaction.counter transaction)) (fun counter =>
  obind (int_times_100 (Transaction.amount transaction)) (fun cents =>
  obind (PyStr.str cents) (fun amount =>
  Return (Transaction.field_id transaction
          ++ PyStr.zfill 6 counter
          ++ PyStr.zfill 12 amount
          ++ PyStr.ljust 3 (Transaction.currency transaction)
          ++ PyStr.spaces 97
          ++ PyStr.newline)))).

Definition format_footer (footer : Footer.t) : outcome string :=
  obind (str_of_counter (Footer.total_counter footer)) (fun counter =>
  obind (int_times_100 (Footer.control_sum footer)) (fun cents =>
  obind (PyStr.str cents) (fun amount =>
  Return (Footer.field_id footer
          ++ PyStr.zfill 6 counter
          ++ PyStr.zfill 12 amount
          ++ PyStr.spaces 100
          ++ PyStr.newline)))).

(** The [isinstance] chain in the loop of [write_file]. *)
Definition format_record (r : record) : outcome string :=
  match r with
  | RHeader h => Return (format_header h)
  | RTransaction t => format_transaction t
  | RFooter f => format_footer f
  end.

Fixpoint write_records (records : list record) : io unit :=
  match records with
  | [] => ret tt
  | r :: rest =>
      line <- lift (format_record r) ;;
      f_write line ;;
      write_records rest
  end.

Definition write_file (records : list record) : io unit :=
  open_write ;;
  write_records records.

End FixedWidthFile.

(** ** The builtin [sum] on the amounts *)

Module PyBuiltins.

(** The float loop of [sum] from CPython 3.12 on (Neumaier's compensated
    summation): [f_result] is the running sum and [c] the compensation. *)
Fixpoint sum_compensated (xs : list float) (f_result c : float) : float :=
  match xs with
  | [] =>
      if (PyFloat.neb c PyFloat.zero && PyFloat.isfinite c)%bool
      then PyFloat.add f_result c
      else f_result
  | x :: rest =>
      let t := PyFloat.add f_result x in
      let c' :=
        if PyFloat.geb (PyFloat.fabs f_result) (PyFloat.fabs x)
        then PyFloat.add c (PyFloat.add (PyFloat.sub f_result t) x)
        else PyFloat.add c (PyFloat.add (PyFloat.sub x t) f_result) in
      sum_compensated rest t c'
  end.

(** [sum(xs)] for a list of floats.  The start value is the [int] 0: the
    sum of no float is that 0, here the float 0.0, which compares and
    rounds like it; the first float is added to 0 and the others are added
    from left to right, with compensation when [compensated] is set
    (CPython 3.12 and later). *)
Definition sum (compensated : bool) (xs : list float) : float :=
  match xs with
  | [] => PyFloat.zero
  | x :: rest =>
      let start := PyFloat.add PyFloat.zero x in
      if compensated then sum_compensated rest start PyFloat.zero
      else fold_left PyFloat.add rest start
  end.

End PyBuiltins.

(** ** class FixedWidthCLI *)

Module FixedWidthCLI.

Import FixedWidthFile.

(** The loop of [get_field_value]; [None] is the [None] the source returns
    after logging. *)
Fixpoint get_field_value_loop (record_type : record_type)
  (field_name : string) (records : list record) : io (option value) :=
  match records with
  | [] => logger_error (Error_no_record_of_type record_type) ;; ret None
  | record :: rest =>
      if isinstance record record_type then
        match getattr record field_name with
        | Some v => ret (Some v)
        | None =>
            logger_error (Error_field_not_found field_name record_type) ;;
            ret None
        end
      else get_field_value_loop record_type field_name rest
  end.

Definition get_field_value (record_type : record_type) (field_name : string)
  : io (option value) :=
  records <- read_file ;;
  get_field_value_loop record_type field_name records.

(** The loop of [change_field_value]; [updated_records] is the list built
    so far. *)
Fixpoint change_field_value_loop (record_type : record_type)
  (field_name new_value : string) (records updated_records : list record)
  : outcome (list record) :=
  match records with
  | [] => Return updated_records
  | record :: rest =>
      if (isinstance record record_type && hasattr record field_name)%bool
      then
        obind (_replace record field_name new_value) (fun updated_record =>
        change_field_value_loop record_type field_name new_value rest
          (updated_records ++ [updated_record]))
      else
        change_field_value_loop record_type field_name new_value rest
          (updated_records ++ [record])
  end.

(** [new_value] is the text read at the prompt. *)
Definition change_field_value (record_type : record_type)
  (field_name new_value : string) : io unit :=
  records <- read_file ;;
  updated_records <-
    lift (change_field_value_loop record_type field_name new_value
            records []) ;;
  write_file updated_records.

Definition add_transaction (counter : Z) (amount : float) (currency : string)
  : io unit :=
  records <- read_file ;;
  let new_transaction :=
    Transaction.mk TRANSACTION_FIELD_ID (IInt counter) (FFloat amount)
      currency in
  let records := PyList.insert (-1) (RTransaction new_transaction) records in
  write_file records.

(** [r.total_counter] *)
Definition attr_total_counter (r : record) : outcome int_or_str :=
  match r with
  | RFooter f => Return (Footer.total_counter f)
  | _ => Raise AttributeError
  end.

(** [r.control_sum] *)
Definition attr_control_sum (r : record) : outcome float_or_str :=
  match r with
  | RFooter f => Return (Footer.control_sum f)
  | _ => Raise AttributeError
  end.

(** [r.amount] *)
Definition attr_amount (r : record) : outcome float_or_str :=
  match r with
  | RTransaction t => Return (Transaction.amount t)
  | _ => Raise AttributeError
  end.

(** [[i.amount for i in transactions]] *)
Fixpoint amounts_of (transactions : list record) : outcome (list float_or_str) :=
  match transactions with
  | [] => Return []
  | i :: rest =>
      obind (attr_amount i) (fun a =>
      obind (amounts_of rest) (fun l => Return (a :: l)))
  end.

(** The operands of [sum]: a text among them is a [TypeError]. *)
Fixpoint floats_of (amounts : list float_or_str) : outcome (list float) :=
  match amounts with
  | [] => Return []
  | FFloat x :: rest => obind (floats_of rest) (fun l => Return (x :: l))
  | FStr _ :: _ => Raise TypeError
  end.

(** [v != n] for a counter field and an [int]: a text differs from every
    number. *)
Definition counter_ne (v : int_or_str) (n : Z) : bool :=
  match v with
  | IInt z => negb (z =? n)
  | IStr _ => true
  end.

(** The body of [validate_file_structure] after [read_file] (lines 175 to
    203), on the list it returned. *)
Definition validate_records (compensated : bool) (records : list record)
  : io bool :=
  first <- lift (PyList.getitem records 0) ;;
  if negb (isinstance first cls_Header)
  then logger_error Error_first_record_not_header ;; ret false
  else
  last <- lift (PyList.getitem records (-1)) ;;
  if negb (isinstance last cls_Footer)
  then logger_error Error_last_record_not_footer ;; ret false
  else
  let transactions := PyList.slice 1 (-1) records in
  if negb (forallb (fun i => isinstance i cls_Transaction) transactions)
  then logger_error Error_not_all_transactions ;; ret false
  else
  total_counter <- lift (attr_total_counter last) ;;
  if counter_ne total_counter (PyList.len transactions)
  then logger_error Error_total_counter_mismatch ;; ret false
  else
  amounts <- lift (amounts_of transactions) ;;
  xs <- lift (floats_of amounts) ;;
  let control_sum := PyBuiltins.sum compensated xs in
  footer_sum <- lift (attr_control_sum last) ;;
  match footer_sum with
  | FStr _ => lift (Raise TypeError)       (* [round] of a text *)
  | FFloat expected =>
      if PyFloat.neb (PyFloat.round2 control_sum) (PyFloat.round2 expected)
      then
        logger_error (Error_control_sum_mismatch expected control_sum) ;;
        ret false
      else
        logger_info Info_structure_valid ;;
        ret true
  end.

Definition validate_file_structure (compensated : bool) : io bool :=
  records <- read_file ;;
  validate_records compensated records.

End FixedWidthCLI.

(** ** Sample data *)

Module Sample.

(** The float nearest to [cents / 100], what the literal [0.29] denotes
    for [cents = 29]. *)
Definition money (cents : Z) : float := PyFloat.of_decimal false cents (-2).

Definition line (text : string) : string :=
  PyStr.ljust 120 text ++ PyStr.newline.

Definition header_line : string :=
  line ("01" ++ PyStr.ljust 28 "Ann" ++ PyStr.ljust 30 "Lee").
Definition header_line_2 : string :=
  line ("01" ++ PyStr.ljust 28 "Bob" ++ PyStr.ljust 30 "Ray").
Definition transaction_line_1 : string := line "02000001000000002000USD".
Definition transaction_line_2 : string := line "02000002000000004500EUR".
Definition footer_line : string := line "03000002000000006500".

Definition header : Header.t := Header.mk "01" "Ann" "Lee" "" "".
Definition header_2 : Header.t := Header.mk "01" "Bob" "Ray" "" "".
Definition transaction_1 : Transaction.t :=
  Transaction.mk "02" (IInt 1) (FFloat (money 2000)) "USD".
Definition transaction_2 : Transaction.t :=
  Transaction.mk "02" (IInt 2) (FFloat (money 4500)) "EUR".
Definition footer : Footer.t :=
  Footer.mk "03" (IInt 2) (FFloat (money 6500)).

(** One Header, two Transactions, one Footer. *)
Definition file_1h2t1f : string :=
  header_line ++ transaction_line_1 ++ transaction_line_2 ++ footer_line.
Definition records_1h2t1f : list record :=
  [RHeader header; RTransaction transaction_1; RTransaction transaction_2;
   RFooter footer].

(** Two Headers, then a Transaction and the Footer. *)
Definition file_2h : string :=
  header_line ++ header_line_2 ++ transaction_line_1 ++ footer_line.

(** Amounts of 0.10 and 0.20 under a Footer that declares 0.30. *)
Definition file_rounding : string :=
  header_line ++ line "02000001000000000010USD"
  ++ line "02000002000000000020USD" ++ line "03000002000000000030".
Definition footer_rounding : Footer.t :=
  Footer.mk "03" (IInt 2) (FFloat (money 30)).
Definition records_rounding : list record :=
  [RTransaction (Transaction.mk "02" (IInt 1) (FFloat (money 10)) "USD");
   RTransaction (Transaction.mk "02" (IInt 2) (FFloat (money 20)) "USD");
   RFooter footer_rounding].

(** [insertTransaction(3, 45.00, "USD")] *)
Definition new_transaction : Transaction.t :=
  Transaction.mk "02" (IInt 3) (FFloat (money 4500)) "USD".

(** A valid Transaction of 0.29 USD and the line that decodes to it. *)
Definition transaction_0_29 : Transaction.t :=
  Transaction.mk "02" (IInt 1) (FFloat (money 29)) "USD".
Definition transaction_0_29_line : string := line "02000001000000000029USD".

(** A valid file whose one Transaction is of 0.29 USD. *)
Definition file_0_29 : string :=
  header_line ++ transaction_0_29_line ++ line "03000001000000000029".

(** A Header line that is not padded, and a line with an unknown tag. *)
Definition file_header_and_note : string :=
  "01Ann" ++ PyStr.newline ++ "99 note" ++ PyStr.newline.


(** A Transaction line whose amount field ends in the superscript two
    U+00B2, followed by a well-formed Transaction line. *)
Definition superscript_two : string := String (ascii_of_nat 178) "".
Definition amount_with_superscript : string :=
  "00000000000" ++ superscript_two.
Definition file_superscript_amount : string :=
  line ("02000001" ++ amount_with_superscript ++ "USD") ++ transaction_line_2.

End Sample.

(** ** Vocabulary of the statements *)

(** The lines of a sequence of records when every record can be encoded;
    an exception of [format_transaction] or [format_footer] otherwise. *)
Fixpoint format_all (records : list record) : outcome (list string) :=
  match records with
  | [] => Return []
  | r :: rest =>
      obind (FixedWidthFile.format_record r) (fun line =>
      obind (format_all rest) (fun lines => Return (line :: lines)))
  end.

(** The numeric fields of a record hold numbers, as in every record
    [read_file] builds. *)
Definition numeric (r : record) : bool :=
  match r with
  | RHeader _ => true
  | RTransaction t =>
      match Transaction.counter t, Transaction.amount t with
      | IInt _, FFloat _ => true
      | _, _ => false
      end
  | RFooter f =>
      match Footer.total_counter f, Footer.control_sum f with
      | IInt _, FFloat _ => true
      | _, _ => false
      end
  end.

(** The record [change_field_value] puts in place of [r]. *)
Definition updated (cls : record_type) (field_name new_value : string)
  (r : record) : record :=
  if (isinstance r cls && hasattr r field_name)%bool then
    match _replace r field_name new_value with
    | Return r' => r'
    | Raise _ => r
    end
  else r.

(** The attributes of a class: its fields and the members of every
    namedtuple. *)
Definition class_hasattr (cls : record_type) (attr : string) : bool :=
  (is_field cls attr || is_member attr)%bool.

(** The amount [parse_transaction] computes from the digits of [cents]. *)
Definition decoded_amount (cents : Z) : float :=
  PyFloat.div (PyFloat.of_decimal false cents 0) (PyFloat.of_int 100).

(** The float amounts of a list of records. *)
Fixpoint amount_values (records : list record) : list float :=
  match records with
  | RTransaction t :: rest =>
      match Transaction.amount t with
      | FFloat x => x :: amount_values rest
      | FStr _ => amount_values rest
      end
  | _ :: rest => amount_values rest
  | [] => []
  end.

(** The five structural checks in the words of the specification. *)
Module Spec.

Inductive reason : Type :=
| First_record_is_not_a_Header
| Last_record_is_not_a_Footer
| Not_all_Transactions
| Total_counter_mismatch
| Control_sum_mismatch.

Inductive verdict : Type :=
| Valid
| Invalid (why : reason).

Definition first_record (S : list record) : option record := hd_error S.

Definition last_record (S : list record) : option record :=
  match S with
  | [] => None
  | r :: rs => Some (last rs r)
  end.

(** The records strictly between the first and the last. *)
Definition middle (S : list record) : list record := removelast (tl S).

(** (1) the first record is a Header *)
Definition check1 (S : list record) : bool :=
  match first_record S with
  | Some (RHeader _) => true
  | _ => false
  end.

(** (2) the last record is a Footer *)
Definition check2 (S : list record) : bool :=
  match last_record S with
  | Some (RFooter _) => true
  | _ => false
  end.

(** (3) every record strictly between is a Transaction *)
Definition check3 (S : list record) : bool :=
  forallb (fun r => isinstance r cls_Transaction) (middle S).

(** (4) Footer.total_counter equals the count of the middle slice *)
Definition check4 (S : list record) : bool :=
  match last_record S with
  | Some (RFooter f) =>
      match Footer.total_counter f with
      | IInt n => n =? Z.of_nat (List.length (middle S))
      | IStr _ => false
      end
  | _ => false
  end.

(** (5) Footer.control_sum equals the sum of the middle-slice amounts, both
    rounded to two decimals *)
Definition check5 (compensated : bool) (S : list record) : bool :=
  match last_record S with
  | Some (RFooter f) =>
      match Footer.control_sum f with
      | FFloat control_sum =>
          PyFloat.eqb
            (PyFloat.round2
               (PyBuiltins.sum compensated (amount_values (middle S))))
            (PyFloat.round2 control_sum)
      | FStr _ => false
      end
  | _ => false
  end.

Definition checks (compensated : bool)
  : list ((list record -> bool) * reason) :=
  [ (check1, First_record_is_not_a_Header);
    (check2, Last_record_is_not_a_Footer);
    (check3, Not_all_Transactions);
    (check4, Total_counter_mismatch);
    (check5 compensated, Control_sum_mismatch) ].

(** The verdict: the reason of the first check, in the fixed order, that
    fails. *)
Definition validateStructure (compensated : bool) (S : list record) : verdict :=
  match find (fun c => negb (fst c S)) (checks compensated) with
  | Some (_, why) => Invalid why
  | None => Valid
  end.

Definition is_valid (v : verdict) : bool :=
  match v with
  | Valid => true
  | Invalid _ => false
  end.

(** The verdict a log record of [validate_file_structure] stands for. *)
Definition verdict_of_log (msg : log_record) : option verdict :=
  match msg with
  | Error_first_record_not_header => Some (Invalid First_record_is_not_a_Header)
  | Error_last_record_not_footer => Some (Invalid Last_record_is_not_a_Footer)
  | Error_not_all_transactions => Some (Invalid Not_all_Transactions)
  | Error_total_counter_mismatch => Some (Invalid Total_counter_mismatch)
  | Error_control_sum_mismatch _ _ => Some (Invalid Control_sum_mismatch)
  | Info_structure_valid => Some Valid
  | _ => None
  end.

End Spec.

(** ** Vocabulary of the further properties *)

(** The text holds no line terminator. *)
Definition no_eol (s : string) : bool :=
  PyStr.forallb_string
    (fun c => negb (Ascii.eqb c PyStr.LF || Ascii.eqb c PyStr.CR)) s.

(** The text fills at most [width] columns and has no whitespace around it. *)
Definition fits (width : nat) (s : string) : bool :=
  ((String.length s <=? width)%nat && String.eqb (PyStr.strip s) s)%bool.

(** The same float, sign, mantissa and exponent. *)
Definition same_float (x y : float) : bool :=
  match x, y with
  | S754_zero s, S754_zero s' => Bool.eqb s s'
  | S754_infinity s, S754_infinity s' => Bool.eqb s s'
  | S754_nan, S754_nan => true
  | S754_finite s m e, S754_finite s' m' e' =>
      (Bool.eqb s s' && Pos.eqb m m' && Z.eqb e e')%bool
  | _, _ => false
  end.

(** A counter that prints in six digits. *)
Definition counter_fits (v : int_or_str) : bool :=
  match v with
  | IInt c => ((0 <=? c) && (c <=? 999999))%bool
  | IStr _ => false
  end.

(** An amount the decoder computes from twelve digits of cents and that
    [int(amount * 100)] gives the same cents for. *)
Definition cents_survive (v : float_or_str) : bool :=
  match v with
  | FFloat x =>
      match PyFloat.to_int (PyFloat.mul x (PyFloat.of_int 100)) with
      | Return cents =>
          ((0 <=? cents) && (cents <? 10 ^ 12)
           && same_float x (decoded_amount cents))%bool
      | Raise _ => false
      end
  | FStr _ => false
  end.

(** A record that its own line gives back: the tag of its class, text that
    fits its columns, numbers that fit their digits, a known currency. *)
Definition canonical (r : record) : bool :=
  match r with
  | RHeader h =>
      (String.eqb (Header.field_id h) HEADER_FIELD_ID
       && fits 28 (Header.name h) && no_eol (Header.name h)
       && fits 30 (Header.surname h) && no_eol (Header.surname h)
       && fits 30 (Header.patronymic h) && no_eol (Header.patronymic h)
       && fits 30 (Header.address h) && no_eol (Header.address h))%bool
  | RTransaction t =>
      (String.eqb (Transaction.field_id t) TRANSACTION_FIELD_ID
       && counter_fits (Transaction.counter t)
       && cents_survive (Transaction.amount t)
       && in_CURRENCY_VALUES (Transaction.currency t))%bool
  | RFooter f =>
      (String.eqb (Footer.field_id f) FOOTER_FIELD_ID
       && counter_fits (Footer.total_counter f)
       && cents_survive (Footer.control_sum f))%bool
  end.

(** What the parsers let through: the tag of the class, Header text that
    fits its columns, numbers in the numeric fields, a known currency. *)
Definition well_formed (r : record) : bool :=
  match r with
  | RHeader h =>
      (String.eqb (Header.field_id h) HEADER_FIELD_ID
       && fits 28 (Header.name h) && fits 30 (Header.surname h)
       && fits 30 (Header.patronymic h) && fits 30 (Header.address h))%bool
  | RTransaction t =>
      (String.eqb (Transaction.field_id t) TRANSACTION_FIELD_ID
       && match Transaction.counter t with IInt _ => true | IStr _ => false end
       && match Transaction.amount t with FFloat _ => true | FStr _ => false end
       && in_CURRENCY_VALUES (Transaction.currency t))%bool
  | RFooter f =>
      (String.eqb (Footer.field_id f) FOOTER_FIELD_ID
       && match Footer.total_counter f with IInt _ => true | IStr _ => false end
       && match Footer.control_sum f with FFloat _ => true | FStr _ => false end)%bool
  end.

(** The width of the column of a text field of Header. *)
Definition header_column (field_name : string) : option nat :=
  if String.eqb field_name "name" then Some 28%nat
  else if String.eqb field_name "surname" then Some 30%nat
  else if String.eqb field_name "patronymic" then Some 30%nat
  else if String.eqb field_name "address" then Some 30%nat
  else None.

(** An operation that leaves the file alone and only adds to the log. *)
Definition read_only {A : Type} (m : io A) : Prop :=
  forall w, exists added, snd (m w) = mk_world (file w) (log w ++ added).

(** * Properties *)

Import FixedWidthFile FixedWidthCLI.
Local Open Scope list_scope.

(** ** The monad *)

Lemma bind_Return {A B : Type} (m : io A) (k : A -> io B) w a w' :
  m w = (Return a, w') -> bind m k w = k a w'.
Proof. intros H. unfold bind. now rewrite H. Qed.

Lemma bind_Raise {A B : Type} (m : io A) (k : A -> io B) w e w' :
  m w = (Raise e, w') -> bind m k w = (Raise e, w').
Proof. intros H. unfold bind. now rewrite H. Qed.

(** ** List indexing *)

Lemma clamp_minus_1_snoc {A : Type} (init : list A) (x : A) :
  PyList.clamp (init ++ [x]) (-1) = List.length init.
Proof.
  unfold PyList.clamp, PyList.len. change (-1 <? 0) with true. cbv iota.
  rewrite length_app. change (List.length [x]) with 1%nat. lia.
Qed.

Lemma insert_minus_1_snoc {A : Type} (init : list A) (lst x : A) :
  PyList.insert (-1) x (init ++ [lst]) = init ++ [x; lst].
Proof.
  unfold PyList.insert. rewrite clamp_minus_1_snoc.
  rewrite firstn_app, firstn_all, Nat.sub_diag. simpl. rewrite app_nil_r.
  rewrite skipn_app, skipn_all, Nat.sub_diag. reflexivity.
Qed.

Lemma insert_minus_1_nil {A : Type} (x : A) :
  PyList.insert (-1) x [] = [x].
Proof. reflexivity. Qed.

Lemma getitem_0_cons {A : Type} (r : A) (rs : list A) :
  PyList.getitem (r :: rs) 0 = Return r.
Proof. reflexivity. Qed.

Lemma getitem_nil {A : Type} (i : Z) : PyList.getitem (@nil A) i = Raise IndexError.
Proof.
  unfold PyList.getitem. simpl.
  destruct (i <? 0) eqn:Hi.
  - rewrite Z.add_0_r, Hi. reflexivity.
  - rewrite Hi. now destruct (Z.to_nat i).
Qed.

Lemma last_cons_default {A : Type} (l : list A) (a d d' : A) :
  last (a :: l) d = last (a :: l) d'.
Proof.
  revert a. induction l as [|b l IH]; intros a; [reflexivity|].
  change (last (b :: l) d = last (b :: l) d'). apply IH.
Qed.

Lemma nth_error_last {A : Type} (rs : list A) (r : A) :
  nth_error (r :: rs) (List.length rs) = Some (last rs r).
Proof.
  revert r. induction rs as [|x rs IH]; intros r; [reflexivity|].
  change (nth_error (x :: rs) (List.length rs) = Some (last (x :: rs) r)).
  rewrite IH. destruct rs as [|y rs]; [reflexivity|].
  change (last (x :: y :: rs) r) with (last (y :: rs) r).
  f_equal. apply last_cons_default.
Qed.

Lemma getitem_minus_1_cons {A : Type} (r : A) (rs : list A) :
  PyList.getitem (r :: rs) (-1) = Return (last rs r).
Proof.
  unfold PyList.getitem, PyList.len. change (-1 <? 0) with true. cbv iota.
  change (List.length (r :: rs)) with (S (List.length rs)).
  replace (-1 + Z.of_nat (S (List.length rs))) with (Z.of_nat (List.length rs)) by lia.
  destruct (Z.ltb_spec (Z.of_nat (List.length rs)) 0) as [H|H]; [lia|].
  rewrite Nat2Z.id, nth_error_last. reflexivity.
Qed.

Lemma slice_1_minus_1_cons {A : Type} (r : A) (rs : list A) :
  PyList.slice 1 (-1) (r :: rs) = removelast rs.
Proof.
  unfold PyList.slice, PyList.clamp, PyList.len.
  change (List.length (r :: rs)) with (S (List.length rs)).
  change (1 <? 0) with false. change (-1 <? 0) with true. cbv iota.
  replace (Z.to_nat (Z.min 1 (Z.of_nat (S (List.length rs))))) with 1%nat by lia.
  replace (Z.to_nat (Z.max 0 (-1 + Z.of_nat (S (List.length rs)))))
    with (List.length rs) by lia.
  change (skipn 1 (r :: rs)) with rs. rewrite removelast_firstn_len.
  f_equal. lia.
Qed.

(** ** Reading *)

(** The records built so far only ever grow at the end. *)
Lemma read_lines_acc (lines : list string) : forall acc w,
  read_lines lines acc w =
  match read_lines lines [] w with
  | (Return records, w') => (Return (acc ++ records), w')
  | (Raise e, w') => (Raise e, w')
  end.
Proof.
  induction lines as [|line rest IH]; intros acc w.
  - cbn. unfold ret. now rewrite app_nil_r.
  - cbn [read_lines].
    destruct (String.eqb (PyStr.slice 0 2 line) HEADER_FIELD_ID).
    { rewrite (IH (acc ++ _)), (IH ([] ++ _)).
      destruct (read_lines rest [] w) as [[rs|e] w']; [|reflexivity].
      now rewrite <- app_assoc. }
    destruct (String.eqb (PyStr.slice 0 2 line) TRANSACTION_FIELD_ID).
    { unfold bind. destruct (parse_transaction line w) as [[[t|]|e] w1].
      - rewrite (IH (acc ++ _)), (IH ([] ++ _)).
        destruct (read_lines rest [] w1) as [[rs|e] w']; [|reflexivity].
        now rewrite <- app_assoc.
      - apply IH.
      - reflexivity. }
    destruct (String.eqb (PyStr.slice 0 2 line) FOOTER_FIELD_ID).
    { unfold bind. destruct (parse_footer line w) as [[f|e] w1]; [|reflexivity].
      rewrite (IH (acc ++ _)), (IH ([] ++ _)).
      destruct (read_lines rest [] w1) as [[rs|e] w']; [|reflexivity].
      now rewrite <- app_assoc. }
    apply IH.
Qed.

(** Decoding is line by line, in file order: the records of [l1 ++ l2] are
    those of [l1] followed by those of [l2]. *)
Lemma read_lines_app (l1 l2 : list string) : forall acc w,
  read_lines (l1 ++ l2) acc w = bind (read_lines l1 acc) (read_lines l2) w.
Proof.
  induction l1 as [|line rest IH]; intros acc w.
  - reflexivity.
  - change ((line :: rest) ++ l2) with (line :: (rest ++ l2)).
    cbn [read_lines].
    destruct (String.eqb (PyStr.slice 0 2 line) HEADER_FIELD_ID);
      [now rewrite IH|].
    destruct (String.eqb (PyStr.slice 0 2 line) TRANSACTION_FIELD_ID).
    { unfold bind.
      destruct (parse_transaction line w) as [[[t|]|e] w1];
        [rewrite IH|rewrite IH|]; reflexivity. }
    destruct (String.eqb (PyStr.slice 0 2 line) FOOTER_FIELD_ID).
    { unfold bind.
      destruct (parse_footer line w) as [[f|e] w1]; [rewrite IH|]; reflexivity. }
    now rewrite IH.
Qed.

(** What one line contributes: the world after it and the records it adds. *)
Lemma parse_transaction_numeric line w t w' :
  parse_transaction line w = (Return (Some t), w') ->
  numeric (RTransaction t) = true.
Proof.
  unfold parse_transaction.
  destruct (_ || _)%bool; [discriminate|].
  destruct (PyStr.int_of_str _); [|discriminate].
  destruct (negb _); [discriminate|].
  unfold bind, lift, ret.
  destruct (PyFloat.float_of_str _); cbn; [|discriminate].
  intros H. injection H as <- _. reflexivity.
Qed.

Lemma parse_footer_numeric line w f w' :
  parse_footer line w = (Return f, w') -> numeric (RFooter f) = true.
Proof.
  unfold parse_footer, bind, lift, ret.
  destruct (PyStr.int_of_str _); cbn; [|discriminate].
  destruct (PyFloat.float_of_str _); cbn; [|discriminate].
  intros H. injection H as <- _. reflexivity.
Qed.

(** Every record [read_file] returns holds numbers in its numeric fields. *)
Lemma read_lines_numeric (lines : list string) : forall acc w records w',
  read_lines lines acc w = (Return records, w') ->
  forallb numeric acc = true -> forallb numeric records = true.
Proof.
  induction lines as [|line rest IH]; intros acc w records w' H Hacc.
  - injection H as <- _. exact Hacc.
  - cbn [read_lines] in H.
    destruct (String.eqb (PyStr.slice 0 2 line) HEADER_FIELD_ID).
    { eapply IH; [exact H|]. rewrite forallb_app, Hacc. reflexivity. }
    destruct (String.eqb (PyStr.slice 0 2 line) TRANSACTION_FIELD_ID).
    { unfold bind in H.
      destruct (parse_transaction line w) as [[[t|]|e] w1] eqn:Ht;
        [| eapply IH; eassumption | discriminate].
      eapply IH; [exact H|]. rewrite forallb_app, Hacc.
      cbn [forallb andb]. now rewrite (parse_transaction_numeric _ _ _ _ Ht). }
    destruct (String.eqb (PyStr.slice 0 2 line) FOOTER_FIELD_ID).
    { unfold bind in H.
      destruct (parse_footer line w) as [[f|e] w1] eqn:Hf; [|discriminate].
      eapply IH; [exact H|]. rewrite forallb_app, Hacc.
      cbn [forallb andb]. now rewrite (parse_footer_numeric _ _ _ _ Hf). }
    eapply IH; eassumption.
Qed.

Lemma read_file_numeric w records w' :
  read_file w = (Return records, w') -> forallb numeric records = true.
Proof.
  unfold read_file, bind, open_readlines. intros H.
  eapply read_lines_numeric; [exact H|reflexivity].
Qed.

(** Reading leaves the file as it is. *)
Lemma parse_transaction_file line w o w' :
  parse_transaction line w = (o, w') -> file w' = file w.
Proof.
  unfold parse_transaction.
  destruct (_ || _)%bool; [intros H; injection H as _ <-; reflexivity|].
  destruct (PyStr.int_of_str _); [|intros H; injection H as _ <-; reflexivity].
  destruct (negb _); [intros H; injection H as _ <-; reflexivity|].
  unfold bind, lift, ret.
  destruct (PyFloat.float_of_str _); cbn; intros H; injection H as _ <-;
    reflexivity.
Qed.

Lemma parse_footer_world line w : snd (parse_footer line w) = w.
Proof.
  unfold parse_footer, bind, lift, ret.
  destruct (PyStr.int_of_str _); cbn; [|reflexivity].
  destruct (PyFloat.float_of_str _); reflexivity.
Qed.

Lemma read_lines_file (lines : list string) : forall acc w,
  file (snd (read_lines lines acc w)) = file w.
Proof.
  induction lines as [|line rest IH]; intros acc w.
  - reflexivity.
  - cbn [read_lines].
    destruct (String.eqb (PyStr.slice 0 2 line) HEADER_FIELD_ID); [apply IH|].
    destruct (String.eqb (PyStr.slice 0 2 line) TRANSACTION_FIELD_ID).
    { unfold bind.
      destruct (parse_transaction line w) as [[[t|]|e] w1] eqn:Ht;
        try rewrite IH; eapply parse_transaction_file; exact Ht. }
    destruct (String.eqb (PyStr.slice 0 2 line) FOOTER_FIELD_ID).
    { unfold bind. pose proof (parse_footer_world line w) as Hw.
      destruct (parse_footer line w) as [[f|e] w1]; cbn in Hw; subst w1;
        [apply IH|reflexivity]. }
    apply IH.
Qed.

Lemma read_file_file w : file (snd (read_file w)) = file w.
Proof. unfold read_file, bind, open_readlines. apply read_lines_file. Qed.

(** ** Text *)

Lemma append_nil_r (s : string) : (s ++ "")%string = s.
Proof. induction s as [|c s IH]; cbn; [reflexivity|now rewrite IH]. Qed.

Lemma append_assoc (s t u : string) :
  (s ++ (t ++ u))%string = ((s ++ t) ++ u)%string.
Proof. induction s as [|c s IH]; cbn; [reflexivity|now rewrite IH]. Qed.

(** ** Writing *)

(** When every record can be encoded, the loop of [write_file] appends the
    lines in order. *)
Lemma write_records_format_all (records : list record) : forall lines w,
  format_all records = Return lines ->
  write_records records w =
  (Return tt, mk_world (file w ++ String.concat "" lines)%string (log w)).
Proof.
  induction records as [|r rest IH]; intros lines w H.
  - injection H as <-. cbn. unfold ret. destruct w as [f l]. cbn.
    rewrite <- (append_nil_r f) at 1. reflexivity.
  - cbn [format_all] in H. cbn [write_records].
    destruct (format_record r) as [line|e]; [|discriminate]. cbn in H.
    destruct (format_all rest) as [lines'|e] eqn:Hrest; [|discriminate].
    injection H as <-.
    unfold bind, lift, f_write. rewrite (IH lines' _ eq_refl). cbn.
    destruct lines' as [|l ls]; cbn.
    + now rewrite !append_nil_r.
    + now rewrite <- append_assoc.
Qed.

Lemma write_file_format_all (records : list record) lines w :
  format_all records = Return lines ->
  write_file records w = (Return tt, mk_world (String.concat "" lines) (log w)).
Proof.
  intros H. unfold write_file, bind, open_write.
  now rewrite (write_records_format_all _ _ _ H).
Qed.

(** ** Editing *)

Lemma change_field_value_loop_updated (cls : record_type)
  (field_name new_value : string) (records : list record) :
  (forall r, In r records ->
             isinstance r cls = true -> hasattr r field_name = true ->
             exists r', _replace r field_name new_value = Return r') ->
  forall acc,
    change_field_value_loop cls field_name new_value records acc =
    Return (acc ++ map (updated cls field_name new_value) records).
Proof.
  induction records as [|r rest IH]; intros Hok acc.
  - cbn. now rewrite app_nil_r.
  - cbn [change_field_value_loop map].
    destruct (isinstance r cls && hasattr r field_name)%bool eqn:Hc.
    + assert (Hc' := Hc). apply andb_prop in Hc' as [Hi Hh].
      destruct (Hok r (or_introl eq_refl) Hi Hh) as [r' Hr']. rewrite Hr'. cbn.
      assert (Hu : updated cls field_name new_value r = r')
        by (unfold updated; now rewrite Hc, Hr').
      rewrite Hu, IH by (intros; apply Hok; auto using in_cons).
      now rewrite <- app_assoc.
    + assert (Hu : updated cls field_name new_value r = r)
        by (unfold updated; now rewrite Hc).
      rewrite Hu, IH by (intros; apply Hok; auto using in_cons).
      now rewrite <- app_assoc.
Qed.

Ltac case_name g :=
  repeat match goal with
    | |- context [String.eqb g ?s] =>
        destruct (String.eqb_spec g s) as [->|?]
    | H : context [String.eqb g ?s] |- _ =>
        destruct (String.eqb_spec g s) as [->|?]
    end.

(** On a record of the selected class and one of its fields, [_replace]
    succeeds, the named field becomes the new text and every other attribute
    keeps its value. *)
Lemma updated_field (cls : record_type) (field_name new_value : string)
  (r : record) :
  is_field cls field_name = true ->
  isinstance r cls = true ->
  _replace r field_name new_value
  = Return (updated cls field_name new_value r)
  /\ getattr (updated cls field_name new_value r) field_name
     = Some (VStr new_value)
  /\ (forall g, g <> field_name ->
        getattr (updated cls field_name new_value r) g = getattr r g)
  /\ isinstance (updated cls field_name new_value r) cls = true.
Proof.
  intros Hf Hi.
  destruct r as [h|t|f], cls; try discriminate Hi; cbn in Hf;
    case_name field_name; try discriminate Hf;
    (repeat split; try reflexivity);
    intros g Hg; cbn;
    unfold Header.getattr, Transaction.getattr, Footer.getattr; cbn;
    case_name g; congruence.
Qed.

(** A record of another class, or one without the attribute, is kept. *)
Lemma updated_other (cls : record_type) (field_name new_value : string)
  (r : record) :
  isinstance r cls = false \/ hasattr r field_name = false ->
  updated cls field_name new_value r = r.
Proof.
  intros [H|H]; unfold updated; rewrite H; [reflexivity|].
  now rewrite andb_false_r.
Qed.

(** Whether a record has an attribute depends on its class only. *)
Lemma hasattr_class (cls : record_type) (attr : string) (r r' : record) :
  isinstance r cls = true -> isinstance r' cls = true ->
  hasattr r attr = hasattr r' attr.
Proof.
  intros H H'.
  destruct r, r', cls; try discriminate H; try discriminate H';
    unfold hasattr, getattr, Header.getattr, Transaction.getattr,
      Footer.getattr;
    case_name attr; reflexivity.
Qed.

Lemma hasattr_class_hasattr (cls : record_type) (attr : string) (r : record) :
  isinstance r cls = true -> hasattr r attr = class_hasattr cls attr.
Proof.
  intros H. unfold class_hasattr.
  destruct r, cls; try discriminate H;
    unfold hasattr, getattr, Header.getattr, Transaction.getattr,
      Footer.getattr, is_field, member; cbn [fields_of existsb
      Header._fields Transaction._fields Footer._fields];
    case_name attr; cbn; try reflexivity;
    unfold member; destruct (is_member attr); reflexivity.
Qed.

(** ** Validation *)

Lemma forallb_last {A : Type} (p : A -> bool) (rs : list A) (r : A) :
  forallb p (r :: rs) = true -> p (last rs r) = true.
Proof.
  revert r. induction rs as [|x rs IH]; intros r H.
  - cbn in H. now rewrite andb_true_r in H.
  - cbn [forallb] in H. apply andb_prop in H as [_ H].
    specialize (IH x H). destruct rs as [|y rs]; [exact IH|].
    change (last (x :: y :: rs) r) with (last (y :: rs) r).
    now rewrite (last_cons_default rs y r x).
Qed.

Lemma forallb_removelast {A : Type} (p : A -> bool) (l : list A) :
  forallb p l = true -> forallb p (removelast l) = true.
Proof.
  induction l as [|x l IH]; intros H; [reflexivity|].
  cbn [forallb] in H. apply andb_prop in H as [Hx Hl].
  destruct l as [|y l]; [reflexivity|].
  change (removelast (x :: y :: l)) with (x :: removelast (y :: l)).
  cbn [forallb]. now rewrite Hx, IH.
Qed.

(** The operands of [sum] on Transactions read from the file. *)
Lemma amounts_of_numeric (ts : list record) :
  forallb (fun i => isinstance i cls_Transaction) ts = true ->
  forallb numeric ts = true ->
  exists l, amounts_of ts = Return l /\ floats_of l = Return (amount_values ts).
Proof.
  induction ts as [|i ts IH]; intros Ht Hn.
  - exists []. split; reflexivity.
  - cbn [forallb] in Ht, Hn.
    apply andb_prop in Ht as [Hi Ht]. apply andb_prop in Hn as [Hni Hn].
    destruct (IH Ht Hn) as (l & Hl & Hf).
    destruct i as [h|t|f]; try discriminate Hi.
    destruct t as [fid c a cur]. cbn in Hni.
    destruct c; try discriminate Hni. destruct a as [x|s]; try discriminate Hni.
    exists (FFloat x :: l). cbn. rewrite Hl. cbn. rewrite Hf. split; reflexivity.
Qed.

(** On a non-empty sequence read from the file, [validate_file_structure]
    logs one record and returns; both are those of the first failing check
    of the specification. *)
Lemma validate_records_spec (compensated : bool) (r : record)
  (rs : list record) (w : world) :
  forallb numeric (r :: rs) = true ->
  exists msg,
    validate_records compensated (r :: rs) w
    = (Return (Spec.is_valid (Spec.validateStructure compensated (r :: rs))),
       mk_world (file w) (log w ++ [msg]))
    /\ Spec.verdict_of_log msg
       = Some (Spec.validateStructure compensated (r :: rs)).
Proof.
  intros Hn.
  pose proof (forallb_last _ _ _ Hn) as Hlast.
  assert (Hmid : forallb numeric (removelast rs) = true).
  { cbn [forallb] in Hn. apply andb_prop in Hn as [_ Hn].
    now apply forallb_removelast. }
  unfold validate_records, Spec.validateStructure, Spec.checks.
  rewrite getitem_0_cons, getitem_minus_1_cons, slice_1_minus_1_cons.
  unfold Spec.check1, Spec.check2, Spec.check3, Spec.check4, Spec.check5,
    Spec.middle, Spec.first_record, Spec.last_record.
  cbn [hd_error tl find fst].
  unfold bind at 1, lift at 1.
  destruct r as [h|t|f];
    [| eexists; split; reflexivity | eexists; split; reflexivity].
  cbn [isinstance negb].
  unfold bind at 1, lift at 1.
  destruct (last rs (RHeader h)) as [h'|t'|f'];
    [eexists; split; reflexivity | eexists; split; reflexivity |].
  cbn [isinstance negb].
  destruct (forallb (fun i => isinstance i cls_Transaction) (removelast rs))
    eqn:Hall; cbn [negb]; [| eexists; split; reflexivity].
  destruct f' as [fid tc cs]. cbn in Hlast.
  destruct tc as [n|]; [|discriminate Hlast].
  destruct cs as [x|]; [|discriminate Hlast].
  unfold bind at 1, lift at 1. cbn [attr_total_counter Footer.total_counter
    Footer.control_sum counter_ne].
  unfold PyList.len.
  destruct (n =? Z.of_nat (List.length (removelast rs))); cbn [negb];
    [| eexists; split; reflexivity].
  destruct (amounts_of_numeric _ Hall Hmid) as (l & Hl & Hf).
  rewrite Hl. unfold bind at 1, lift at 1. rewrite Hf.
  unfold bind at 1, lift at 1. cbn [attr_control_sum Footer.control_sum].
  unfold bind at 1, lift at 1. unfold PyFloat.neb, PyFloat.eqb.
  destruct (SFeqb _ _); cbn [negb]; eexists; split; reflexivity.
Qed.

(** [find] returns the first element that satisfies the test. *)
Lemma find_first {A : Type} (p : A -> bool) (l : list A) :
  match find p l with
  | Some x =>
      exists pre post,
        l = pre ++ x :: post /\ p x = true /\ forallb (fun y => negb (p y)) pre = true
  | None => forallb (fun y => negb (p y)) l = true
  end.
Proof.
  induction l as [|a l IH]; [reflexivity|].
  cbn [find]. destruct (p a) eqn:Ha.
  - exists [], l. repeat split. exact Ha.
  - destruct (find p l) as [x|].
    + destruct IH as (pre & post & -> & Hx & Hpre).
      exists (a :: pre), post. repeat split; [exact Hx|].
      cbn [forallb]. now rewrite Ha, Hpre.
    + cbn [forallb]. now rewrite Ha, IH.
Qed.

Lemma forallb_eq {A : Type} (p q : A -> bool) (l : list A) :
  (forall x, p x = q x) -> forallb p l = forallb q l.
Proof.
  intros H. induction l as [|a l IH]; [reflexivity|].
  cbn [forallb]. now rewrite H, IH.
Qed.

(** The verdict of the specification names the first check that fails: every
    check before it in the fixed order holds; [Valid] means all five hold. *)
Lemma validateStructure_first_failing (compensated : bool) (S : list record) :
  match Spec.validateStructure compensated S with
  | Spec.Invalid why =>
      exists earlier check later,
        Spec.checks compensated = earlier ++ (check, why) :: later
        /\ check S = false
        /\ forallb (fun c => fst c S) earlier = true
  | Spec.Valid => forallb (fun c => fst c S) (Spec.checks compensated) = true
  end.
Proof.
  unfold Spec.validateStructure.
  pose proof (find_first (fun c => negb (fst c S)) (Spec.checks compensated)) as H.
  destruct (find _ _) as [[check why]|].
  - destruct H as (pre & post & Heq & Hx & Hpre).
    exists pre, check, post. split; [exact Heq|]. split.
    + cbn in Hx. now destruct (check S).
    + rewrite <- Hpre. apply forallb_eq. intros c. now rewrite negb_involutive.
  - rewrite <- H. apply forallb_eq. intros c. now rewrite negb_involutive.
Qed.

(** * The claims *)

(** ** C1: the round trip of a Transaction *)

(** *** Text of fixed width *)

Local Open Scope string_scope.

Lemma length_append (s t : string) :
  String.length (s ++ t) = (String.length s + String.length t)%nat.
Proof. induction s as [|c s IH]; cbn; [reflexivity|now rewrite IH]. Qed.

Lemma length_fill (c : ascii) (n : nat) : String.length (PyStr.fill c n) = n.
Proof. induction n as [|n IH]; cbn; [reflexivity|now rewrite IH]. Qed.

Lemma substring_0_append (a b : string) :
  substring 0 (String.length a) (a ++ b) = a.
Proof.
  induction a as [|c a IH]; cbn.
  - destruct b; reflexivity.
  - now rewrite IH.
Qed.

Lemma substring_skip_append (a b : string) (m : nat) :
  substring (String.length a) m (a ++ b) = substring 0 m b.
Proof. induction a as [|c a IH]; cbn; [reflexivity|exact IH]. Qed.

(** The field that occupies the columns [lo .. hi) of a line. *)
Lemma slice_field (a b rest : string) (lo hi : nat) :
  String.length a = lo -> String.length b = (hi - lo)%nat ->
  PyStr.slice lo hi (a ++ b ++ rest) = b.
Proof.
  intros <- Hb. unfold PyStr.slice. rewrite substring_skip_append, <- Hb.
  apply substring_0_append.
Qed.

Lemma forallb_string_append (p : ascii -> bool) (s t : string) :
  PyStr.forallb_string p (s ++ t)
  = (PyStr.forallb_string p s && PyStr.forallb_string p t)%bool.
Proof.
  induction s as [|c s IH]; cbn; [reflexivity|].
  now rewrite IH, andb_assoc.
Qed.

Lemma forallb_string_fill (p : ascii -> bool) (c : ascii) (n : nat) :
  p c = true -> PyStr.forallb_string p (PyStr.fill c n) = true.
Proof. intros H. induction n as [|n IH]; cbn; [reflexivity|now rewrite H, IH]. Qed.

(** A text of decimal digits holds no whitespace, sign or underscore. *)
Lemma isdecimal_char_plain (c : ascii) :
  PyStr.isdecimal_char c = true ->
  PyStr.isspace c = false /\ Ascii.eqb c "+" = false /\ Ascii.eqb c "-" = false
  /\ Ascii.eqb c "_" = false /\ PyStr.isdigit_char c = true
  /\ PyFloat.lower c = c /\ Ascii.eqb c "i" = false /\ Ascii.eqb c "n" = false.
Proof.
  destruct c as [[] [] [] [] [] [] [] []]; cbn; intros H; try discriminate H;
    repeat split; reflexivity.
Qed.

Lemma lstrip_decimal (s : string) :
  PyStr.forallb_string PyStr.isdecimal_char s = true -> PyStr.lstrip s = s.
Proof.
  destruct s as [|c s]; [reflexivity|]. cbn [PyStr.forallb_string PyStr.lstrip].
  intros H. apply andb_prop in H as [Hc _].
  now rewrite (proj1 (isdecimal_char_plain c Hc)).
Qed.

Lemma rstrip_decimal (s : string) :
  PyStr.forallb_string PyStr.isdecimal_char s = true -> PyStr.rstrip s = s.
Proof.
  induction s as [|c s IH]; [reflexivity|].
  cbn [PyStr.forallb_string PyStr.rstrip]. intros H.
  apply andb_prop in H as [Hc Hs]. rewrite (IH Hs).
  destruct s; [|reflexivity].
  now rewrite (proj1 (isdecimal_char_plain c Hc)).
Qed.

Lemma strip_decimal (s : string) :
  PyStr.forallb_string PyStr.isdecimal_char s = true -> PyStr.strip s = s.
Proof.
  intros H. unfold PyStr.strip. rewrite (lstrip_decimal s H).
  now apply rstrip_decimal.
Qed.

Lemma drop_underscores_decimal (s : string) : forall prev,
  PyStr.forallb_string PyStr.isdecimal_char s = true ->
  PyStr.drop_underscores prev s = Some s.
Proof.
  induction s as [|c s IH]; intros prev H; [reflexivity|].
  cbn [PyStr.forallb_string] in H. apply andb_prop in H as [Hc Hs].
  cbn [PyStr.drop_underscores].
  destruct (isdecimal_char_plain c Hc) as (_ & _ & _ & Hu & _). rewrite Hu.
  now rewrite (IH _ Hs).
Qed.

Lemma split_sign_decimal (s : string) :
  PyStr.forallb_string PyStr.isdecimal_char s = true ->
  PyStr.split_sign s = (false, s).
Proof.
  destruct s as [|c s]; [reflexivity|]. cbn [PyStr.forallb_string].
  intros H. apply andb_prop in H as [Hc _].
  destruct (isdecimal_char_plain c Hc) as (_ & Hp & Hm & _).
  unfold PyStr.split_sign. now rewrite Hm, Hp.
Qed.

Lemma isdigit_decimal (s : string) :
  s <> "" -> PyStr.forallb_string PyStr.isdecimal_char s = true ->
  PyStr.isdigit s = true.
Proof.
  destruct s as [|c s]; [congruence|]. intros _. unfold PyStr.isdigit.
  generalize (String c s). clear. intros s.
  induction s as [|c s IH]; [reflexivity|]. cbn [PyStr.forallb_string].
  intros H. apply andb_prop in H as [Hc Hs]. rewrite (IH Hs), andb_true_r.
  now destruct (isdecimal_char_plain c Hc) as (_ & _ & _ & _ & Hd & _).
Qed.

(** *** Decimal numerals *)

Lemma string_of_uint_decimal (u : Decimal.uint) :
  PyStr.forallb_string PyStr.isdecimal_char (NilEmpty.string_of_uint u) = true.
Proof. induction u; cbn; try reflexivity; exact IHu. Qed.

Lemma length_string_of_uint (u : Decimal.uint) :
  String.length (NilEmpty.string_of_uint u) = Decimal.nb_digits u.
Proof. induction u; cbn; try reflexivity; now rewrite IHu. Qed.

(** [str(z)] of a natural number is the numeral of [z], not empty. *)
Lemma str_of_int_nonneg (z : Z) :
  0 <= z ->
  exists u, u <> Decimal.Nil
            /\ PyStr.str_of_int z = NilEmpty.string_of_uint u
            /\ Z.of_uint u = z
            /\ Z.to_int z = Decimal.Pos u.
Proof.
  intros Hz. unfold PyStr.str_of_int.
  pose proof (DecimalZ.of_to z) as Hof.
  destruct z as [|p|p]; [| |lia].
  - exists Decimal.zero. repeat split. discriminate.
  - cbn [Z.to_int] in *. exists (Pos.to_uint p).
    pose proof (DecimalPos.Unsigned.to_uint_nonnil p) as Hn.
    repeat split; [exact Hn| |exact Hof].
    cbn [NilZero.string_of_int]. unfold NilZero.string_of_uint.
    destruct (Pos.to_uint p); [congruence|reflexivity..].
Qed.

Lemma uint_of_string_zeros (k : nat) (s : string) :
  NilEmpty.uint_of_string (PyStr.fill "0" k ++ s)
  = option_map (Nat.iter k Decimal.D0) (NilEmpty.uint_of_string s).
Proof.
  induction k as [|k IH]; cbn [PyStr.fill append Nat.iter].
  - now destruct (NilEmpty.uint_of_string s).
  - cbn [NilEmpty.uint_of_string]. rewrite IH.
    now destruct (NilEmpty.uint_of_string s).
Qed.

Lemma of_uint_zeros (k : nat) (u : Decimal.uint) :
  Z.of_uint (Nat.iter k Decimal.D0 u) = Z.of_uint u.
Proof. induction k as [|k IH]; [reflexivity|exact IH]. Qed.

(** Leading zeros do not change the value of a numeral. *)
Lemma digits_value_zeros (k : nat) (u : Decimal.uint) :
  u <> Decimal.Nil ->
  PyStr.digits_value (PyStr.fill "0" k ++ NilEmpty.string_of_uint u)
  = Some (Z.of_uint u).
Proof.
  intros Hu. unfold PyStr.digits_value.
  rewrite forallb_string_append, forallb_string_fill, string_of_uint_decimal
    by reflexivity.
  rewrite uint_of_string_zeros, NilEmpty.usu. cbn [andb option_map].
  rewrite of_uint_zeros.
  destruct (PyStr.fill "0" k ++ NilEmpty.string_of_uint u) eqn:E; [|reflexivity].
  exfalso. apply (f_equal String.length) in E.
  rewrite length_append, length_fill, length_string_of_uint in E. cbn in E.
  destruct u; cbn in E; try congruence; lia.
Qed.

(** [zfill] of a numeral: zeros in front. *)
Lemma zfill_numeral (w : nat) (u : Decimal.uint) :
  PyStr.zfill w (NilEmpty.string_of_uint u)
  = PyStr.fill "0" (w - Decimal.nb_digits u) ++ NilEmpty.string_of_uint u.
Proof.
  unfold PyStr.zfill. rewrite length_string_of_uint.
  pose proof (string_of_uint_decimal u) as Hd.
  destruct (NilEmpty.string_of_uint u) as [|c s]; [now rewrite append_nil_r|].
  cbn [PyStr.forallb_string] in Hd. apply andb_prop in Hd as [Hc _].
  destruct (isdecimal_char_plain c Hc) as (_ & Hp & Hm & _).
  now rewrite Hp, Hm.
Qed.

Lemma length_zfill_numeral (w : nat) (u : Decimal.uint) :
  (Decimal.nb_digits u <= w)%nat ->
  String.length (PyStr.zfill w (NilEmpty.string_of_uint u)) = w.
Proof.
  intros H. rewrite zfill_numeral, length_append, length_fill,
    length_string_of_uint. lia.
Qed.

Lemma zfill_numeral_decimal (w : nat) (u : Decimal.uint) :
  PyStr.forallb_string PyStr.isdecimal_char
    (PyStr.zfill w (NilEmpty.string_of_uint u)) = true.
Proof.
  rewrite zfill_numeral, forallb_string_append, forallb_string_fill,
    string_of_uint_decimal by reflexivity. reflexivity.
Qed.

(** [int] reads back what [str] and [zfill] wrote. *)
Lemma int_of_str_zfill (w : nat) (u : Decimal.uint) :
  u <> Decimal.Nil ->
  (Decimal.nb_digits u <= w)%nat ->
  Z.of_nat w <= PyStr.int_max_str_digits ->
  PyStr.int_of_str (PyStr.zfill w (NilEmpty.string_of_uint u))
  = Some (Z.of_uint u).
Proof.
  intros Hu Hw Hmax. unfold PyStr.int_of_str.
  pose proof (zfill_numeral_decimal w u) as Hd.
  rewrite (strip_decimal _ Hd), (drop_underscores_decimal _ _ Hd),
    (split_sign_decimal _ Hd).
  unfold PyStr.len. rewrite (length_zfill_numeral w u Hw).
  apply Z.leb_le in Hmax. rewrite Hmax.
  rewrite zfill_numeral, (digits_value_zeros _ _ Hu). reflexivity.
Qed.

(** The number of digits of a numeral *)

Lemma of_uint_acc_lower (d : Decimal.uint) : forall acc : positive,
  Zpos acc * 10 ^ Z.of_nat (Decimal.nb_digits d)
  <= Zpos (Pos.of_uint_acc d acc).
Proof.
  induction d; intros acc; cbn [Pos.of_uint_acc Decimal.nb_digits];
    try (rewrite Z.mul_1_r; lia);
    rewrite Nat2Z.inj_succ, Z.pow_succ_r by lia;
    (eapply Z.le_trans; [|apply IHd]);
    rewrite ?Pos2Z.inj_add, Pos2Z.inj_mul;
    apply Z.le_trans with (Zpos acc * 10 * 10 ^ Z.of_nat (Decimal.nb_digits d));
    try lia;
    apply Z.mul_le_mono_nonneg_r; try lia; apply Z.pow_nonneg; lia.
Qed.

(** A numeral that starts with a digit other than zero is at least the
    power of ten of its length less one. *)
Lemma of_uint_lower (u : Decimal.uint) :
  match u with
  | Decimal.Nil | Decimal.D0 _ => True
  | _ => 10 ^ (Z.of_nat (Decimal.nb_digits u) - 1) <= Z.of_uint u
  end.
Proof.
  destruct u; try exact I;
    cbn [Decimal.nb_digits]; rewrite Nat2Z.inj_succ;
    replace (Z.succ (Z.of_nat (Decimal.nb_digits u)) - 1)
      with (Z.of_nat (Decimal.nb_digits u)) by lia;
    unfold Z.of_uint; cbn [Pos.of_uint Z.of_N];
    (eapply Z.le_trans; [|apply of_uint_acc_lower]);
    assert (0 <= 10 ^ Z.of_nat (Decimal.nb_digits u)) by (apply Z.pow_nonneg; lia);
    lia.
Qed.

Lemma to_uint_head (p : positive) :
  match Pos.to_uint p with
  | Decimal.Nil | Decimal.D0 _ => False
  | _ => True
  end.
Proof.
  pose proof (DecimalPos.Unsigned.to_of (Pos.to_uint p)) as H.
  rewrite DecimalPos.Unsigned.of_to in H. cbn [N.to_uint] in H.
  pose proof (DecimalPos.Unsigned.to_uint_nonzero p) as Hz.
  pose proof (DecimalPos.Unsigned.to_uint_nonnil p) as Hn.
  destruct (Pos.to_uint p) as [|d| | | | | | | | | ]; try exact I;
    [congruence|].
  rewrite DecimalFacts.unorm_D0 in H.
  unfold Decimal.unorm in H.
  destruct (Decimal.nzhead d) eqn:E; try discriminate H.
  - injection H as ->. now apply Hz.
  - exact (DecimalFacts.nzhead_nonzero _ _ E).
Qed.

(** [str(z)] has at most [k] characters when [0 <= z < 10 ^ k]. *)
Lemma nb_digits_bound (z : Z) (k : nat) (u : Decimal.uint) :
  0 <= z < 10 ^ Z.of_nat k -> (1 <= k)%nat ->
  Z.to_int z = Decimal.Pos u -> (Decimal.nb_digits u <= k)%nat.
Proof.
  intros Hz Hk Hu. destruct z as [|p|p]; [| |lia].
  - injection Hu as <-. cbn. lia.
  - cbn [Z.to_int] in Hu. injection Hu as <-.
    pose proof (to_uint_head p) as Hh. pose proof (of_uint_lower (Pos.to_uint p)) as Hl.
    assert (Hv : Z.of_uint (Pos.to_uint p) = Zpos p).
    { unfold Z.of_uint. now rewrite DecimalPos.Unsigned.of_to. }
    rewrite Hv in Hl.
    assert (H10 : 10 ^ (Z.of_nat (Decimal.nb_digits (Pos.to_uint p)) - 1)
                  <= Zpos p)
      by (destruct (Pos.to_uint p); solve [contradiction | exact Hl]).
    destruct (Nat.le_gt_cases (Decimal.nb_digits (Pos.to_uint p)) k) as [|Hgt];
      [assumption|exfalso].
    assert (10 ^ Z.of_nat k <= 10 ^ (Z.of_nat (Decimal.nb_digits (Pos.to_uint p)) - 1))
      by (apply Z.pow_le_mono_r; lia).
    lia.
Qed.

Lemma six_digits_allowed : Z.of_nat 6 <= PyStr.int_max_str_digits.
Proof. discriminate. Qed.

(** [str] of a natural number of at most [k] digits returns its numeral. *)
Lemma str_nonneg (z : Z) (k : nat) :
  0 <= z < 10 ^ Z.of_nat k -> (1 <= k)%nat ->
  Z.of_nat k <= PyStr.int_max_str_digits ->
  PyStr.str z = Return (PyStr.str_of_int z).
Proof.
  intros Hz Hk Hmax.
  destruct (str_of_int_nonneg z (proj1 Hz)) as (u & Hu & Hs & Hv & Hi).
  pose proof (nb_digits_bound z k u Hz Hk Hi) as Hn.
  unfold PyStr.str. rewrite Hs.
  rewrite (split_sign_decimal _ (string_of_uint_decimal u)). cbn [snd].
  unfold PyStr.len. rewrite length_string_of_uint.
  replace (Z.leb (Z.of_nat (Decimal.nb_digits u)) PyStr.int_max_str_digits)
    with true by (symmetry; apply Z.leb_le; lia).
  reflexivity.
Qed.

Lemma span_decimal (s : string) :
  PyStr.forallb_string PyStr.isdecimal_char s = true ->
  PyFloat.span PyStr.isdecimal_char s = (s, "").
Proof.
  induction s as [|c s IH]; [reflexivity|]. cbn [PyStr.forallb_string].
  intros H. apply andb_prop in H as [Hc Hs].
  cbn [PyFloat.span]. now rewrite Hc, (IH Hs).
Qed.

(** A text that starts with a decimal digit is none of [inf], [infinity]
    and [nan]. *)
Lemma decimal_is_no_word (s : string) :
  PyStr.forallb_string PyStr.isdecimal_char s = true -> s <> "" ->
  (String.eqb (PyFloat.lower_string s) "inf"
   || String.eqb (PyFloat.lower_string s) "infinity")%bool = false
  /\ String.eqb (PyFloat.lower_string s) "nan" = false.
Proof.
  destruct s as [|c s]; [congruence|]. cbn [PyStr.forallb_string].
  intros H _. apply andb_prop in H as [Hc _].
  destruct (isdecimal_char_plain c Hc) as (_ & _ & _ & _ & _ & Hl & Hi & Hn).
  cbn [PyFloat.lower_string String.eqb]. now rewrite Hl, Hi, Hn.
Qed.

(** [float] of a zero-filled numeral is the float of its value. *)
Lemma float_of_str_zfill (w : nat) (u : Decimal.uint) :
  u <> Decimal.Nil ->
  PyFloat.float_of_str (PyStr.zfill w (NilEmpty.string_of_uint u))
  = Some (PyFloat.of_decimal false (Z.of_uint u) 0).
Proof.
  intros Hu. unfold PyFloat.float_of_str.
  pose proof (zfill_numeral_decimal w u) as Hd.
  pose proof (digits_value_zeros (w - Decimal.nb_digits u) u Hu) as Hv.
  rewrite <- zfill_numeral in Hv.
  rewrite (strip_decimal _ Hd), (drop_underscores_decimal _ _ Hd),
    (split_sign_decimal _ Hd).
  assert (Hne : PyStr.zfill w (NilEmpty.string_of_uint u) <> "").
  { intros E. rewrite E in Hv. discriminate Hv. }
  destruct (decimal_is_no_word _ Hd Hne) as [H1 H2]. rewrite H1, H2.
  unfold PyFloat.decimal_of_str. rewrite (span_decimal _ Hd).
  rewrite append_nil_r, Hv. reflexivity.
Qed.

(** The six currencies have three characters and no whitespace. *)
Lemma currency_plain (currency : string) :
  in_CURRENCY_VALUES currency = true ->
  PyStr.ljust 3 currency = currency
  /\ String.length currency = 3%nat
  /\ PyStr.strip currency = currency.
Proof.
  unfold in_CURRENCY_VALUES, CURRENCY_VALUES. cbn [existsb].
  case_name currency; intros H; try discriminate H; repeat split; reflexivity.
Qed.

(** *** The round trip, when the cents survive *)

(** A Transaction with a counter of at most six digits, an amount as the
    decoder computes it from at most twelve digits of cents, and one of the
    six currencies is decoded from its own line exactly when
    [int(amount * 100)] gives the cents back. *)
Lemma transaction_round_trip_when_cents_survive
  (counter cents : Z) (currency : string) (w : world) :
  0 <= counter <= 999999 ->
  0 <= cents < 10 ^ 12 ->
  in_CURRENCY_VALUES currency = true ->
  let r :=
    Transaction.mk TRANSACTION_FIELD_ID (IInt counter)
      (FFloat (decoded_amount cents)) currency in
  int_times_100 (Transaction.amount r) = Return cents ->
  exists line,
    format_transaction r = Return line
    /\ parse_transaction line w = (Return (Some r), w).
Proof.
  intros Hc Hm Hcur r Hcents.
  destruct (str_of_int_nonneg counter (proj1 Hc)) as (uc & Huc & Hsc & Hvc & Hic).
  destruct (str_of_int_nonneg cents (proj1 Hm)) as (um & Hum & Hsm & Hvm & Him).
  assert (Hnc : (Decimal.nb_digits uc <= 6)%nat).
  { apply (nb_digits_bound counter 6 uc); [cbn; lia|lia|exact Hic]. }
  assert (Hnm : (Decimal.nb_digits um <= 12)%nat).
  { apply (nb_digits_bound cents 12 um); [cbn; lia|lia|exact Him]. }
  destruct (currency_plain currency Hcur) as (Hlj & Hlen & Hstrip).
  set (A := PyStr.zfill 6 (NilEmpty.string_of_uint uc)).
  set (B := PyStr.zfill 12 (NilEmpty.string_of_uint um)).
  set (rest := PyStr.spaces 97 ++ PyStr.newline).
  assert (HA : String.length A = 6%nat) by (now apply length_zfill_numeral).
  assert (HB : String.length B = 12%nat) by (now apply length_zfill_numeral).
  exists ("02" ++ A ++ B ++ currency ++ rest).
  split.
  - unfold format_transaction.
    cbn [Transaction.field_id Transaction.counter Transaction.currency r
           str_of_counter].
    rewrite (str_nonneg counter 6) by (cbn; lia || discriminate).
    cbn [obind]. rewrite Hcents. cbn [obind].
    rewrite (str_nonneg cents 12) by (cbn; lia || discriminate).
    cbn [obind]. rewrite Hsc, Hsm, Hlj. reflexivity.
  - unfold parse_transaction.
    assert (S1 : PyStr.slice 2 8 ("02" ++ A ++ B ++ currency ++ rest) = A)
      by (apply slice_field; [reflexivity|exact HA]).
    assert (S2 : PyStr.slice 8 20 ("02" ++ A ++ B ++ currency ++ rest) = B).
    { rewrite (append_assoc "02" A). apply slice_field; [|exact HB].
      rewrite length_append, HA. reflexivity. }
    assert (S3 : PyStr.slice 20 23 ("02" ++ A ++ B ++ currency ++ rest)
                 = currency).
    { rewrite (append_assoc "02" A), (append_assoc ("02" ++ A) B).
      apply slice_field; [|exact Hlen].
      rewrite !length_append, HA, HB. reflexivity. }
    rewrite S1, S2, S3.
    rewrite (strip_decimal A (zfill_numeral_decimal 6 uc)),
      (strip_decimal B (zfill_numeral_decimal 12 um)), Hstrip.
    unfold PyStr.len. rewrite HB. cbn [Z.of_nat Pos.of_succ_nat Z.eqb
      Pos.succ Pos.eqb negb orb].
    assert (HBne : B <> "") by (intros E; rewrite E in HB; discriminate HB).
    rewrite (isdigit_decimal B HBne (zfill_numeral_decimal 12 um)).
    cbn [negb orb].
    unfold A. rewrite (int_of_str_zfill 6 uc Huc Hnc six_digits_allowed), Hcur.
    cbn [negb].
    unfold B. rewrite (float_of_str_zfill 12 um Hum).
    unfold bind, lift, ret, or_raise. rewrite Hvc, Hvm. reflexivity.
Qed.

(** The Transaction of 20.00 USD of the sample is such a record. *)
Lemma transaction_round_trip_20_00 :
  exists line,
    format_transaction
      (Transaction.mk "02" (IInt 1) (FFloat (decoded_amount 2000)) "USD")
    = Return line
    /\ parse_transaction line (mk_world "" [])
       = (Return
            (Some (Transaction.mk "02" (IInt 1) (FFloat (decoded_amount 2000))
                     "USD")),
          mk_world "" []).
Proof.
  apply (transaction_round_trip_when_cents_survive 1 2000 "USD");
    [lia | cbn; lia | reflexivity | vm_compute; reflexivity].
Qed.

(** C1 (the code departs from it).  The Transaction of counter 1, amount
    0.29 and currency USD is the record the line with amount field
    [000000000029] decodes to.  [format_transaction] computes
    [int(0.29 * 100)], which is 28 because the float product is below 29 and
    [int] truncates; it writes [000000000028], and that line decodes to the
    amount 0.28: decoding the encoded line does not give the record back. *)
Theorem transaction_round_trip_loses_a_cent :
  forall w : world,
    parse_transaction Sample.transaction_0_29_line w
    = (Return (Some Sample.transaction_0_29), w)
    /\ PyFloat.to_int (PyFloat.mul (Sample.money 29) (PyFloat.of_int 100))
       = Return 28
    /\ format_transaction Sample.transaction_0_29
       = Return (Sample.line "02000001000000000028USD")
    /\ parse_transaction (Sample.line "02000001000000000028USD") w
       = (Return
            (Some (Transaction.mk "02" (IInt 1) (FFloat (Sample.money 28)) "USD")),
          w)
    /\ PyFloat.eqb (Sample.money 28) (Sample.money 29) = false
    /\ Transaction.mk "02" (IInt 1) (FFloat (Sample.money 28)) "USD"
       <> Sample.transaction_0_29.
Proof.
  intros w. repeat split; try (vm_compute; reflexivity).
  intros H. apply (f_equal Transaction.amount) in H. vm_compute in H.
  discriminate H.
Qed.

Local Open Scope list_scope.


(** ** C2: order of the checks and short-circuit *)

(** C2.  On every non-empty sequence [read_file] decodes, the verdict
    [validate_file_structure] returns and the one reason it logs are those of
    [Spec.validateStructure], which evaluates the five checks in the fixed
    order (first record a Header, last record a Footer, all records between
    them Transactions, total counter, rounded control sum) and reports the
    first that fails, every earlier one holding.  In particular a sequence
    whose middle slice holds a record that is no Transaction is never
    reported valid nor with the reason of check (4) or (5), and it is
    reported with the reason of check (3) as soon as checks (1) and (2)
    hold. *)
Theorem validate_file_structure_reports_first_failing_check :
  forall (compensated : bool) (w w' : world) (r : record) (rs : list record),
    read_file w = (Return (r :: rs), w') ->
    let S := r :: rs in
    let v := Spec.validateStructure compensated S in
    (exists msg,
        validate_file_structure compensated w
        = (Return (Spec.is_valid v), mk_world (file w') (log w' ++ [msg]))
        /\ Spec.verdict_of_log msg = Some v)
    /\ match v with
       | Spec.Invalid why =>
           exists earlier check later,
             Spec.checks compensated = earlier ++ (check, why) :: later
             /\ check S = false
             /\ forallb (fun c => fst c S) earlier = true
       | Spec.Valid =>
           forallb (fun c => fst c S) (Spec.checks compensated) = true
       end
    /\ ((exists x, In x (Spec.middle S)
                    /\ isinstance x cls_Transaction = false) ->
        v <> Spec.Valid
        /\ v <> Spec.Invalid Spec.Total_counter_mismatch
        /\ v <> Spec.Invalid Spec.Control_sum_mismatch
        /\ (Spec.check1 S = true -> Spec.check2 S = true ->
            v = Spec.Invalid Spec.Not_all_Transactions)).
Proof.
  intros compensated w w' r rs Hread S v.
  split; [|split].
  - destruct (validate_records_spec compensated r rs w'
                (read_file_numeric _ _ _ Hread)) as (msg & Hv & Hmsg).
    exists msg. split; [|exact Hmsg].
    unfold validate_file_structure. now rewrite (bind_Return _ _ _ _ _ Hread).
  - apply validateStructure_first_failing.
  - intros (x & Hin & Hx).
    assert (H3 : Spec.check3 S = false).
    { unfold Spec.check3.
      destruct (forallb _ (Spec.middle S)) eqn:Hall; [|reflexivity].
      rewrite forallb_forall in Hall. rewrite (Hall x Hin) in Hx.
      discriminate Hx. }
    subst v. unfold Spec.validateStructure, Spec.checks.
    cbn [find fst]. rewrite H3.
    destruct (Spec.check1 S), (Spec.check2 S); cbn [negb];
      repeat split; try discriminate; intros; try discriminate; reflexivity.
Qed.

(** The file of the sample holds a Header, two Transactions and a Footer that
    balances them: the verdict is [Valid], logged and returned. *)
Lemma validate_file_structure_sample :
  read_file (mk_world Sample.file_1h2t1f [])
  = (Return Sample.records_1h2t1f, mk_world Sample.file_1h2t1f [])
  /\ exists msg,
       validate_file_structure false (mk_world Sample.file_1h2t1f [])
       = (Return true, mk_world Sample.file_1h2t1f ([] ++ [msg]))
       /\ Spec.verdict_of_log msg = Some Spec.Valid.
Proof.
  assert (H : read_file (mk_world Sample.file_1h2t1f [])
              = (Return Sample.records_1h2t1f, mk_world Sample.file_1h2t1f []))
    by (vm_compute; reflexivity).
  split; [exact H|].
  exact (proj1 (validate_file_structure_reports_first_failing_check false
                  _ _ _ _ H)).
Defined.

(** On the file with two Header records check (5) fails as well, the
    control sum being that of two Transactions; the reason logged is that of
    check (3), the first that fails. *)
Lemma validate_file_structure_two_headers :
  forall compensated : bool,
    validate_file_structure compensated (mk_world Sample.file_2h [])
    = (Return false, mk_world Sample.file_2h [Error_not_all_transactions])
    /\ Spec.check5 compensated
         [RHeader Sample.header; RHeader Sample.header_2;
          RTransaction Sample.transaction_1; RFooter Sample.footer] = false.
Proof. intros compensated. destruct compensated; split; vm_compute; reflexivity. Qed.

(** ** C3: the verdict on every sequence *)

(** Every non-empty sequence [read_file] decodes gets a verdict: the call
    returns a boolean and logs one record, whatever the records are. *)
Lemma validate_file_structure_returns_on_non_empty
  (compensated : bool) (w w' : world) (r : record) (rs : list record) :
  read_file w = (Return (r :: rs), w') ->
  exists b msg,
    validate_file_structure compensated w
    = (Return b, mk_world (file w') (log w' ++ [msg])).
Proof.
  intros Hread.
  destruct (validate_records_spec compensated r rs w'
              (read_file_numeric _ _ _ Hread)) as (msg & Hv & _).
  eexists _, msg. unfold validate_file_structure.
  rewrite (bind_Return _ _ _ _ _ Hread). exact Hv.
Qed.

(** C3 (the code departs from it).  On the empty sequence
    [validate_file_structure] gives no verdict: [records[0]] raises
    [IndexError] before any check, and nothing is logged.  The empty file is
    such an input, and so is a file of lines with unknown tags only. *)
Theorem validate_file_structure_raises_on_empty_sequence :
  forall (compensated : bool) (w : world),
    validate_records compensated [] w = (Raise IndexError, w)
    /\ read_file (mk_world "" (log w)) = (Return [], mk_world "" (log w))
    /\ validate_file_structure compensated (mk_world "" (log w))
       = (Raise IndexError, mk_world "" (log w))
    /\ validate_file_structure compensated
         (mk_world ("99 note" ++ PyStr.newline) (log w))
       = (Raise IndexError, mk_world ("99 note" ++ PyStr.newline) (log w)).
Proof.
  intros compensated w. repeat split.
Qed.

(** ** C9: the control sum is compared after rounding *)

(** C9.  Once checks (1) to (4) hold on a sequence [read_file] decodes, the
    verdict is the comparison of [round(sum of the middle-slice amounts, 2)]
    with [round(Footer.control_sum, 2)]: valid exactly when the two rounded
    floats are equal. *)
Theorem validate_file_structure_compares_rounded_sums :
  forall (compensated : bool) (w w' : world) (r : record) (rs : list record)
         (f : Footer.t) (control_sum : float),
    read_file w = (Return (r :: rs), w') ->
    Spec.check1 (r :: rs) = true ->
    Spec.check2 (r :: rs) = true ->
    Spec.check3 (r :: rs) = true ->
    Spec.check4 (r :: rs) = true ->
    Spec.last_record (r :: rs) = Some (RFooter f) ->
    Footer.control_sum f = FFloat control_sum ->
    fst (validate_file_structure compensated w)
    = Return
        (PyFloat.eqb
           (PyFloat.round2
              (PyBuiltins.sum compensated
                 (amount_values (Spec.middle (r :: rs)))))
           (PyFloat.round2 control_sum)).
Proof.
  intros compensated w w' r rs f control_sum Hread H1 H2 H3 H4 Hlast Hcs.
  destruct (validate_records_spec compensated r rs w'
              (read_file_numeric _ _ _ Hread)) as (msg & Hv & _).
  unfold validate_file_structure. rewrite (bind_Return _ _ _ _ _ Hread), Hv.
  cbn [fst]. f_equal.
  unfold Spec.validateStructure, Spec.checks. cbn [find fst].
  rewrite H1, H2, H3, H4. cbn [negb].
  unfold Spec.check5. rewrite Hlast, Hcs.
  destruct (PyFloat.eqb _ _); reflexivity.
Qed.

(** A file whose two amounts 0.10 and 0.20 add up, left to right, to
    0.30000000000000004 and whose Footer declares 0.30: the two floats
    differ, their roundings agree, and the file is valid. *)
Lemma validate_file_structure_rounding_sample :
  read_file (mk_world Sample.file_rounding [])
  = (Return (RHeader Sample.header :: Sample.records_rounding),
     mk_world Sample.file_rounding [])
  /\ PyFloat.eqb (PyBuiltins.sum false [Sample.money 10; Sample.money 20])
       (Sample.money 30) = false
  /\ fst (validate_file_structure false (mk_world Sample.file_rounding []))
     = Return true.
Proof.
  assert (H : read_file (mk_world Sample.file_rounding [])
              = (Return (RHeader Sample.header :: Sample.records_rounding),
                 mk_world Sample.file_rounding []))
    by (vm_compute; reflexivity).
  split; [exact H|]. split; [vm_compute; reflexivity|].
  rewrite (validate_file_structure_compares_rounded_sums false _ _ _ _
             Sample.footer_rounding (Sample.money 30) H
             eq_refl eq_refl eq_refl eq_refl eq_refl eq_refl).
  vm_compute. reflexivity.
Defined.

(** The figures of the specification: a control sum of 20.005 against one
    amount of 20.00 is accepted, because both round to 20.0, although the
    floats differ. *)
Lemma control_sum_20_005_is_accepted :
  forall (compensated : bool) (w : world),
    let records :=
      [RHeader Sample.header;
       RTransaction (Transaction.mk "02" (IInt 1) (FFloat (Sample.money 2000)) "USD");
       RFooter (Footer.mk "03" (IInt 1)
                  (FFloat (PyFloat.of_decimal false 20005 (-3))))] in
    PyFloat.eqb (Sample.money 2000) (PyFloat.of_decimal false 20005 (-3)) = false
    /\ validate_records compensated records w
       = (Return true, mk_world (file w) (log w ++ [Info_structure_valid])).
Proof.
  intros compensated w. cbv zeta. split; [vm_compute; reflexivity|].
  destruct compensated; vm_compute; reflexivity.
Qed.

(** ** C7: reading a field *)

(** The value comes from the first record of the class, in file order. *)
Lemma get_field_value_loop_first (cls : record_type) (field_name : string)
  (before : list record) (r : record) (after : list record) (w : world) :
  forallb (fun x => negb (isinstance x cls)) before = true ->
  isinstance r cls = true ->
  get_field_value_loop cls field_name (before ++ r :: after) w
  = match getattr r field_name with
    | Some v => (Return (Some v), w)
    | None =>
        (Return None,
         mk_world (file w) (log w ++ [Error_field_not_found field_name cls]))
    end.
Proof.
  intros Hb Hr. induction before as [|x before IH].
  - change ([] ++ r :: after) with (r :: after).
    cbn [get_field_value_loop]. rewrite Hr.
    destruct (getattr r field_name); reflexivity.
  - cbn [forallb] in Hb. apply andb_prop in Hb as [Hx Hb].
    change ((x :: before) ++ r :: after) with (x :: (before ++ r :: after)).
    cbn [get_field_value_loop].
    destruct (isinstance x cls); [discriminate Hx|]. now apply IH.
Qed.

(** Without a record of the class the call logs that and returns [None]. *)
Lemma get_field_value_loop_no_record (cls : record_type) (field_name : string)
  (records : list record) (w : world) :
  forallb (fun x => negb (isinstance x cls)) records = true ->
  get_field_value_loop cls field_name records w
  = (Return None, mk_world (file w) (log w ++ [Error_no_record_of_type cls])).
Proof.
  intros H. induction records as [|x records IH]; [reflexivity|].
  cbn [forallb] in H. apply andb_prop in H as [Hx H].
  cbn [get_field_value_loop].
  destruct (isinstance x cls); [discriminate Hx|]. now apply IH.
Qed.

(** C7 (the code departs from it).  [count] is no field of Header, yet
    [hasattr] holds for it, as for every member a namedtuple inherits from
    [tuple]: [get_field_value(Header, "count")] returns that member of the
    first Header and logs nothing, where a name that is no attribute at all
    is logged as not found and answered with [None]. *)
Theorem get_field_value_returns_a_member_for_count :
  forall log0 : list log_record,
    let w := mk_world Sample.file_1h2t1f log0 in
    is_field cls_Header "count" = false
    /\ get_field_value cls_Header "count" w
       = (Return (Some (VMember "count")), w)
    /\ get_field_value cls_Header "surname" w = (Return (Some (VStr "Lee")), w)
    /\ get_field_value cls_Header "no_such_field" w
       = (Return None,
          mk_world Sample.file_1h2t1f
            (log0 ++ [Error_field_not_found "no_such_field" cls_Header])).
Proof.
  intros log0. cbv zeta. repeat split; vm_compute; reflexivity.
Qed.

(** ** C8: lenient decoding *)

(** A line whose tag is none of the three contributes nothing. *)
Lemma read_lines_unknown_tag (line : string) (rest : list string)
  (acc : list record) (w : world) :
  String.eqb (PyStr.slice 0 2 line) HEADER_FIELD_ID = false ->
  String.eqb (PyStr.slice 0 2 line) TRANSACTION_FIELD_ID = false ->
  String.eqb (PyStr.slice 0 2 line) FOOTER_FIELD_ID = false ->
  read_lines (line :: rest) acc w = read_lines rest acc w.
Proof. intros H1 H2 H3. cbn [read_lines]. now rewrite H1, H2, H3. Qed.

(** A Transaction line that [parse_transaction] answers with [None]
    contributes nothing, and the lines after it are read. *)
Lemma read_lines_rejected_transaction (line : string) (rest : list string)
  (acc : list record) (w w1 : world) :
  String.eqb (PyStr.slice 0 2 line) TRANSACTION_FIELD_ID = true ->
  parse_transaction line w = (Return None, w1) ->
  read_lines (line :: rest) acc w = read_lines rest acc w1.
Proof.
  intros H2 Hp. cbn [read_lines].
  destruct (String.eqb_spec (PyStr.slice 0 2 line) TRANSACTION_FIELD_ID)
    as [E|]; [|discriminate H2].
  rewrite E. cbn [String.eqb Ascii.eqb Bool.eqb HEADER_FIELD_ID
                    TRANSACTION_FIELD_ID andb].
  unfold bind. now rewrite Hp.
Qed.

(** The three rejections of [parse_transaction], in the order of the
    source: the amount test, the counter, the currency. *)
Lemma parse_transaction_rejects (line : string) (w : world) :
  let counter_str := PyStr.strip (PyStr.slice 2 8 line) in
  let amount_str := PyStr.strip (PyStr.slice 8 20 line) in
  let currency := PyStr.strip (PyStr.slice 20 23 line) in
  (PyStr.len amount_str <> 12 \/ PyStr.isdigit amount_str = false ->
   parse_transaction line w
   = (Return None,
      mk_world (file w) (log w ++ [Error_invalid_amount_format amount_str])))
  /\ (PyStr.len amount_str = 12 -> PyStr.isdigit amount_str = true ->
      PyStr.int_of_str counter_str = None ->
      parse_transaction line w
      = (Return None,
         mk_world (file w)
           (log w ++ [Error_invalid_transaction_counter counter_str])))
  /\ (PyStr.len amount_str = 12 -> PyStr.isdigit amount_str = true ->
      PyStr.int_of_str counter_str <> None ->
      in_CURRENCY_VALUES currency = false ->
      parse_transaction line w
      = (Return None,
         mk_world (file w) (log w ++ [Error_invalid_currency currency]))).
Proof.
  cbv zeta. unfold parse_transaction. repeat split.
  - intros [H|H].
    + apply Z.eqb_neq in H. now rewrite H.
    + rewrite H. now rewrite orb_true_r.
  - intros H1 H2 H3. apply Z.eqb_eq in H1. now rewrite H1, H2, H3.
  - intros H1 H2 H3 H4. apply Z.eqb_eq in H1. rewrite H1, H2. cbn [negb orb].
    destruct (PyStr.int_of_str _); [|congruence]. now rewrite H4.
Qed.

(** C8 (the code departs from it).  The amount field [00000000000] followed
    by the superscript two has twelve characters and passes [isdigit], but it
    is not twelve decimal digits and [float] rejects it: with a good counter
    and currency the line is not dropped, [parse_transaction] raises
    [ValueError] and [read_file] aborts, so the well-formed Transaction line
    after it yields no record.  The same line with a letter in the amount
    field is dropped and the next line is decoded. *)
Theorem read_file_aborts_on_superscript_digit :
  forall log0 : list log_record,
    PyStr.len Sample.amount_with_superscript = 12
    /\ PyStr.isdigit Sample.amount_with_superscript = true
    /\ PyStr.forallb_string PyStr.isdecimal_char Sample.amount_with_superscript
       = false
    /\ PyFloat.float_of_str Sample.amount_with_superscript = None
    /\ read_file (mk_world Sample.file_superscript_amount log0)
       = (Raise ValueError, mk_world Sample.file_superscript_amount log0)
    /\ read_file (mk_world Sample.transaction_line_2 log0)
       = (Return [RTransaction Sample.transaction_2],
          mk_world Sample.transaction_line_2 log0)
    /\ fst (read_file
              (mk_world
                 (Sample.line "0200000100000001A00 USD"
                  ++ Sample.transaction_line_2)%string log0))
       = Return [RTransaction Sample.transaction_2].
Proof.
  intros log0. repeat split; vm_compute; reflexivity.
Qed.

(** ** C5 and C6: replacing a field *)

(** [change_field_value] on a decodable file, for a name that is a field of
    the class or no member of a namedtuple: the loop cannot raise, and the
    sequence handed to [write_file] is the pointwise image of the records. *)
Lemma change_field_value_writes_updated (cls : record_type)
  (field_name new_value : string) (w w' : world) (records : list record) :
  read_file w = (Return records, w') ->
  is_field cls field_name = true \/ is_member field_name = false ->
  change_field_value cls field_name new_value w
  = write_file (map (updated cls field_name new_value) records) w'.
Proof.
  intros Hread Hname. unfold change_field_value.
  rewrite (bind_Return _ _ _ _ _ Hread).
  rewrite change_field_value_loop_updated.
  - reflexivity.
  - intros r _ Hi Hh. destruct Hname as [Hf|Hm].
    + exists (updated cls field_name new_value r).
      apply (updated_field cls field_name new_value r Hf Hi).
    + rewrite (hasattr_class_hasattr cls field_name r Hi) in Hh.
      unfold class_hasattr in Hh. rewrite Hm, orb_false_r in Hh.
      exists (updated cls field_name new_value r).
      apply (updated_field cls field_name new_value r Hh Hi).
Qed.

(** Without a record of the class, or for a name the class does not have,
    nothing is logged and the decoded sequence is written back. *)
Lemma change_field_value_without_match (cls : record_type)
  (field_name new_value : string) (w w' : world) (records : list record) :
  read_file w = (Return records, w') ->
  forallb (fun r => negb (isinstance r cls)) records = true
  \/ class_hasattr cls field_name = false ->
  change_field_value cls field_name new_value w = write_file records w'.
Proof.
  intros Hread Hno. unfold change_field_value.
  rewrite (bind_Return _ _ _ _ _ Hread).
  assert (Hkeep : forall r, In r records ->
                    (isinstance r cls && hasattr r field_name)%bool = false).
  { intros r Hin. destruct Hno as [Hnone|Hattr].
    - rewrite forallb_forall in Hnone. specialize (Hnone r Hin).
      now destruct (isinstance r cls).
    - destruct (isinstance r cls) eqn:Hi; [|reflexivity].
      now rewrite (hasattr_class_hasattr cls field_name r Hi), Hattr. }
  rewrite change_field_value_loop_updated.
  - unfold bind, lift. cbn [app].
    replace (map (updated cls field_name new_value) records) with records;
      [reflexivity|].
    rewrite <- (map_id records) at 1. apply map_ext_in.
    intros r Hin. unfold updated. now rewrite (Hkeep r Hin).
  - intros r Hin Hi Hh. specialize (Hkeep r Hin). rewrite Hi, Hh in Hkeep.
    discriminate Hkeep.
Qed.

(** The class of a record is kept. *)
Lemma updated_isinstance (cls : record_type) (field_name new_value : string)
  (r : record) (c : record_type) :
  isinstance (updated cls field_name new_value r) c = isinstance r c.
Proof.
  unfold updated. destruct (_ && _)%bool; [|reflexivity].
  destruct r as [h|t|f]; cbn [_replace];
    [destruct (Header._replace h field_name new_value)
    |destruct (Transaction._replace t field_name new_value)
    |destruct (Footer._replace f field_name new_value)]; reflexivity.
Qed.

(** C6 (the code departs from it).  The file holds an unpadded Header line
    and a line with an unknown tag, and no Footer.  Asked to replace
    [total_counter] of Footer, [change_field_value] logs nothing, raises
    nothing and rewrites the file: the Header line comes back padded and the
    other line is gone.  So does a request for a field Header does not have.
    [get_field_value], on the same file and class, logs that no record of the
    class was found and leaves the file alone. *)
Theorem change_field_value_rewrites_without_a_match :
  forall log0 : list log_record,
    let w := mk_world Sample.file_header_and_note log0 in
    let rewritten := Sample.line "01Ann" in
    read_file w = (Return [RHeader (Header.mk "01" "Ann" "" "" "")], w)
    /\ change_field_value cls_Footer "total_counter" "5" w
       = (Return tt, mk_world rewritten log0)
    /\ change_field_value cls_Header "no_such_field" "5" w
       = (Return tt, mk_world rewritten log0)
    /\ rewritten <> Sample.file_header_and_note
    /\ get_field_value cls_Footer "total_counter" w
       = (Return None,
          mk_world Sample.file_header_and_note
            (log0 ++ [Error_no_record_of_type cls_Footer])).
Proof.
  intros log0. cbv zeta. repeat split; try (vm_compute; reflexivity).
  intros H. vm_compute in H. discriminate H.
Qed.

(** The sequence [change_field_value] builds.  On a decodable file, for a
    field of the selected class (or a name that is no namedtuple member at
    all), [change_field_value] hands to [write_file] the sequence in which
    every record of the class has the named field replaced by the given
    text, the other records and the other attributes being the same, in the
    same order; when each of its records can be encoded, the call returns
    and the file holds their lines. *)
Lemma change_field_value_replaces_in_every_record_of_the_class :
  forall (cls : record_type) (field_name new_value : string) (w w' : world)
         (records : list record),
    read_file w = (Return records, w') ->
    is_field cls field_name = true \/ is_member field_name = false ->
    let rewritten := map (updated cls field_name new_value) records in
    change_field_value cls field_name new_value w = write_file rewritten w'
    /\ (forall lines, format_all rewritten = Return lines ->
          change_field_value cls field_name new_value w
          = (Return tt, mk_world (String.concat "" lines) (log w')))
    /\ List.length rewritten = List.length records
    /\ (forall i r, nth_error records i = Some r ->
          exists r',
            nth_error rewritten i = Some r'
            /\ (forall c, isinstance r' c = isinstance r c)
            /\ (isinstance r cls = false -> r' = r)
            /\ (isinstance r cls = true -> is_field cls field_name = true ->
                getattr r' field_name = Some (VStr new_value))
            /\ (forall g, g <> field_name -> getattr r' g = getattr r g)).
Proof.
  intros cls field_name new_value w w' records Hread Hname rewritten.
  pose proof (change_field_value_writes_updated cls field_name new_value
                w w' records Hread Hname) as Hw.
  split; [exact Hw|]. split; [|split].
  - intros lines Hl. rewrite Hw. now apply write_file_format_all.
  - apply length_map.
  - intros i r Hi. exists (updated cls field_name new_value r).
    split; [subst rewritten; now rewrite nth_error_map, Hi|].
    destruct (isinstance r cls) eqn:Hc.
    + destruct (is_field cls field_name) eqn:Hf.
      * destruct (updated_field cls field_name new_value r Hf Hc)
          as (_ & Hget & Hframe & Hinst).
        split; [intros c; apply updated_isinstance|].
        repeat split; try assumption; try discriminate. intros _ _. exact Hget.
      * destruct Hname as [Hn|Hn]; [discriminate Hn|].
        assert (Hu : updated cls field_name new_value r = r).
        { apply updated_other. right.
          rewrite (hasattr_class_hasattr cls field_name r Hc).
          unfold class_hasattr. now rewrite Hf, Hn. }
        rewrite Hu. repeat split; try reflexivity; discriminate.
    + assert (Hu : updated cls field_name new_value r = r)
        by (apply updated_other; now left).
      rewrite Hu. repeat split; try reflexivity; discriminate.
Qed.

(** The file with two Header records: [change_field_value(Header, "surname",
    "Smith")] gives both the surname Smith, keeps their names, keeps the
    Transaction and the Footer, and the file holds the four re-encoded
    lines. *)
Lemma change_field_value_two_headers :
  let w := mk_world Sample.file_2h [] in
  let rewritten :=
    [RHeader (Header.mk "01" "Ann" "Smith" "" "");
     RHeader (Header.mk "01" "Bob" "Smith" "" "");
     RTransaction Sample.transaction_1;
     RFooter Sample.footer] in
  read_file w
  = (Return [RHeader Sample.header; RHeader Sample.header_2;
             RTransaction Sample.transaction_1; RFooter Sample.footer], w)
  /\ is_field cls_Header "surname" = true
  /\ change_field_value cls_Header "surname" "Smith" w = write_file rewritten w
  /\ file (snd (change_field_value cls_Header "surname" "Smith" w))
     = (Sample.line ("01" ++ PyStr.ljust 28 "Ann" ++ PyStr.ljust 30 "Smith")
        ++ Sample.line ("01" ++ PyStr.ljust 28 "Bob" ++ PyStr.ljust 30 "Smith")
        ++ Sample.transaction_line_1 ++ Sample.footer_line)%string.
Proof.
  cbv zeta.
  assert (H : read_file (mk_world Sample.file_2h [])
              = (Return [RHeader Sample.header; RHeader Sample.header_2;
                         RTransaction Sample.transaction_1;
                         RFooter Sample.footer], mk_world Sample.file_2h []))
    by (vm_compute; reflexivity).
  split; [exact H|]. split; [reflexivity|]. split.
  - exact (proj1 (change_field_value_replaces_in_every_record_of_the_class
                    cls_Header "surname" "Smith" _ _ _ H (or_introl eq_refl))).
  - vm_compute. reflexivity.
Defined.

(** A member of every namedtuple that is no field, such as [count], passes
    [hasattr] and makes [_replace] raise: the call stops with [ValueError]
    before anything is written. *)
Lemma change_field_value_member_name_raises :
  forall log0 : list log_record,
    let w := mk_world Sample.file_1h2t1f log0 in
    change_field_value cls_Header "count" "x" w = (Raise ValueError, w).
Proof. intros log0. vm_compute. reflexivity. Qed.

(** C5 (the code departs from it).  The new value is the text of the
    prompt, stored as it is.  Replacing [amount] of the Transactions by the
    text [45.00] builds the sequence of four records the claim describes,
    but [format_transaction] raises on its first Transaction, the hundredfold
    of a text being that text a hundred times, after the file was emptied and
    the Header line written.  The call raises [ValueError] and the file is
    left with the Header line alone: the rewritten sequence is not persisted
    and the Transactions and the Footer are lost. *)
Theorem change_field_value_amount_text_truncates_file :
  let w := mk_world Sample.file_1h2t1f [] in
  let after := snd (change_field_value cls_Transaction "amount" "45.00" w) in
  read_file w = (Return Sample.records_1h2t1f, w)
  /\ is_field cls_Transaction "amount" = true
  /\ List.length
       (map (updated cls_Transaction "amount" "45.00") Sample.records_1h2t1f)
     = 4%nat
  /\ format_all
       (map (updated cls_Transaction "amount" "45.00") Sample.records_1h2t1f)
     = Raise ValueError
  /\ fst (change_field_value cls_Transaction "amount" "45.00" w)
     = Raise ValueError
  /\ file after = Sample.header_line
  /\ fst (read_file after) = Return [RHeader Sample.header].
Proof.
  cbv zeta. repeat split; vm_compute; reflexivity.
Qed.

(** * Further properties *)

(** ** Headers: [parse_header] and [format_header] *)

Local Open Scope string_scope.

Lemma lstrip_spaces (k : nat) : PyStr.lstrip (PyStr.spaces k) = "".
Proof. induction k as [|k IH]; [reflexivity|exact IH]. Qed.

Lemma rstrip_spaces (k : nat) : PyStr.rstrip (PyStr.spaces k) = "".
Proof.
  induction k as [|k IH]; [reflexivity|].
  change (PyStr.spaces (S k)) with (String " " (PyStr.spaces k)).
  cbn [PyStr.rstrip]. now rewrite IH.
Qed.

Lemma rstrip_append_spaces (u : string) (k : nat) :
  PyStr.rstrip (u ++ PyStr.spaces k) = PyStr.rstrip u.
Proof.
  induction u as [|c u IH]; [apply rstrip_spaces|].
  cbn [append PyStr.rstrip]. now rewrite IH.
Qed.

(** Padding on the right is undone by [strip]. *)
Lemma strip_append_spaces (s : string) (k : nat) :
  PyStr.strip (s ++ PyStr.spaces k) = PyStr.strip s.
Proof.
  unfold PyStr.strip. induction s as [|c s IH].
  - cbn [append]. now rewrite lstrip_spaces.
  - cbn [append PyStr.lstrip]. destruct (PyStr.isspace c); [exact IH|].
    apply (rstrip_append_spaces (String c s)).
Qed.

Lemma strip_ljust (w : nat) (s : string) :
  PyStr.strip (PyStr.ljust w s) = PyStr.strip s.
Proof. apply strip_append_spaces. Qed.

Lemma length_ljust (w : nat) (s : string) :
  (String.length s <= w)%nat -> String.length (PyStr.ljust w s) = w.
Proof.
  intros H. unfold PyStr.ljust, PyStr.spaces.
  rewrite length_append, length_fill. lia.
Qed.

Lemma fits_spec (w : nat) (s : string) :
  fits w s = true -> (String.length s <= w)%nat /\ PyStr.strip s = s.
Proof.
  unfold fits. intros H. apply andb_prop in H as [Hl Hs].
  split; [now apply Nat.leb_le|now apply String.eqb_eq].
Qed.

(** The column of a padded field gives the field back. *)
Lemma strip_slice_ljust (a rest s : string) (lo hi : nat) :
  String.length a = lo -> fits (hi - lo) s = true ->
  PyStr.strip (PyStr.slice lo hi (a ++ PyStr.ljust (hi - lo) s ++ rest)) = s.
Proof.
  intros Ha Hs. apply fits_spec in Hs as [Hl Hstrip].
  rewrite (slice_field a _ rest lo hi Ha (length_ljust _ _ Hl)).
  now rewrite strip_ljust.
Qed.

(** [parse_header] on the line of a Header given by its fields. *)
Lemma header_mk_round_trip (fid name surname patronymic address : string) :
  String.length fid = 2%nat ->
  fits 28 name = true -> fits 30 surname = true ->
  fits 30 patronymic = true -> fits 30 address = true ->
  parse_header (format_header (Header.mk fid name surname patronymic address))
  = Header.mk fid name surname patronymic address.
Proof.
  intros Hid Hn Hs Hp Ha.
  pose proof (fits_spec _ _ Hn) as [Ln _]. pose proof (fits_spec _ _ Hs) as [Ls _].
  pose proof (fits_spec _ _ Hp) as [Lp _].
  unfold parse_header, format_header; cbn [Header.field_id
    Header.name Header.surname Header.patronymic Header.address].
  set (N := PyStr.ljust 28 name). set (S := PyStr.ljust 30 surname).
  set (P := PyStr.ljust 30 patronymic).
  assert (HN : String.length N = 28%nat) by (now apply length_ljust).
  assert (HS : String.length S = 30%nat) by (now apply length_ljust).
  assert (HP : String.length P = 30%nat) by (now apply length_ljust).
  f_equal.
  - rewrite <- (slice_field "" fid (N ++ S ++ P ++ PyStr.ljust 30 address
                                     ++ PyStr.newline) 0 2 eq_refl Hid) at 2.
    reflexivity.
  - unfold N. apply (strip_slice_ljust fid _ name 2 30 Hid Hn).
  - rewrite (append_assoc fid N). unfold S.
    apply (strip_slice_ljust (fid ++ N) _ surname 30 60); [|exact Hs].
    rewrite length_append, Hid, HN. reflexivity.
  - rewrite (append_assoc fid N), (append_assoc (fid ++ N) S). unfold P.
    apply (strip_slice_ljust ((fid ++ N) ++ S) _ patronymic 60 90); [|exact Hp].
    rewrite !length_append, Hid, HN, HS. reflexivity.
  - rewrite (append_assoc fid N), (append_assoc (fid ++ N) S),
      (append_assoc ((fid ++ N) ++ S) P).
    apply (strip_slice_ljust (((fid ++ N) ++ S) ++ P) _ address 90 120);
      [|exact Ha].
    rewrite !length_append, Hid, HN, HS, HP. reflexivity.
Qed.

(** A Header whose tag has two characters and whose fields fit their columns
    without surrounding whitespace is what [parse_header] reads from the
    line [format_header] writes for it. *)
Theorem parse_header_format_header :
  forall h : Header.t,
    String.length (Header.field_id h) = 2%nat ->
    fits 28 (Header.name h) = true ->
    fits 30 (Header.surname h) = true ->
    fits 30 (Header.patronymic h) = true ->
    fits 30 (Header.address h) = true ->
    parse_header (format_header h) = h.
Proof.
  intros [fid name surname patronymic address]. apply header_mk_round_trip.
Qed.

(** The Header of the sample. *)
Lemma parse_header_format_header_sample :
  String.length (Header.field_id Sample.header) = 2%nat
  /\ parse_header (format_header Sample.header) = Sample.header.
Proof.
  split; [reflexivity|].
  exact (parse_header_format_header Sample.header eq_refl eq_refl eq_refl
           eq_refl eq_refl).
Defined.

Lemma length_substring (a n : nat) (s : string) :
  (String.length (substring a n s) <= n)%nat.
Proof.
  revert a n. induction s as [|c s IH]; intros a n.
  - destruct a, n; cbn; lia.
  - destruct a as [|a]; cbn.
    + destruct n as [|n]; cbn; [lia|]. specialize (IH 0%nat n). lia.
    + apply IH.
Qed.

Lemma length_lstrip (s : string) :
  (String.length (PyStr.lstrip s) <= String.length s)%nat.
Proof.
  induction s as [|c s IH]; cbn; [lia|].
  destruct (PyStr.isspace c); cbn; lia.
Qed.

Lemma length_rstrip (s : string) :
  (String.length (PyStr.rstrip s) <= String.length s)%nat.
Proof.
  induction s as [|c s IH]; cbn; [lia|].
  destruct (PyStr.rstrip s); [destruct (PyStr.isspace c)|]; cbn in *; lia.
Qed.

Lemma length_strip (s : string) :
  (String.length (PyStr.strip s) <= String.length s)%nat.
Proof.
  unfold PyStr.strip. pose proof (length_rstrip (PyStr.lstrip s)).
  pose proof (length_lstrip s). lia.
Qed.

Lemma rstrip_cons (c : ascii) (s : string) :
  PyStr.rstrip (String c s)
  = match PyStr.rstrip s with
    | "" => if PyStr.isspace c then "" else String c ""
    | t => String c t
    end.
Proof. reflexivity. Qed.

Lemma rstrip_idempotent (u : string) :
  PyStr.rstrip (PyStr.rstrip u) = PyStr.rstrip u.
Proof.
  induction u as [|c u IH]; [reflexivity|]. rewrite rstrip_cons.
  destruct (PyStr.rstrip u) as [|d t] eqn:E.
  - destruct (PyStr.isspace c) eqn:Hc; [reflexivity|].
    rewrite rstrip_cons. cbn [PyStr.rstrip]. now rewrite Hc.
  - rewrite rstrip_cons, IH. reflexivity.
Qed.

(** [lstrip] leaves nothing or a text that starts with no whitespace, and
    [rstrip] keeps such a start. *)
Lemma lstrip_rstrip_lstrip (s : string) :
  PyStr.lstrip (PyStr.rstrip (PyStr.lstrip s)) = PyStr.rstrip (PyStr.lstrip s).
Proof.
  induction s as [|c s IH]; [reflexivity|]. cbn [PyStr.lstrip].
  destruct (PyStr.isspace c) eqn:Hc; [exact IH|].
  rewrite rstrip_cons.
  destruct (PyStr.rstrip s); rewrite ?Hc; cbn [PyStr.lstrip]; now rewrite Hc.
Qed.

Lemma strip_idempotent (s : string) :
  PyStr.strip (PyStr.strip s) = PyStr.strip s.
Proof.
  unfold PyStr.strip. rewrite lstrip_rstrip_lstrip. apply rstrip_idempotent.
Qed.

(** What [parse_header] puts in a field fits the column it came from. *)
Lemma fits_strip_slice (lo hi : nat) (line : string) :
  fits (hi - lo) (PyStr.strip (PyStr.slice lo hi line)) = true.
Proof.
  unfold fits. rewrite strip_idempotent, String.eqb_refl, andb_true_r.
  apply Nat.leb_le.
  pose proof (length_strip (PyStr.slice lo hi line)).
  pose proof (length_substring lo (hi - lo) line). unfold PyStr.slice in *. lia.
Qed.

(** Encoding the Header read from a line and reading it again changes
    nothing: [parse_header] after [format_header] is the identity on every
    Header that [parse_header] returns, the tag having its two characters. *)
Theorem parse_header_stable :
  forall line : string,
    String.length (PyStr.slice 0 2 line) = 2%nat ->
    parse_header (format_header (parse_header line)) = parse_header line.
Proof.
  intros line Hid. unfold parse_header at 2 3. apply header_mk_round_trip.
  - exact Hid.
  - apply (fits_strip_slice 2 30).
  - apply (fits_strip_slice 30 60).
  - apply (fits_strip_slice 60 90).
  - apply (fits_strip_slice 90 120).
Qed.

(** An unpadded line with trailing blanks. *)
Lemma parse_header_stable_sample :
  String.length (PyStr.slice 0 2 "01  Ann   Lee  ") = 2%nat
  /\ parse_header (format_header (parse_header "01  Ann   Lee  "))
     = parse_header "01  Ann   Lee  ".
Proof.
  split; [reflexivity|].
  exact (parse_header_stable "01  Ann   Lee  " eq_refl).
Defined.

(** ** Numbers that fit their columns *)

Lemma same_float_eq (x y : float) : same_float x y = true -> x = y.
Proof.
  destruct x as [s|s| |s m e], y as [s'|s'| |s' m' e']; cbn; try discriminate;
    intros H.
  - now rewrite (Bool.eqb_prop _ _ H).
  - now rewrite (Bool.eqb_prop _ _ H).
  - reflexivity.
  - apply andb_prop in H as [H He]. apply andb_prop in H as [Hs Hm].
    apply Bool.eqb_prop in Hs. apply Pos.eqb_eq in Hm. apply Z.eqb_eq in He.
    now subst.
Qed.

Lemma cents_survive_spec (v : float_or_str) :
  cents_survive v = true ->
  exists cents,
    v = FFloat (decoded_amount cents)
    /\ 0 <= cents < 10 ^ 12
    /\ int_times_100 v = Return cents.
Proof.
  destruct v as [x|s]; [|discriminate]. cbn [cents_survive int_times_100].
  destruct (PyFloat.to_int _) as [cents|e]; [|discriminate].
  intros H. apply andb_prop in H as [H Hx]. apply andb_prop in H as [H0 H1].
  exists cents. apply same_float_eq in Hx. subst x.
  repeat split; [now apply Z.leb_le|now apply Z.ltb_lt].
Qed.

Lemma counter_fits_spec (v : int_or_str) :
  counter_fits v = true -> exists c, v = IInt c /\ 0 <= c <= 999999.
Proof.
  destruct v as [c|s]; [|discriminate]. cbn. intros H.
  apply andb_prop in H as [H0 H1]. exists c.
  split; [reflexivity|]. split; [now apply Z.leb_le|now apply Z.leb_le].
Qed.


(** ** Footers: [parse_footer] and [format_footer] *)

(** [parse_footer] on the line of a Footer given by its numbers. *)
Lemma footer_round_trip_when_cents_survive (total cents : Z) (w : world) :
  0 <= total <= 999999 ->
  0 <= cents < 10 ^ 12 ->
  let f :=
    Footer.mk FOOTER_FIELD_ID (IInt total) (FFloat (decoded_amount cents)) in
  int_times_100 (Footer.control_sum f) = Return cents ->
  exists line,
    format_footer f = Return line
    /\ parse_footer line w = (Return f, w).
Proof.
  intros Hc Hm f Hcents.
  destruct (str_of_int_nonneg total (proj1 Hc)) as (uc & Huc & Hsc & Hvc & Hic).
  destruct (str_of_int_nonneg cents (proj1 Hm)) as (um & Hum & Hsm & Hvm & Him).
  assert (Hnc : (Decimal.nb_digits uc <= 6)%nat).
  { apply (nb_digits_bound total 6 uc); [cbn; lia|lia|exact Hic]. }
  assert (Hnm : (Decimal.nb_digits um <= 12)%nat).
  { apply (nb_digits_bound cents 12 um); [cbn; lia|lia|exact Him]. }
  set (A := PyStr.zfill 6 (NilEmpty.string_of_uint uc)).
  set (B := PyStr.zfill 12 (NilEmpty.string_of_uint um)).
  set (rest := PyStr.spaces 100 ++ PyStr.newline).
  assert (HA : String.length A = 6%nat) by (now apply length_zfill_numeral).
  assert (HB : String.length B = 12%nat) by (now apply length_zfill_numeral).
  exists ("03" ++ A ++ B ++ rest).
  split.
  - unfold format_footer.
    cbn [Footer.field_id Footer.total_counter f str_of_counter].
    rewrite (str_nonneg total 6) by (cbn; lia || discriminate).
    cbn [obind]. rewrite Hcents. cbn [obind].
    rewrite (str_nonneg cents 12) by (cbn; lia || discriminate).
    cbn [obind]. rewrite Hsc, Hsm. reflexivity.
  - unfold parse_footer.
    assert (S1 : PyStr.slice 2 8 ("03" ++ A ++ B ++ rest) = A)
      by (apply slice_field; [reflexivity|exact HA]).
    assert (S2 : PyStr.slice 8 20 ("03" ++ A ++ B ++ rest) = B).
    { rewrite (append_assoc "03" A). apply slice_field; [|exact HB].
      rewrite length_append, HA. reflexivity. }
    rewrite S1, S2.
    rewrite (strip_decimal A (zfill_numeral_decimal 6 uc)),
      (strip_decimal B (zfill_numeral_decimal 12 um)).
    unfold A. rewrite (int_of_str_zfill 6 uc Huc Hnc six_digits_allowed).
    unfold B. rewrite (float_of_str_zfill 12 um Hum).
    unfold bind, lift, ret, or_raise. rewrite Hvc, Hvm. reflexivity.
Qed.

(** A Footer with the tag [03], a counter of at most six digits and a
    control sum as the decoder computes it from at most twelve digits of
    cents is what [parse_footer] reads from its own line, as soon as
    [int(control_sum * 100)] gives the cents back; nothing is logged. *)
Theorem parse_footer_format_footer :
  forall (f : Footer.t) (w : world),
    Footer.field_id f = FOOTER_FIELD_ID ->
    counter_fits (Footer.total_counter f) = true ->
    cents_survive (Footer.control_sum f) = true ->
    exists line,
      format_footer f = Return line
      /\ parse_footer line w = (Return f, w).
Proof.
  intros [fid tc cs] w. cbn [Footer.field_id Footer.total_counter
    Footer.control_sum]. intros -> Htc Hcs.
  destruct (counter_fits_spec _ Htc) as (total & -> & Ht).
  destruct (cents_survive_spec _ Hcs) as (cents & -> & Hc & Hi).
  exact (footer_round_trip_when_cents_survive total cents w Ht Hc Hi).
Qed.

(** The Footer of the sample: two records, 65.00. *)
Lemma parse_footer_format_footer_sample :
  counter_fits (Footer.total_counter Sample.footer) = true
  /\ cents_survive (Footer.control_sum Sample.footer) = true
  /\ exists line,
       format_footer Sample.footer = Return line
       /\ parse_footer line (mk_world "" []) = (Return Sample.footer, mk_world "" []).
Proof.
  assert (H1 : counter_fits (Footer.total_counter Sample.footer) = true)
    by reflexivity.
  assert (H2 : cents_survive (Footer.control_sum Sample.footer) = true)
    by (vm_compute; reflexivity).
  split; [exact H1|]. split; [exact H2|].
  exact (parse_footer_format_footer Sample.footer (mk_world "" []) eq_refl H1 H2).
Defined.

(** ** Writing a file and reading it back *)

Lemma no_eol_append (s t : string) :
  no_eol (s ++ t) = (no_eol s && no_eol t)%bool.
Proof. apply forallb_string_append. Qed.

Lemma no_eol_spaces (k : nat) : no_eol (PyStr.spaces k) = true.
Proof. apply forallb_string_fill. reflexivity. Qed.

Lemma no_eol_ljust (w : nat) (s : string) :
  no_eol s = true -> no_eol (PyStr.ljust w s) = true.
Proof. intros H. unfold PyStr.ljust. now rewrite no_eol_append, H, no_eol_spaces. Qed.

Lemma forallb_string_impl (p q : ascii -> bool) (s : string) :
  (forall c, p c = true -> q c = true) ->
  PyStr.forallb_string p s = true -> PyStr.forallb_string q s = true.
Proof.
  intros Hpq. induction s as [|c s IH]; [reflexivity|].
  cbn [PyStr.forallb_string]. intros H. apply andb_prop in H as [Hc Hs].
  now rewrite (Hpq c Hc), (IH Hs).
Qed.

Lemma no_eol_decimal (s : string) :
  PyStr.forallb_string PyStr.isdecimal_char s = true -> no_eol s = true.
Proof.
  apply forallb_string_impl. intros c Hc.
  destruct c as [[] [] [] [] [] [] [] []]; cbn in Hc; try discriminate Hc;
    reflexivity.
Qed.

(** A line of text without terminator, followed by the newline, is one line
    for [readlines]. *)
Lemma universal_newlines_line (body rest : string) :
  no_eol body = true ->
  PyStr.universal_newlines (body ++ PyStr.newline ++ rest)
  = body ++ PyStr.newline ++ PyStr.universal_newlines rest.
Proof.
  induction body as [|c body IH]; intros H; [reflexivity|].
  cbn [no_eol PyStr.forallb_string] in H. apply andb_prop in H as [Hc Hb].
  apply negb_true_iff, orb_false_elim in Hc as [_ Hcr].
  cbn [append PyStr.universal_newlines]. rewrite Hcr.
  f_equal. now apply IH.
Qed.

Lemma split_lines_line (body rest : string) :
  no_eol body = true ->
  PyStr.split_lines (body ++ PyStr.newline ++ rest)
  = (body ++ PyStr.newline) :: PyStr.split_lines rest.
Proof.
  induction body as [|c body IH]; intros H; [reflexivity|].
  cbn [no_eol PyStr.forallb_string] in H. apply andb_prop in H as [Hc Hb].
  apply negb_true_iff, orb_false_elim in Hc as [Hlf _].
  cbn [append PyStr.split_lines]. rewrite Hlf.
  fold (no_eol body) in Hb. now rewrite (IH Hb).
Qed.

Lemma concat_cons (x : string) (l : list string) :
  String.concat "" (x :: l) = x ++ String.concat "" l.
Proof. destruct l; cbn; [now rewrite append_nil_r|reflexivity]. Qed.

(** The text made of terminated lines is read as those lines. *)
Lemma readlines_lines (bodies : list string) :
  forallb no_eol bodies = true ->
  PyStr.readlines
    (String.concat "" (map (fun b => b ++ PyStr.newline) bodies))
  = map (fun b => b ++ PyStr.newline) bodies.
Proof.
  unfold PyStr.readlines. induction bodies as [|b bodies IH]; [reflexivity|].
  cbn [forallb map]. intros H. apply andb_prop in H as [Hb Hbs].
  rewrite concat_cons, <- append_assoc.
  rewrite (universal_newlines_line b _ Hb), (split_lines_line b _ Hb).
  now rewrite (IH Hbs).
Qed.

(** A number written with [str] and [zfill] fills its column with digits. *)
Lemma numeral_column (z : Z) (k : nat) :
  0 <= z < 10 ^ Z.of_nat k -> (1 <= k)%nat ->
  String.length (PyStr.zfill k (PyStr.str_of_int z)) = k
  /\ no_eol (PyStr.zfill k (PyStr.str_of_int z)) = true.
Proof.
  intros Hz Hk.
  destruct (str_of_int_nonneg z (proj1 Hz)) as (u & Hu & Hs & Hv & Hi).
  rewrite Hs. split.
  - apply length_zfill_numeral. now apply (nb_digits_bound z k u).
  - apply no_eol_decimal, zfill_numeral_decimal.
Qed.

Lemma currency_no_eol (currency : string) :
  in_CURRENCY_VALUES currency = true -> no_eol currency = true.
Proof.
  unfold in_CURRENCY_VALUES, CURRENCY_VALUES. cbn [existsb].
  case_name currency; intros H; try discriminate H; reflexivity.
Qed.

(** The line of a canonical Header. *)
Lemma canonical_header_line (h : Header.t) :
  canonical (RHeader h) = true ->
  exists body,
    format_header h = body ++ PyStr.newline
    /\ no_eol body = true
    /\ String.length body = 120%nat
    /\ PyStr.slice 0 2 (body ++ PyStr.newline) = HEADER_FIELD_ID
    /\ parse_header (body ++ PyStr.newline) = h.
Proof.
  destruct h as [fid name surname patronymic address].
  cbn [canonical Header.field_id Header.name Header.surname Header.patronymic
         Header.address]. intros H.
  apply andb_prop in H as [H Ea]. apply andb_prop in H as [H Fa].
  apply andb_prop in H as [H Ep]. apply andb_prop in H as [H Fp].
  apply andb_prop in H as [H Es]. apply andb_prop in H as [H Fs].
  apply andb_prop in H as [H En]. apply andb_prop in H as [H Fn].
  apply String.eqb_eq in H. subst fid.
  pose proof (fits_spec _ _ Fn) as [Ln _]. pose proof (fits_spec _ _ Fs) as [Ls _].
  pose proof (fits_spec _ _ Fp) as [Lp _]. pose proof (fits_spec _ _ Fa) as [La _].
  exists (HEADER_FIELD_ID ++ PyStr.ljust 28 name ++ PyStr.ljust 30 surname
          ++ PyStr.ljust 30 patronymic ++ PyStr.ljust 30 address).
  assert (Hfmt : format_header
                   (Header.mk HEADER_FIELD_ID name surname patronymic address)
                 = (HEADER_FIELD_ID ++ PyStr.ljust 28 name
                    ++ PyStr.ljust 30 surname ++ PyStr.ljust 30 patronymic
                    ++ PyStr.ljust 30 address) ++ PyStr.newline).
  { unfold format_header. cbn [Header.field_id Header.name Header.surname
      Header.patronymic Header.address]. now rewrite <- !append_assoc. }
  split; [exact Hfmt|]. split; [|split; [|split]].
  - rewrite !no_eol_append, !no_eol_ljust by assumption. reflexivity.
  - rewrite !length_append, !length_ljust by assumption. reflexivity.
  - rewrite <- append_assoc.
    apply (slice_field "" HEADER_FIELD_ID _ 0 2 eq_refl eq_refl).
  - rewrite <- Hfmt. now apply header_mk_round_trip.
Qed.

(** The line of a canonical Transaction. *)
Lemma canonical_transaction_line (t : Transaction.t) :
  canonical (RTransaction t) = true ->
  exists body,
    format_transaction t = Return (body ++ PyStr.newline)
    /\ no_eol body = true
    /\ String.length body = 120%nat
    /\ PyStr.slice 0 2 (body ++ PyStr.newline) = TRANSACTION_FIELD_ID
    /\ forall w, parse_transaction (body ++ PyStr.newline) w = (Return (Some t), w).
Proof.
  destruct t as [fid counter amount currency].
  cbn [canonical Transaction.field_id Transaction.counter Transaction.amount
         Transaction.currency]. intros H.
  apply andb_prop in H as [H Hcur]. apply andb_prop in H as [H Ham].
  apply andb_prop in H as [H Hco]. apply String.eqb_eq in H. subst fid.
  destruct (counter_fits_spec _ Hco) as (c & -> & Hc).
  destruct (cents_survive_spec _ Ham) as (cents & -> & Hm & Hi).
  destruct (currency_plain currency Hcur) as (Hlj & Hlen & _).
  destruct (numeral_column c 6) as [LA EA]; [cbn; lia|lia|].
  destruct (numeral_column cents 12) as [LB EB]; [cbn; lia|lia|].
  set (A := PyStr.zfill 6 (PyStr.str_of_int c)) in *.
  set (B := PyStr.zfill 12 (PyStr.str_of_int cents)) in *.
  exists (TRANSACTION_FIELD_ID ++ A ++ B ++ currency ++ PyStr.spaces 97).
  assert (Hfmt : format_transaction
                   (Transaction.mk TRANSACTION_FIELD_ID (IInt c)
                      (FFloat (decoded_amount cents)) currency)
                 = Return ((TRANSACTION_FIELD_ID ++ A ++ B ++ currency
                            ++ PyStr.spaces 97) ++ PyStr.newline)).
  { unfold format_transaction.
    cbn [Transaction.field_id Transaction.counter Transaction.amount
           Transaction.currency str_of_counter].
    rewrite (str_nonneg c 6) by (cbn; lia || discriminate).
    cbn [obind]. rewrite Hi. cbn [obind].
    rewrite (str_nonneg cents 12) by (cbn; lia || discriminate).
    cbn [obind]. rewrite Hlj. fold A B.
    now rewrite <- !append_assoc. }
  split; [exact Hfmt|]. split; [|split; [|split]].
  - rewrite !no_eol_append, EA, EB, (currency_no_eol _ Hcur), no_eol_spaces.
    reflexivity.
  - rewrite !length_append, LA, LB, Hlen. unfold PyStr.spaces.
    rewrite length_fill. reflexivity.
  - rewrite <- append_assoc.
    apply (slice_field "" TRANSACTION_FIELD_ID _ 0 2 eq_refl eq_refl).
  - intros w.
    destruct (transaction_round_trip_when_cents_survive c cents currency w
                Hc Hm Hcur Hi) as (line & Hl & Hp).
    rewrite Hfmt in Hl. injection Hl as <-. exact Hp.
Qed.

(** The line of a canonical Footer. *)
Lemma canonical_footer_line (f : Footer.t) :
  canonical (RFooter f) = true ->
  exists body,
    format_footer f = Return (body ++ PyStr.newline)
    /\ no_eol body = true
    /\ String.length body = 120%nat
    /\ PyStr.slice 0 2 (body ++ PyStr.newline) = FOOTER_FIELD_ID
    /\ forall w, parse_footer (body ++ PyStr.newline) w = (Return f, w).
Proof.
  destruct f as [fid total control_sum].
  cbn [canonical Footer.field_id Footer.total_counter Footer.control_sum].
  intros H.
  apply andb_prop in H as [H Ham].
  apply andb_prop in H as [H Hco]. apply String.eqb_eq in H. subst fid.
  destruct (counter_fits_spec _ Hco) as (c & -> & Hc).
  destruct (cents_survive_spec _ Ham) as (cents & -> & Hm & Hi).
  destruct (numeral_column c 6) as [LA EA]; [cbn; lia|lia|].
  destruct (numeral_column cents 12) as [LB EB]; [cbn; lia|lia|].
  set (A := PyStr.zfill 6 (PyStr.str_of_int c)) in *.
  set (B := PyStr.zfill 12 (PyStr.str_of_int cents)) in *.
  exists (FOOTER_FIELD_ID ++ A ++ B ++ PyStr.spaces 100).
  assert (Hfmt : format_footer
                   (Footer.mk FOOTER_FIELD_ID (IInt c)
                      (FFloat (decoded_amount cents)))
                 = Return ((FOOTER_FIELD_ID ++ A ++ B ++ PyStr.spaces 100)
                           ++ PyStr.newline)).
  { unfold format_footer.
    cbn [Footer.field_id Footer.total_counter Footer.control_sum
           str_of_counter].
    rewrite (str_nonneg c 6) by (cbn; lia || discriminate).
    cbn [obind]. rewrite Hi. cbn [obind].
    rewrite (str_nonneg cents 12) by (cbn; lia || discriminate).
    cbn [obind]. fold A B.
    now rewrite <- !append_assoc. }
  split; [exact Hfmt|]. split; [|split; [|split]].
  - rewrite !no_eol_append, EA, EB, no_eol_spaces. reflexivity.
  - rewrite !length_append, LA, LB. unfold PyStr.spaces.
    rewrite length_fill. reflexivity.
  - rewrite <- append_assoc.
    apply (slice_field "" FOOTER_FIELD_ID _ 0 2 eq_refl eq_refl).
  - intros w.
    destruct (footer_round_trip_when_cents_survive c cents w Hc Hm Hi)
      as (line & Hl & Hp).
    rewrite Hfmt in Hl. injection Hl as <-. exact Hp.
Qed.

(** The line of a canonical record: 120 columns and the newline, and the
    loop of [read_file] turns it into the record. *)
Lemma canonical_record_line (r : record) :
  canonical r = true ->
  exists body,
    format_record r = Return (body ++ PyStr.newline)
    /\ no_eol body = true
    /\ String.length body = 120%nat
    /\ forall rest acc w,
         read_lines ((body ++ PyStr.newline) :: rest) acc w
         = read_lines rest (acc ++ [r])%list w.
Proof.
  intros H. destruct r as [h|t|f].
  - destruct (canonical_header_line h H) as (body & Hf & He & Hl & Ht & Hp).
    exists body. cbn [format_record]. rewrite Hf.
    repeat split; try assumption.
    intros rest acc w. cbn [read_lines]. now rewrite Ht, Hp.
  - destruct (canonical_transaction_line t H) as (body & Hf & He & Hl & Ht & Hp).
    exists body. cbn [format_record].
    repeat split; try assumption.
    intros rest acc w. cbn [read_lines]. rewrite Ht.
    cbn [String.eqb Ascii.eqb Bool.eqb HEADER_FIELD_ID TRANSACTION_FIELD_ID].
    unfold bind. now rewrite Hp.
  - destruct (canonical_footer_line f H) as (body & Hf & He & Hl & Ht & Hp).
    exists body. cbn [format_record].
    repeat split; try assumption.
    intros rest acc w. cbn [read_lines]. rewrite Ht.
    cbn [String.eqb Ascii.eqb Bool.eqb HEADER_FIELD_ID TRANSACTION_FIELD_ID
           FOOTER_FIELD_ID].
    unfold bind. now rewrite Hp.
Qed.

(** The lines of canonical records. *)
Lemma canonical_records_lines (records : list record) :
  forallb canonical records = true ->
  exists bodies,
    format_all records = Return (map (fun b => b ++ PyStr.newline) bodies)
    /\ forallb no_eol bodies = true
    /\ Forall (fun b => String.length b = 120%nat) bodies
    /\ List.length bodies = List.length records
    /\ forall acc w,
         read_lines (map (fun b => b ++ PyStr.newline) bodies) acc w
         = (Return (acc ++ records)%list, w).
Proof.
  induction records as [|r records IH]; intros H.
  - exists []. repeat split; [constructor|].
    intros acc w. cbn. unfold ret. now rewrite app_nil_r.
  - cbn [forallb] in H. apply andb_prop in H as [Hr Hrs].
    destruct (IH Hrs) as (bodies & Hf & He & Hl & Hn & Hread).
    destruct (canonical_record_line r Hr) as (body & Hfr & Her & Hlr & Hrr).
    exists (body :: bodies). cbn [map forallb format_all].
    rewrite Hfr, Hf, Her, He. cbn [obind andb].
    repeat split; [now constructor|cbn; now rewrite Hn|].
    intros acc w. rewrite Hrr, Hread. now rewrite <- app_assoc.
Qed.

Local Open Scope list_scope.

(** What [write_file] writes for canonical records, [read_file] reads back
    as the same records: the write returns, and reading the file it leaves
    gives the sequence, in order, without logging. *)
Theorem read_file_after_write_file :
  forall (records : list record) (w : world),
    forallb canonical records = true ->
    exists content,
      write_file records w = (Return tt, mk_world content (log w))
      /\ read_file (mk_world content (log w))
         = (Return records, mk_world content (log w)).
Proof.
  intros records w H.
  destruct (canonical_records_lines records H)
    as (bodies & Hf & He & _ & _ & Hread).
  exists (String.concat "" (map (fun b => (b ++ PyStr.newline)%string) bodies)).
  split.
  - now apply write_file_format_all.
  - unfold read_file, bind, open_readlines. cbn [file].
    rewrite (readlines_lines bodies He). apply Hread.
Qed.

(** The records of the sample. *)
Lemma read_file_after_write_file_sample :
  forallb canonical Sample.records_1h2t1f = true
  /\ exists content,
       write_file Sample.records_1h2t1f (mk_world "" [])
       = (Return tt, mk_world content [])
       /\ read_file (mk_world content [])
          = (Return Sample.records_1h2t1f, mk_world content []).
Proof.
  assert (H : forallb canonical Sample.records_1h2t1f = true)
    by (vm_compute; reflexivity).
  split; [exact H|].
  exact (read_file_after_write_file Sample.records_1h2t1f (mk_world "" []) H).
Defined.

(** Every line written for canonical records has [LINE_LENGTH] columns and
    the newline and holds no other line terminator; there is one line for
    each record. *)
Theorem format_all_line_length :
  forall (records : list record) (lines : list string),
    forallb canonical records = true ->
    format_all records = Return lines ->
    List.length lines = List.length records
    /\ Forall (fun line =>
                 PyStr.len line = LINE_LENGTH + 1
                 /\ exists body,
                      line = (body ++ PyStr.newline)%string
                      /\ no_eol body = true) lines.
Proof.
  intros records lines H Hlines.
  destruct (canonical_records_lines records H)
    as (bodies & Hf & He & Hl & Hn & _).
  rewrite Hf in Hlines. injection Hlines as <-.
  split; [now rewrite length_map|].
  clear Hf Hn. induction bodies as [|b bodies IH]; [constructor|].
  cbn [forallb] in He. apply andb_prop in He as [Hb He].
  inversion Hl as [|? ? Hlb Hlbs]; subst.
  cbn [map]. constructor; [|now apply IH].
  split; [|now exists b].
  unfold PyStr.len, LINE_LENGTH. rewrite length_append, Hlb. reflexivity.
Qed.

(** The records of the sample give four lines of 121 characters. *)
Lemma format_all_line_length_sample :
  forallb canonical Sample.records_1h2t1f = true
  /\ format_all Sample.records_1h2t1f
     = Return [Sample.header_line; Sample.transaction_line_1;
               Sample.transaction_line_2; Sample.footer_line]
  /\ Forall (fun line =>
               PyStr.len line = LINE_LENGTH + 1
               /\ exists body,
                    line = (body ++ PyStr.newline)%string
                    /\ no_eol body = true)
       [Sample.header_line; Sample.transaction_line_1;
        Sample.transaction_line_2; Sample.footer_line].
Proof.
  assert (H : forallb canonical Sample.records_1h2t1f = true)
    by (vm_compute; reflexivity).
  assert (F : format_all Sample.records_1h2t1f
              = Return [Sample.header_line; Sample.transaction_line_1;
                        Sample.transaction_line_2; Sample.footer_line])
    by (vm_compute; reflexivity).
  split; [exact H|]. split; [exact F|].
  exact (proj2 (format_all_line_length _ _ H F)).
Defined.

(** ** Failures while writing and reading *)

(** When the records before [r] can be encoded and [r] cannot, [write_file]
    raises the exception of [r] and leaves in the file exactly the lines of
    the records before it: what the file held is lost, and so are the records
    from [r] on. *)
Theorem write_file_stops_at_first_failure :
  forall (before : list record) (r : record) (after : list record)
         (lines : list string) (e : exn) (w : world),
    format_all before = Return lines ->
    format_record r = Raise e ->
    write_file (before ++ r :: after) w
    = (Raise e, mk_world (String.concat "" lines) (log w)).
Proof.
  intros before r after lines e w Hb Hr.
  unfold write_file, bind at 1, open_write.
  assert (G : forall w0,
             write_records (before ++ r :: after) w0
             = (Raise e,
                mk_world (file w0 ++ String.concat "" lines)%string (log w0))).
  { revert lines Hb. induction before as [|b before IH]; intros lines Hb w0.
    - injection Hb as <-. change ([] ++ r :: after) with (r :: after).
      cbn [write_records]. unfold bind, lift.
      rewrite Hr. cbn. destruct w0 as [f l]. cbn. now rewrite append_nil_r.
    - cbn [format_all] in Hb.
      destruct (format_record b) as [line|e'] eqn:Hline; [|discriminate Hb].
      cbn [obind] in Hb.
      destruct (format_all before) as [lines'|e'] eqn:Hl; [|discriminate Hb].
      injection Hb as <-.
      change ((b :: before) ++ r :: after) with (b :: (before ++ r :: after)).
      cbn [write_records]. unfold bind, lift, f_write. rewrite Hline.
      rewrite (IH lines' eq_refl). cbn [file log].
      now rewrite concat_cons, append_assoc. }
  rewrite G. reflexivity.
Qed.

(** A Footer whose control sum is not a number, after the Header and the
    first Transaction of the sample. *)
Lemma write_file_stops_at_first_failure_sample :
  format_all [RHeader Sample.header; RTransaction Sample.transaction_1]
  = Return [Sample.header_line; Sample.transaction_line_1]
  /\ format_record (RFooter (Footer.mk "03" (IInt 1) (FFloat PyFloat.nan)))
     = Raise ValueError
  /\ write_file
       ([RHeader Sample.header; RTransaction Sample.transaction_1]
        ++ RFooter (Footer.mk "03" (IInt 1) (FFloat PyFloat.nan)) :: [])
       (mk_world "previous content" [])
     = (Raise ValueError,
        mk_world (Sample.header_line ++ Sample.transaction_line_1)%string []).
Proof.
  assert (H1 : format_all [RHeader Sample.header;
                           RTransaction Sample.transaction_1]
               = Return [Sample.header_line; Sample.transaction_line_1])
    by (vm_compute; reflexivity).
  assert (H2 : format_record
                 (RFooter (Footer.mk "03" (IInt 1) (FFloat PyFloat.nan)))
               = Raise ValueError) by reflexivity.
  split; [exact H1|]. split; [exact H2|].
  exact (write_file_stops_at_first_failure _ _ [] _ _
           (mk_world "previous content" []) H1 H2).
Defined.

(** A line with the Footer tag whose counter column is no integer, or whose
    control-sum column is no float, makes [read_file] raise [ValueError]:
    unlike a bad Transaction line it is neither logged nor skipped, the
    records read so far are not returned and the lines after it are not
    read. *)
Theorem read_lines_raises_on_bad_footer :
  forall (before : list string) (line : string) (after : list string)
         (acc records : list record) (w w1 : world),
    read_lines before acc w = (Return records, w1) ->
    PyStr.slice 0 2 line = FOOTER_FIELD_ID ->
    PyStr.int_of_str (PyStr.strip (PyStr.slice 2 8 line)) = None
    \/ PyFloat.float_of_str (PyStr.strip (PyStr.slice 8 20 line)) = None ->
    read_lines (before ++ line :: after) acc w = (Raise ValueError, w1).
Proof.
  intros before line after acc records w w1 Hb Htag Hbad.
  rewrite read_lines_app. rewrite (bind_Return _ _ _ _ _ Hb).
  cbn [read_lines]. rewrite Htag.
  cbn [String.eqb Ascii.eqb Bool.eqb HEADER_FIELD_ID TRANSACTION_FIELD_ID
         FOOTER_FIELD_ID].
  unfold bind at 1, parse_footer, bind, lift, or_raise.
  destruct Hbad as [H|H].
  - now rewrite H.
  - rewrite H. now destruct (PyStr.int_of_str _).
Qed.

(** A Footer line with blanks for its numbers, after a Header line. *)
Lemma read_lines_raises_on_bad_footer_sample :
  read_lines [Sample.header_line] [] (mk_world "" [])
  = (Return [RHeader Sample.header], mk_world "" [])
  /\ read_lines ([Sample.header_line] ++ Sample.line "03" :: [Sample.footer_line])
       [] (mk_world "" [])
     = (Raise ValueError, mk_world "" []).
Proof.
  assert (H : read_lines [Sample.header_line] [] (mk_world "" [])
              = (Return [RHeader Sample.header], mk_world "" []))
    by (vm_compute; reflexivity).
  split; [exact H|].
  exact (read_lines_raises_on_bad_footer [Sample.header_line] (Sample.line "03")
           [Sample.footer_line] [] _ _ _ H eq_refl (or_introl eq_refl)).
Defined.

(** ** Operations that only read *)

Lemma read_only_ret {A : Type} (a : A) : read_only (ret a).
Proof. intros w. exists []. destruct w. cbn. now rewrite app_nil_r. Qed.

Lemma read_only_lift {A : Type} (o : outcome A) : read_only (lift o).
Proof. intros w. exists []. destruct w. cbn. now rewrite app_nil_r. Qed.

Lemma read_only_logger (msg : log_record) : read_only (logger_error msg).
Proof. intros w. now exists [msg]. Qed.

Lemma read_only_bind {A B : Type} (m : io A) (k : A -> io B) :
  read_only m -> (forall a, read_only (k a)) -> read_only (bind m k).
Proof.
  intros Hm Hk w. unfold bind. destruct (Hm w) as [l1 H1].
  destruct (m w) as [[a|e] w1]; cbn [snd] in H1; subst w1.
  - destruct (Hk a (mk_world (file w) (log w ++ l1))) as [l2 H2].
    exists (l1 ++ l2). rewrite H2. cbn [file log]. now rewrite app_assoc.
  - now exists l1.
Qed.

Ltac read_only_steps :=
  repeat first
    [ apply read_only_ret
    | apply read_only_lift
    | apply read_only_logger
    | apply read_only_bind; [|intros]
    | match goal with
      | |- read_only (if ?b then _ else _) => destruct b
      | |- read_only (match ?x with _ => _ end) => destruct x
      end ].

Lemma read_only_parse_transaction (line : string) :
  read_only (parse_transaction line).
Proof. unfold parse_transaction. cbv zeta. read_only_steps. Qed.

Lemma read_only_parse_footer (line : string) : read_only (parse_footer line).
Proof. unfold parse_footer. cbv zeta. read_only_steps. Qed.

Lemma read_only_read_lines (lines : list string) :
  forall acc, read_only (read_lines lines acc).
Proof.
  induction lines as [|line rest IH]; intros acc; cbn [read_lines]; cbv zeta.
  - apply read_only_ret.
  - destruct (String.eqb _ HEADER_FIELD_ID); [apply IH|].
    destruct (String.eqb _ TRANSACTION_FIELD_ID).
    { apply read_only_bind; [apply read_only_parse_transaction|].
      intros [t|]; apply IH. }
    destruct (String.eqb _ FOOTER_FIELD_ID); [|apply IH].
    apply read_only_bind; [apply read_only_parse_footer|]. intros f. apply IH.
Qed.

Lemma read_only_read_file : read_only read_file.
Proof.
  unfold read_file. apply read_only_bind.
  - intros w. exists []. destruct w. cbn. now rewrite app_nil_r.
  - intros lines. apply read_only_read_lines.
Qed.

Lemma read_only_get_field_value_loop (cls : record_type) (field_name : string)
  (records : list record) :
  read_only (get_field_value_loop cls field_name records).
Proof.
  induction records as [|r records IH]; cbn [get_field_value_loop].
  - read_only_steps.
  - destruct (isinstance r cls); [|exact IH]. read_only_steps.
Qed.

Lemma read_only_validate_records (compensated : bool) (records : list record) :
  read_only (validate_records compensated records).
Proof. unfold validate_records. cbv zeta. read_only_steps. Qed.

(** [get_field_value] and [validate_file_structure] never touch the file:
    whether they return or raise, the file is the one they found and the log
    has only grown. *)
Theorem get_and_validate_leave_the_file :
  forall (cls : record_type) (field_name : string) (compensated : bool)
         (w : world),
    (exists added,
        snd (get_field_value cls field_name w)
        = mk_world (file w) (log w ++ added))
    /\ (exists added,
           snd (validate_file_structure compensated w)
           = mk_world (file w) (log w ++ added)).
Proof.
  intros cls field_name compensated w. split.
  - apply (read_only_bind read_file _ read_only_read_file).
    intros records. apply read_only_get_field_value_loop.
  - apply (read_only_bind read_file _ read_only_read_file).
    intros records. apply read_only_validate_records.
Qed.

(** ** What [read_file] returns *)

Lemma parse_transaction_well_formed line w t w' :
  parse_transaction line w = (Return (Some t), w') ->
  well_formed (RTransaction t) = true.
Proof.
  unfold parse_transaction.
  destruct (_ || _)%bool; [discriminate|].
  destruct (PyStr.int_of_str _); [|discriminate].
  destruct (in_CURRENCY_VALUES _) eqn:Hc; cbn [negb]; [|discriminate].
  unfold bind, lift, ret.
  destruct (PyFloat.float_of_str _); cbn; [|discriminate].
  intros H. injection H as <- _. cbn. exact Hc.
Qed.

Lemma parse_footer_well_formed line w f w' :
  parse_footer line w = (Return f, w') -> well_formed (RFooter f) = true.
Proof.
  unfold parse_footer, bind, lift, ret.
  destruct (PyStr.int_of_str _); cbn; [|discriminate].
  destruct (PyFloat.float_of_str _); cbn; [|discriminate].
  intros H. injection H as <- _. reflexivity.
Qed.

Lemma parse_header_well_formed line :
  PyStr.slice 0 2 line = HEADER_FIELD_ID ->
  well_formed (RHeader (parse_header line)) = true.
Proof.
  intros H. unfold parse_header, well_formed.
  cbn [Header.field_id Header.name Header.surname Header.patronymic
         Header.address].
  rewrite H, String.eqb_refl.
  rewrite (fits_strip_slice 2 30), (fits_strip_slice 30 60),
    (fits_strip_slice 60 90), (fits_strip_slice 90 120). reflexivity.
Qed.

Lemma read_lines_well_formed (lines : list string) : forall acc w records w',
  read_lines lines acc w = (Return records, w') ->
  forallb well_formed acc = true -> forallb well_formed records = true.
Proof.
  induction lines as [|line rest IH]; intros acc w records w' H Hacc.
  - injection H as <- _. exact Hacc.
  - cbn [read_lines] in H.
    destruct (String.eqb_spec (PyStr.slice 0 2 line) HEADER_FIELD_ID) as [E|_].
    { eapply IH; [exact H|]. rewrite forallb_app, Hacc.
      cbn [forallb andb]. now rewrite (parse_header_well_formed line E). }
    destruct (String.eqb (PyStr.slice 0 2 line) TRANSACTION_FIELD_ID).
    { unfold bind in H.
      destruct (parse_transaction line w) as [[[t|]|e] w1] eqn:Ht;
        [| eapply IH; eassumption | discriminate].
      eapply IH; [exact H|]. rewrite forallb_app, Hacc.
      cbn [forallb andb].
      now rewrite (parse_transaction_well_formed _ _ _ _ Ht). }
    destruct (String.eqb (PyStr.slice 0 2 line) FOOTER_FIELD_ID).
    { unfold bind in H.
      destruct (parse_footer line w) as [[f|e] w1] eqn:Hf; [|discriminate].
      eapply IH; [exact H|]. rewrite forallb_app, Hacc.
      cbn [forallb andb]. now rewrite (parse_footer_well_formed _ _ _ _ Hf). }
    eapply IH; eassumption.
Qed.

(** Every record [read_file] returns carries the tag of its class; a Header
    has fields that fit their columns without surrounding whitespace, a
    Transaction an integer counter, a float amount and one of the six
    currencies, a Footer an integer counter and a float control sum. *)
Theorem read_file_records_well_formed :
  forall (w w' : world) (records : list record),
    read_file w = (Return records, w') ->
    forallb well_formed records = true.
Proof.
  intros w w' records H. unfold read_file, bind, open_readlines in H.
  eapply read_lines_well_formed; [exact H|reflexivity].
Qed.

(** The unpadded Header line and the unknown line. *)
Lemma read_file_records_well_formed_sample :
  read_file (mk_world Sample.file_header_and_note [])
  = (Return [RHeader (Header.mk "01" "Ann" "" "" "")],
     mk_world Sample.file_header_and_note [])
  /\ forallb well_formed [RHeader (Header.mk "01" "Ann" "" "" "")] = true.
Proof.
  assert (H : read_file (mk_world Sample.file_header_and_note [])
              = (Return [RHeader (Header.mk "01" "Ann" "" "" "")],
                 mk_world Sample.file_header_and_note []))
    by (vm_compute; reflexivity).
  split; [exact H|].
  exact (read_file_records_well_formed _ _ _ H).
Defined.

(** ** Looking a field up *)

Lemma getattr_field (cls : record_type) (field_name : string) (r : record) :
  isinstance r cls = true -> is_field cls field_name = true ->
  exists v, getattr r field_name = Some v
            /\ forall name, v <> VMember name.
Proof.
  intros Hi Hf.
  destruct r as [h|t|f], cls; try discriminate Hi;
    revert Hf; unfold is_field; cbn [fields_of existsb Header._fields
      Transaction._fields Footer._fields];
    unfold getattr, Header.getattr, Transaction.getattr, Footer.getattr;
    case_name field_name; intros Hf; try discriminate Hf;
    try (eexists; split; [reflexivity|intros name; discriminate]).
  - destruct (Transaction.counter t); eexists; (split; [reflexivity|]);
      intros name; discriminate.
  - destruct (Transaction.amount t); eexists; (split; [reflexivity|]);
      intros name; discriminate.
  - destruct (Footer.total_counter f); eexists; (split; [reflexivity|]);
      intros name; discriminate.
  - destruct (Footer.control_sum f); eexists; (split; [reflexivity|]);
      intros name; discriminate.
Qed.

(** For a field of the class, [get_field_value] returns the content of that
    field in the first record of the class, in file order, and logs
    nothing. *)
Theorem get_field_value_of_first_record :
  forall (cls : record_type) (field_name : string) (w w' : world)
         (before : list record) (r : record) (after : list record),
    read_file w = (Return (before ++ r :: after), w') ->
    forallb (fun x => negb (isinstance x cls)) before = true ->
    isinstance r cls = true ->
    is_field cls field_name = true ->
    exists v,
      getattr r field_name = Some v
      /\ (forall name, v <> VMember name)
      /\ get_field_value cls field_name w = (Return (Some v), w').
Proof.
  intros cls field_name w w' before r after Hread Hb Hr Hf.
  destruct (getattr_field cls field_name r Hr Hf) as (v & Hv & Hm).
  exists v. split; [exact Hv|]. split; [exact Hm|].
  unfold get_field_value. rewrite (bind_Return _ _ _ _ _ Hread).
  rewrite (get_field_value_loop_first cls field_name before r after w' Hb Hr).
  now rewrite Hv.
Qed.

(** The currency of the first Transaction of the sample. *)
Lemma get_field_value_of_first_record_sample :
  read_file (mk_world Sample.file_1h2t1f [])
  = (Return ([RHeader Sample.header] ++ RTransaction Sample.transaction_1
             :: [RTransaction Sample.transaction_2; RFooter Sample.footer]),
     mk_world Sample.file_1h2t1f [])
  /\ exists v,
       getattr (RTransaction Sample.transaction_1) "currency" = Some v
       /\ (forall name, v <> VMember name)
       /\ get_field_value cls_Transaction "currency"
            (mk_world Sample.file_1h2t1f [])
          = (Return (Some v), mk_world Sample.file_1h2t1f []).
Proof.
  assert (H : read_file (mk_world Sample.file_1h2t1f [])
              = (Return ([RHeader Sample.header]
                         ++ RTransaction Sample.transaction_1
                         :: [RTransaction Sample.transaction_2;
                             RFooter Sample.footer]),
                 mk_world Sample.file_1h2t1f []))
    by (vm_compute; reflexivity).
  split; [exact H|].
  exact (get_field_value_of_first_record cls_Transaction "currency" _ _ _ _ _
           H eq_refl eq_refl eq_refl).
Defined.

(** Without a record of the class, [get_field_value] returns [None] and
    logs that no record of the class was found, whatever the field name. *)
Theorem get_field_value_without_record :
  forall (cls : record_type) (field_name : string) (w w' : world)
         (records : list record),
    read_file w = (Return records, w') ->
    forallb (fun x => negb (isinstance x cls)) records = true ->
    get_field_value cls field_name w
    = (Return None,
       mk_world (file w') (log w' ++ [Error_no_record_of_type cls])).
Proof.
  intros cls field_name w w' records Hread Hno.
  unfold get_field_value. rewrite (bind_Return _ _ _ _ _ Hread).
  now apply get_field_value_loop_no_record.
Qed.

(** The file with a Header line only has no Footer. *)
Lemma get_field_value_without_record_sample :
  read_file (mk_world Sample.file_header_and_note [])
  = (Return [RHeader (Header.mk "01" "Ann" "" "" "")],
     mk_world Sample.file_header_and_note [])
  /\ get_field_value cls_Footer "control_sum"
       (mk_world Sample.file_header_and_note [])
     = (Return None,
        mk_world Sample.file_header_and_note
          ([] ++ [Error_no_record_of_type cls_Footer])).
Proof.
  assert (H : read_file (mk_world Sample.file_header_and_note [])
              = (Return [RHeader (Header.mk "01" "Ann" "" "" "")],
                 mk_world Sample.file_header_and_note []))
    by (vm_compute; reflexivity).
  split; [exact H|].
  exact (get_field_value_without_record cls_Footer "control_sum" _ _ _ H eq_refl).
Defined.

(** ** Editing a file that fits the format *)

(** The content [write_file] leaves for canonical records, and what
    [read_file] makes of it, whatever the file held and the log holds. *)
Lemma canonical_content (records : list record) :
  forallb canonical records = true ->
  exists content,
    (forall w, write_file records w = (Return tt, mk_world content (log w)))
    /\ (forall l, read_file (mk_world content l)
                  = (Return records, mk_world content l)).
Proof.
  intros H.
  destruct (canonical_records_lines records H)
    as (bodies & Hf & He & _ & _ & Hread).
  exists (String.concat "" (map (fun b => (b ++ PyStr.newline)%string) bodies)).
  split.
  - intros w. now apply write_file_format_all.
  - intros l. unfold read_file, bind, open_readlines. cbn [file].
    rewrite (readlines_lines bodies He). apply Hread.
Qed.

Lemma canonical_numeric (r : record) : canonical r = true -> numeric r = true.
Proof.
  destruct r as [h|t|f]; unfold canonical, numeric; intros H.
  - reflexivity.
  - apply andb_prop in H as [H _]. apply andb_prop in H as [H Ha].
    apply andb_prop in H as [_ Hc].
    destruct (Transaction.counter t); [|discriminate Hc].
    destruct (Transaction.amount t); [reflexivity|discriminate Ha].
  - apply andb_prop in H as [H Ha]. apply andb_prop in H as [_ Hc].
    destruct (Footer.total_counter f); [|discriminate Hc].
    destruct (Footer.control_sum f); [reflexivity|discriminate Ha].
Qed.

Lemma forallb_canonical_numeric (records : list record) :
  forallb canonical records = true -> forallb numeric records = true.
Proof.
  induction records as [|r rs IH]; [reflexivity|]. cbn [forallb].
  intros H. apply andb_prop in H as [Hr Hrs].
  now rewrite (canonical_numeric r Hr), IH.
Qed.

(** A sequence the five checks accept is a Header, Transactions and a Footer
    whose counter is their number. *)
Lemma valid_shape (compensated : bool) (S : list record) :
  Spec.validateStructure compensated S = Spec.Valid ->
  exists h mid f,
    S = RHeader h :: mid ++ [RFooter f]
    /\ forallb (fun r => isinstance r cls_Transaction) mid = true
    /\ Footer.total_counter f = IInt (Z.of_nat (List.length mid)).
Proof.
  intros Hv. pose proof (validateStructure_first_failing compensated S) as H.
  rewrite Hv in H. unfold Spec.checks in H. cbn [forallb fst] in H.
  apply andb_prop in H as [H1 H]. apply andb_prop in H as [H2 H].
  apply andb_prop in H as [H3 H]. apply andb_prop in H as [H4 _].
  destruct S as [|r rs]; [discriminate H1|].
  destruct r as [h| |]; try discriminate H1.
  unfold Spec.check2, Spec.check3, Spec.check4, Spec.last_record, Spec.middle
    in H2, H3, H4. cbn [tl] in H3, H4.
  destruct rs as [|x rs']; [discriminate H2|].
  destruct (app_removelast_last (RHeader h) (l := x :: rs')) as [];
    [discriminate|].
  remember (removelast (x :: rs')) as mid eqn:Hmid.
  assert (Hl : last (x :: rs') (RHeader h)
               = last (mid ++ [last (x :: rs') (RHeader h)]) (RHeader h))
    by now rewrite last_last.
  assert (Hs : x :: rs' = mid ++ [last (x :: rs') (RHeader h)]).
  { rewrite Hmid. apply app_removelast_last. discriminate. }
  destruct (last (x :: rs') (RHeader h)) as [| |f]; try discriminate H2.
  exists h, mid, f. split; [now rewrite Hs|]. split; [exact H3|].
  destruct (Footer.total_counter f) as [n|]; [|discriminate H4].
  apply Z.eqb_eq in H4. now rewrite H4.
Qed.

(** [add_transaction] does not touch the Footer: on a file that fits the
    format and that [validate_file_structure] accepts, it succeeds, and the
    file it leaves is rejected with the total-counter mismatch, whatever the
    new Transaction. *)
Theorem add_transaction_breaks_the_total_counter :
  forall (compensated : bool) (counter : Z) (amount : float)
         (currency : string) (w w' : world) (records : list record),
    read_file w = (Return records, w') ->
    forallb canonical records = true ->
    fst (validate_file_structure compensated w) = Return true ->
    canonical (RTransaction (Transaction.mk TRANSACTION_FIELD_ID
                 (IInt counter) (FFloat amount) currency)) = true ->
    exists content,
      add_transaction counter amount currency w
      = (Return tt, mk_world content (log w'))
      /\ validate_file_structure compensated (mk_world content (log w'))
         = (Return false,
            mk_world content (log w' ++ [Error_total_counter_mismatch])).
Proof.
  intros compensated counter amount currency w w' records Hread Hcan Hval Hnew.
  set (new := RTransaction (Transaction.mk TRANSACTION_FIELD_ID
                (IInt counter) (FFloat amount) currency)) in *.
  (* the shape of the file *)
  unfold validate_file_structure in Hval.
  rewrite (bind_Return _ _ _ _ _ Hread) in Hval.
  destruct records as [|r rs].
  { unfold validate_records, bind, lift in Hval.
    rewrite getitem_nil in Hval. discriminate Hval. }
  destruct (validate_records_spec compensated r rs w'
              (forallb_canonical_numeric _ Hcan)) as (msg & Hrun & _).
  rewrite Hrun in Hval. cbn [fst] in Hval.
  assert (Hv : Spec.validateStructure compensated (r :: rs) = Spec.Valid).
  { destruct (Spec.validateStructure compensated (r :: rs));
      [reflexivity|discriminate Hval]. }
  destruct (valid_shape compensated _ Hv) as (h & mid & f & Hs & Hmid & Hcount).
  rewrite Hs in *. clear Hs Hrun Hval Hv msg r rs.
  (* the records after the insertion *)
  assert (Hcan' : forallb canonical (RHeader h :: mid ++ [new; RFooter f])
                  = true).
  { change (RHeader h :: mid ++ [RFooter f])
      with ([RHeader h] ++ mid ++ [RFooter f]) in Hcan.
    change (RHeader h :: mid ++ [new; RFooter f])
      with ([RHeader h] ++ mid ++ [new] ++ [RFooter f]).
    rewrite !forallb_app in *.
    apply andb_prop in Hcan as [Hh Hcan]. apply andb_prop in Hcan as [Hm Hf].
    rewrite Hh, Hm, Hf. cbn [forallb]. now rewrite Hnew. }
  destruct (canonical_content _ Hcan') as (content & Hwrite & Hback).
  exists content. split.
  - unfold add_transaction. rewrite (bind_Return _ _ _ _ _ Hread).
    change (RHeader h :: mid ++ [RFooter f])
      with ((RHeader h :: mid) ++ [RFooter f]).
    rewrite insert_minus_1_snoc. apply Hwrite.
  - unfold validate_file_structure.
    rewrite (bind_Return _ _ _ _ _ (Hback (log w'))).
    destruct (validate_records_spec compensated (RHeader h)
                (mid ++ [new; RFooter f]) (mk_world content (log w'))
                (forallb_canonical_numeric _ Hcan')) as (msg & Hrun & Hmsg).
    assert (Hv : Spec.validateStructure compensated
                   (RHeader h :: mid ++ [new; RFooter f])
                 = Spec.Invalid Spec.Total_counter_mismatch).
    { unfold Spec.validateStructure, Spec.checks.
      unfold Spec.check1, Spec.check2, Spec.check3, Spec.check4,
        Spec.first_record, Spec.last_record, Spec.middle.
      cbn [find fst hd_error tl negb].
      change (mid ++ [new; RFooter f]) with (mid ++ [new] ++ [RFooter f]).
      rewrite app_assoc, last_last, removelast_last.
      cbn [negb find fst]. rewrite forallb_app, Hmid. cbn [forallb isinstance].
      unfold new at 1. cbn [isinstance andb negb].
      rewrite Hcount, length_app. change (List.length [new]) with 1%nat.
      replace (Z.eqb (Z.of_nat (List.length mid))
                 (Z.of_nat (List.length mid + 1))) with false
        by (symmetry; apply Z.eqb_neq; lia).
      reflexivity. }
    rewrite Hv in Hrun, Hmsg. rewrite Hrun. cbn [Spec.is_valid file log].
    destruct msg; try discriminate Hmsg. reflexivity.
Qed.

(** The sample with a third Transaction of 45.00 USD. *)
Lemma add_transaction_breaks_the_total_counter_sample :
  read_file (mk_world Sample.file_1h2t1f [])
  = (Return Sample.records_1h2t1f, mk_world Sample.file_1h2t1f [])
  /\ fst (validate_file_structure false (mk_world Sample.file_1h2t1f []))
     = Return true
  /\ exists content,
       add_transaction 3 (Sample.money 4500) "USD"
         (mk_world Sample.file_1h2t1f [])
       = (Return tt, mk_world content [])
       /\ validate_file_structure false (mk_world content [])
          = (Return false,
             mk_world content ([] ++ [Error_total_counter_mismatch])).
Proof.
  assert (Hread : read_file (mk_world Sample.file_1h2t1f [])
                  = (Return Sample.records_1h2t1f,
                     mk_world Sample.file_1h2t1f []))
    by (vm_compute; reflexivity).
  assert (Hval : fst (validate_file_structure false
                        (mk_world Sample.file_1h2t1f [])) = Return true)
    by (vm_compute; reflexivity).
  split; [exact Hread|]. split; [exact Hval|].
  exact (add_transaction_breaks_the_total_counter false 3 (Sample.money 4500)
           "USD" _ _ _ Hread eq_refl Hval eq_refl).
Defined.

Lemma existsb_first {A : Type} (p : A -> bool) (l : list A) :
  existsb p l = true ->
  exists before x after,
    l = before ++ x :: after
    /\ forallb (fun y => negb (p y)) before = true /\ p x = true.
Proof.
  induction l as [|a l IH]; [discriminate|]. cbn [existsb].
  destruct (p a) eqn:Ha; intros H.
  - exists [], a, l. repeat split. exact Ha.
  - destruct (IH H) as (before & x & after & -> & Hb & Hx).
    exists (a :: before), x, after. repeat split; [|exact Hx].
    cbn [forallb]. now rewrite Ha, Hb.
Qed.

Lemma map_updated_other (cls : record_type) (field_name new_value : string)
  (records : list record) :
  forallb (fun r => negb (isinstance r cls)) records = true ->
  map (updated cls field_name new_value) records = records.
Proof.
  induction records as [|r rs IH]; [reflexivity|]. cbn [forallb map].
  intros H. apply andb_prop in H as [Hr Hrs].
  rewrite (IH Hrs), updated_other; [reflexivity|].
  left. now destruct (isinstance r cls).
Qed.

Lemma header_column_is_field (field_name : string) (width : nat) :
  header_column field_name = Some width ->
  is_field cls_Header field_name = true.
Proof.
  unfold header_column, is_field.
  cbn [fields_of existsb Header._fields].
  case_name field_name; try reflexivity. discriminate.
Qed.

(** A text that fits the column keeps a canonical Header canonical. *)
Lemma updated_header_canonical (field_name : string) (width : nat)
  (new_value : string) (r : record) :
  header_column field_name = Some width ->
  fits width new_value = true -> no_eol new_value = true ->
  canonical r = true ->
  canonical (updated cls_Header field_name new_value r) = true.
Proof.
  intros Hcol Hfit Heol Hcan.
  destruct r as [h|t|f];
    [|rewrite updated_other; [exact Hcan|now left] ..].
  destruct h as [fid name surname patronymic address].
  unfold canonical in Hcan.
  cbn [Header.field_id Header.name Header.surname Header.patronymic
         Header.address] in Hcan.
  repeat match goal with
    | H : (_ && _)%bool = true |- _ => apply andb_prop in H as [H ?]
    end.
  revert Hcol. unfold header_column. case_name field_name;
    intros Hcol; try discriminate Hcol; injection Hcol as <-.
  - change (updated cls_Header "name" new_value
              (RHeader (Header.mk fid name surname patronymic address)))
      with (RHeader (Header.mk fid new_value surname patronymic address)).
    unfold canonical.
    cbn [Header.field_id Header.name Header.surname Header.patronymic
           Header.address].
    repeat match goal with
      | H : ?x = true |- context [?x] => rewrite H
      end.
    reflexivity.
  - change (updated cls_Header "surname" new_value
              (RHeader (Header.mk fid name surname patronymic address)))
      with (RHeader (Header.mk fid name new_value patronymic address)).
    unfold canonical.
    cbn [Header.field_id Header.name Header.surname Header.patronymic
           Header.address].
    repeat match goal with
      | H : ?x = true |- context [?x] => rewrite H
      end.
    reflexivity.
  - change (updated cls_Header "patronymic" new_value
              (RHeader (Header.mk fid name surname patronymic address)))
      with (RHeader (Header.mk fid name surname new_value address)).
    unfold canonical.
    cbn [Header.field_id Header.name Header.surname Header.patronymic
           Header.address].
    repeat match goal with
      | H : ?x = true |- context [?x] => rewrite H
      end.
    reflexivity.
  - change (updated cls_Header "address" new_value
              (RHeader (Header.mk fid name surname patronymic address)))
      with (RHeader (Header.mk fid name surname patronymic new_value)).
    unfold canonical.
    cbn [Header.field_id Header.name Header.surname Header.patronymic
           Header.address].
    repeat match goal with
      | H : ?x = true |- context [?x] => rewrite H
      end.
    reflexivity.
Qed.

(** On a file that fits the format and has a Header, a new text for one of
    the four text fields of Header that fits its column is stored by
    [change_field_value] and is what [get_field_value] then returns for that
    field, without logging. *)
Theorem get_field_value_after_change_field_value :
  forall (field_name : string) (width : nat) (new_value : string)
         (w w' : world) (records : list record),
    read_file w = (Return records, w') ->
    forallb canonical records = true ->
    existsb (fun r => isinstance r cls_Header) records = true ->
    header_column field_name = Some width ->
    fits width new_value = true ->
    no_eol new_value = true ->
    exists content,
      change_field_value cls_Header field_name new_value w
      = (Return tt, mk_world content (log w'))
      /\ get_field_value cls_Header field_name (mk_world content (log w'))
         = (Return (Some (VStr new_value)), mk_world content (log w')).
Proof.
  intros field_name width new_value w w' records Hread Hcan Hex Hcol Hfit Heol.
  pose proof (header_column_is_field _ _ Hcol) as Hfield.
  assert (Hcan' : forallb canonical
                    (map (updated cls_Header field_name new_value) records)
                  = true).
  { clear Hread Hex. induction records as [|r rs IH]; [reflexivity|].
    cbn [forallb map] in *. apply andb_prop in Hcan as [Hr Hrs].
    now rewrite (updated_header_canonical _ _ _ r Hcol Hfit Heol Hr), IH. }
  destruct (canonical_content _ Hcan') as (content & Hwrite & Hback).
  exists content. split.
  - unfold change_field_value. rewrite (bind_Return _ _ _ _ _ Hread).
    rewrite change_field_value_loop_updated.
    + unfold bind, lift. cbn [app]. apply Hwrite.
    + intros r _ Hi _. eexists.
      exact (proj1 (updated_field cls_Header field_name new_value r Hfield Hi)).
  - unfold get_field_value.
    rewrite (bind_Return _ _ _ _ _ (Hback (log w'))).
    destruct (existsb_first _ _ Hex) as (before & r & after & -> & Hb & Hr).
    rewrite map_app. cbn [map].
    rewrite (map_updated_other _ _ _ before Hb).
    destruct (updated_field cls_Header field_name new_value r Hfield Hr)
      as (_ & Hget & _ & Hi).
    rewrite (get_field_value_loop_first cls_Header field_name before _ _ _
               Hb Hi).
    now rewrite Hget.
Qed.

(** A new surname for the Header of the sample. *)
Lemma get_field_value_after_change_field_value_sample :
  read_file (mk_world Sample.file_1h2t1f [])
  = (Return Sample.records_1h2t1f, mk_world Sample.file_1h2t1f [])
  /\ exists content,
       change_field_value cls_Header "surname" "Moss"
         (mk_world Sample.file_1h2t1f [])
       = (Return tt, mk_world content [])
       /\ get_field_value cls_Header "surname" (mk_world content [])
          = (Return (Some (VStr "Moss")), mk_world content []).
Proof.
  assert (Hread : read_file (mk_world Sample.file_1h2t1f [])
                  = (Return Sample.records_1h2t1f,
                     mk_world Sample.file_1h2t1f []))
    by (vm_compute; reflexivity).
  split; [exact Hread|].
  exact (get_field_value_after_change_field_value "surname" 30 "Moss" _ _ _
           Hread eq_refl eq_refl eq_refl eq_refl eq_refl).
Defined.

(** On a file written from records that fit the format, a call of
    [change_field_value] for a class the file has no record of writes back
    the very content it read: the file is not changed and nothing is
    logged. *)
Theorem change_field_value_without_record_keeps_written_file :
  forall (cls : record_type) (field_name new_value : string)
         (records : list record) (w : world),
    forallb canonical records = true ->
    forallb (fun r => negb (isinstance r cls)) records = true ->
    exists content,
      write_file records w = (Return tt, mk_world content (log w))
      /\ change_field_value cls field_name new_value
           (mk_world content (log w))
         = (Return tt, mk_world content (log w)).
Proof.
  intros cls field_name new_value records w Hcan Hno.
  destruct (canonical_content _ Hcan) as (content & Hwrite & Hback).
  exists content. split; [apply Hwrite|].
  unfold change_field_value.
  rewrite (bind_Return _ _ _ _ _ (Hback (log w))).
  rewrite change_field_value_loop_updated.
  - unfold bind, lift. cbn [app].
    rewrite (map_updated_other _ _ _ records Hno).
    exact (Hwrite (mk_world content (log w))).
  - intros r Hin Hi _. exfalso.
    rewrite forallb_forall in Hno. specialize (Hno r Hin).
    rewrite Hi in Hno. discriminate Hno.
Qed.

(** The sample has no record of a class when its Footer is left out. *)
Lemma change_field_value_without_record_keeps_written_file_sample :
  let records :=
    [RHeader Sample.header; RTransaction Sample.transaction_1] in
  forallb canonical records = true
  /\ forallb (fun r => negb (isinstance r cls_Footer)) records = true
  /\ exists content,
       write_file records (mk_world "previous content" [])
       = (Return tt, mk_world content [])
       /\ change_field_value cls_Footer "total_counter" "5"
            (mk_world content [])
          = (Return tt, mk_world content []).
Proof.
  split; [vm_compute; reflexivity|]. split; [reflexivity|].
  exact (change_field_value_without_record_keeps_written_file cls_Footer
           "total_counter" "5"
           [RHeader Sample.header; RTransaction Sample.transaction_1]
           (mk_world "previous content" []) eq_refl eq_refl).
Defined.

(** ** Numerals within the digit limit *)

Local Open Scope Z_scope.

Lemma of_uint_acc_upper (d : Decimal.uint) : forall acc : positive,
  Zpos (Pos.of_uint_acc d acc)
  < (Zpos acc + 1) * 10 ^ Z.of_nat (Decimal.nb_digits d).
Proof.
  induction d; intros acc; cbn [Pos.of_uint_acc Decimal.nb_digits];
    try (rewrite Z.mul_1_r; lia);
    rewrite Nat2Z.inj_succ, Z.pow_succ_r by lia;
    (eapply Z.lt_le_trans; [apply IHd|]);
    rewrite ?Pos2Z.inj_add, Pos2Z.inj_mul;
    assert (0 <= 10 ^ Z.of_nat (Decimal.nb_digits d))
      by (apply Z.pow_nonneg; lia);
    nia.
Qed.

(** A numeral of [k] digits is below the [k]-th power of ten. *)
Lemma of_uint_upper (u : Decimal.uint) :
  0 <= Z.of_uint u < 10 ^ Z.of_nat (Decimal.nb_digits u).
Proof.
  unfold Z.of_uint. split; [apply N2Z.is_nonneg|].
  induction u; cbn [Pos.of_uint Decimal.nb_digits];
    rewrite ?Nat2Z.inj_succ, ?Z.pow_succ_r by lia;
    try (cbn; lia);
    try (assert (0 < 10 ^ Z.of_nat (Decimal.nb_digits u))
           by (apply Z.pow_pos_nonneg; lia);
         first [ lia
               | cbn [Z.of_N];
                 pose proof (of_uint_acc_upper u 1);
                 pose proof (of_uint_acc_upper u 2);
                 pose proof (of_uint_acc_upper u 3);
                 pose proof (of_uint_acc_upper u 4);
                 pose proof (of_uint_acc_upper u 5);
                 pose proof (of_uint_acc_upper u 6);
                 pose proof (of_uint_acc_upper u 7);
                 pose proof (of_uint_acc_upper u 8);
                 pose proof (of_uint_acc_upper u 9); lia ]).
Qed.

Lemma uint_of_string_length (s : string) : forall u,
  NilEmpty.uint_of_string s = Some u ->
  Decimal.nb_digits u = String.length s.
Proof.
  induction s as [|c s IH]; intros u H.
  - injection H as <-. reflexivity.
  - cbn [NilEmpty.uint_of_string] in H.
    destruct (NilEmpty.uint_of_string s) as [d|]; [|discriminate H].
    specialize (IH d eq_refl). cbn [String.length]. rewrite <- IH.
    unfold uint_of_char in H.
    destruct c as [[] [] [] [] [] [] [] []]; try discriminate H;
      injection H as <-; reflexivity.
Qed.

(** What [int] reads has at most [int_max_str_digits] digits. *)
Lemma int_of_str_bound (s : string) (z : Z) :
  PyStr.int_of_str s = Some z -> Z.abs z < 10 ^ PyStr.int_max_str_digits.
Proof.
  unfold PyStr.int_of_str.
  destruct (PyStr.drop_underscores false (PyStr.strip s)) as [t|];
    [|discriminate].
  destruct (PyStr.split_sign t) as [neg body].
  destruct (Z.leb_spec (PyStr.len body) PyStr.int_max_str_digits) as [Hlen|_];
    [|discriminate].
  unfold PyStr.digits_value.
  assert (Hv : forall v,
             option_map Z.of_uint (NilEmpty.uint_of_string body) = Some v ->
             0 <= v < 10 ^ PyStr.int_max_str_digits).
  { intros v Hv.
    destruct (NilEmpty.uint_of_string body) as [u|] eqn:Hu; [|discriminate Hv].
    injection Hv as <-. pose proof (of_uint_upper u) as Hup.
    rewrite (uint_of_string_length body u Hu) in Hup.
    assert (10 ^ Z.of_nat (String.length body) <= 10 ^ PyStr.int_max_str_digits)
      by (apply Z.pow_le_mono_r; [lia|exact Hlen]).
    lia. }
  destruct body as [|c body']; [discriminate|].
  destruct (PyStr.forallb_string PyStr.isdecimal_char (String c body'));
    [|discriminate].
  destruct (option_map Z.of_uint (NilEmpty.uint_of_string (String c body')))
    as [v|]; [|discriminate].
  specialize (Hv v eq_refl). cbn [option_map]. intros H. injection H as <-.
  destruct neg; lia.
Qed.

(** [str] returns the numeral of every [int] within the limit. *)
Lemma str_bounded (z : Z) :
  Z.abs z < 10 ^ PyStr.int_max_str_digits ->
  PyStr.str z = Return (PyStr.str_of_int z).
Proof.
  intros Hz.
  assert (Hk : Z.of_nat (Z.to_nat PyStr.int_max_str_digits)
               = PyStr.int_max_str_digits) by (apply Z2Nat.id; discriminate).
  assert (H1 : (1 <= Z.to_nat PyStr.int_max_str_digits)%nat).
  { apply Nat2Z.inj_le. rewrite Hk. discriminate. }
  destruct z as [|p|p].
  - reflexivity.
  - apply (str_nonneg (Zpos p) (Z.to_nat PyStr.int_max_str_digits));
      rewrite ?Hk; [lia|exact H1|lia].
  - unfold PyStr.str, PyStr.str_of_int.
    cbn [Z.to_int NilZero.string_of_int PyStr.split_sign].
    change (Ascii.eqb "-" "-") with true. cbn [snd].
    unfold NilZero.string_of_uint.
    pose proof (DecimalPos.Unsigned.to_uint_nonnil p) as Hn.
    assert (Hd : (Decimal.nb_digits (Pos.to_uint p)
                  <= Z.to_nat PyStr.int_max_str_digits)%nat).
    { apply (nb_digits_bound (Zpos p)); [rewrite Hk; lia|exact H1|reflexivity]. }
    assert (Hl : PyStr.len (NilEmpty.string_of_uint (Pos.to_uint p))
                 <= PyStr.int_max_str_digits).
    { unfold PyStr.len. rewrite length_string_of_uint. lia. }
    apply Z.leb_le in Hl.
    destruct (Pos.to_uint p); [congruence|now rewrite Hl..].
Qed.

(** *** The range of a binary64 product *)

Lemma digits2_pos_upper (p : positive) :
  Zpos p < 2 ^ Zpos (digits2_pos p).
Proof.
  induction p; cbn [digits2_pos];
    rewrite ?Pos2Z.inj_succ, ?Z.pow_succ_r by lia; lia.
Qed.

Lemma shr_1_upper (mrs : shr_record) (k : Z) :
  0 <= k -> 0 <= shr_m mrs < 2 ^ (k + 1) ->
  0 <= shr_m (shr_1 mrs) < 2 ^ k.
Proof.
  intros Hk. rewrite Z.pow_add_r, Z.pow_1_r by lia.
  destruct mrs as [m r s]. cbn [shr_m].
  assert (0 < 2 ^ k) by (apply Z.pow_pos_nonneg; lia).
  destruct m as [|[p|p|]|p]; cbn [shr_1 shr_m]; lia.
Qed.

Lemma iter_pos_shr_1_upper (p : positive) : forall (mrs : shr_record) (k : Z),
  0 <= k -> 0 <= shr_m mrs < 2 ^ (k + Zpos p) ->
  0 <= shr_m (iter_pos shr_1 p mrs) < 2 ^ k.
Proof.
  induction p as [p IH|p IH|]; intros mrs k Hk H; cbn [iter_pos].
  - apply IH; [exact Hk|]. apply IH; [lia|].
    apply shr_1_upper; [lia|].
    replace (k + Zpos p + Zpos p + 1) with (k + Zpos p~1) by lia. exact H.
  - apply IH; [exact Hk|]. apply IH; [lia|].
    replace (k + Zpos p + Zpos p) with (k + Zpos p~0) by lia. exact H.
  - now apply shr_1_upper.
Qed.

Lemma shr_fexp_upper (m e : Z) (l : location) (mrs : shr_record) (e' : Z) :
  0 <= m ->
  shr_fexp PyFloat.prec PyFloat.emax m e l = (mrs, e') ->
  0 <= shr_m mrs < 2 ^ PyFloat.prec.
Proof.
  intros Hm. unfold shr_fexp, shr, fexp.
  assert (Hrec : shr_m (shr_record_of_loc m l) = m)
    by (destruct l as [|[]]; reflexivity).
  assert (Hd : m < 2 ^ Zdigits2 m).
  { destruct m as [|p|p]; [reflexivity|apply digits2_pos_upper|lia]. }
  assert (Hd0 : 0 <= Zdigits2 m) by (destruct m; cbn; lia).
  destruct (Z.max (Zdigits2 m + e - PyFloat.prec) (emin PyFloat.prec PyFloat.emax) - e)
    as [|n|n] eqn:Hn; intros H; injection H as <- _.
  - rewrite Hrec. split; [exact Hm|].
    eapply Z.lt_le_trans; [exact Hd|]. apply Z.pow_le_mono_r; lia.
  - apply iter_pos_shr_1_upper; [discriminate|]. rewrite Hrec.
    split; [exact Hm|].
    eapply Z.lt_le_trans; [exact Hd|]. apply Z.pow_le_mono_r; lia.
  - rewrite Hrec. split; [exact Hm|].
    eapply Z.lt_le_trans; [exact Hd|]. apply Z.pow_le_mono_r; lia.
Qed.

Lemma binary_round_aux_upper (sx : bool) (mx ex : Z) (lx : location)
  (s : bool) (m : positive) (e : Z) :
  0 <= mx ->
  binary_round_aux PyFloat.prec PyFloat.emax sx mx ex lx = S754_finite s m e ->
  Zpos m < 2 ^ PyFloat.prec /\ e <= PyFloat.emax - PyFloat.prec.
Proof.
  intros Hmx. unfold binary_round_aux.
  destruct (shr_fexp PyFloat.prec PyFloat.emax mx ex lx) as [mrs' e'] eqn:H1.
  pose proof (shr_fexp_upper _ _ _ _ _ Hmx H1) as B1.
  assert (Hr : 0 <= round_nearest_even (shr_m mrs') (loc_of_shr_record mrs')).
  { unfold round_nearest_even.
    destruct (loc_of_shr_record mrs') as [|[]]; try lia.
    destruct (Z.even (shr_m mrs')); lia. }
  destruct (shr_fexp PyFloat.prec PyFloat.emax
              (round_nearest_even (shr_m mrs') (loc_of_shr_record mrs'))
              e' loc_Exact) as [mrs'' e''] eqn:H2.
  pose proof (shr_fexp_upper _ _ _ _ _ Hr H2) as B2.
  destruct (shr_m mrs'') as [|q|q]; try discriminate.
  destruct (Z.leb_spec e'' (PyFloat.emax - PyFloat.prec)) as [He|_];
    [|discriminate].
  intros H. injection H as _ <- <-. split; [apply B2|exact He].
Qed.

(** [int] of a product of two floats is below two to the 1024. *)
Lemma to_int_mul_upper (x y : float) (z : Z) :
  PyFloat.to_int (PyFloat.mul x y) = Return z -> Z.abs z < 2 ^ 1024.
Proof.
  unfold PyFloat.mul.
  destruct (SFmul PyFloat.prec PyFloat.emax x y) as [s|s| |s m e] eqn:Hmul;
    cbn [PyFloat.to_int]; intros H; try discriminate H.
  - injection H as <-. reflexivity.
  - assert (Hb : Zpos m < 2 ^ PyFloat.prec /\ e <= PyFloat.emax - PyFloat.prec).
    { destruct x as [sx|sx| |sx mx ex], y as [sy|sy| |sy my ey];
        try discriminate Hmul.
      unfold SFmul in Hmul.
      apply (binary_round_aux_upper _ _ _ _ _ _ _ (Pos2Z.is_nonneg _) Hmul). }
    destruct Hb as [Hm He]. unfold PyFloat.prec, PyFloat.emax in *.
    assert (Hs : 0 <= Z.shiftl (Zpos m) e < 2 ^ 1024).
    { destruct (Z.le_gt_cases 0 e) as [H0|H0].
      - rewrite Z.shiftl_mul_pow2 by exact H0.
        assert (0 < 2 ^ e) by (apply Z.pow_pos_nonneg; lia).
        assert (2 ^ e <= 2 ^ 971) by (apply Z.pow_le_mono_r; lia).
        replace (2 ^ 1024) with (2 ^ 53 * 2 ^ 971)
          by (rewrite <- Z.pow_add_r by lia; reflexivity).
        split; [lia|].
        apply Z.lt_le_trans with (2 ^ 53 * 2 ^ e); [nia|].
        apply Z.mul_le_mono_nonneg_l; lia.
      - rewrite Z.shiftl_div_pow2 by lia.
        assert (0 < 2 ^ (- e)) by (apply Z.pow_pos_nonneg; lia).
        assert (0 <= Zpos m / 2 ^ (- e) <= Zpos m).
        { split; [apply Z.div_pos; lia|].
          apply Z.div_le_upper_bound; [lia|]. nia. }
        assert (2 ^ 53 < 2 ^ 1024) by (apply Z.pow_lt_mono_r; lia).
        lia. }
    injection H as <-. destruct s; lia.
Qed.

Lemma two_1024_within_limit : 2 ^ 1024 < 10 ^ PyStr.int_max_str_digits.
Proof. vm_compute. reflexivity. Qed.

(** The cents [int(amount * 100)] returns are printed by [str]. *)
Lemma str_of_cents (v : float_or_str) (cents : Z) :
  int_times_100 v = Return cents ->
  PyStr.str cents = Return (PyStr.str_of_int cents).
Proof.
  intros H. apply str_bounded. destruct v as [x|s]; cbn [int_times_100] in H.
  - pose proof (to_int_mul_upper _ _ _ H).
    pose proof two_1024_within_limit. lia.
  - destruct (PyStr.int_of_str (PyStr.repeat s 100)) as [z|] eqn:Hz;
      [|discriminate H].
    injection H as <-. exact (int_of_str_bound _ _ Hz).
Qed.

(** ** Amounts below zero *)

Local Open Scope string_scope.

Lemma str_of_int_negative (z : Z) :
  z < 0 -> exists digits, PyStr.str_of_int z = String "-" digits.
Proof.
  intros H. destruct z as [|p|p]; [lia|lia|].
  eexists. reflexivity.
Qed.

Lemma strip_minus (s : string) :
  exists t, PyStr.strip (String "-" s) = String "-" t.
Proof.
  unfold PyStr.strip. change (PyStr.lstrip (String "-" s)) with (String "-" s).
  rewrite rstrip_cons. destruct (PyStr.rstrip s) as [|d t].
  - exists "". reflexivity.
  - now exists (String d t).
Qed.

(** The line [format_transaction] builds for an amount whose cents are
    negative carries a minus sign in the amount field, which
    [parse_transaction] rejects: the Transaction is written, and reading the
    line logs the invalid amount format and gives no record. *)
Theorem parse_transaction_rejects_negative_amount :
  forall (t : Transaction.t) (cents : Z) (w : world),
    Transaction.field_id t = TRANSACTION_FIELD_ID ->
    counter_fits (Transaction.counter t) = true ->
    int_times_100 (Transaction.amount t) = Return cents ->
    cents < 0 ->
    exists line amount_str,
      format_transaction t = Return line
      /\ parse_transaction line w
         = (Return None,
            mk_world (file w)
              (log w ++ [Error_invalid_amount_format amount_str])%list).
Proof.
  intros t cents w Hid Hcount Hcents Hneg.
  destruct (counter_fits_spec _ Hcount) as (c & Hc & Hrange).
  destruct (str_of_int_negative cents Hneg) as (digits & Hdigits).
  unfold format_transaction. rewrite Hid, Hc. cbn [str_of_counter].
  rewrite (str_nonneg c 6) by (cbn; lia || discriminate). cbn [obind].
  rewrite Hcents. cbn [obind]. rewrite (str_of_cents _ _ Hcents).
  cbn [obind]. rewrite Hdigits.
  change (PyStr.zfill 12 (String "-" digits))
    with (String "-" (PyStr.fill "0" (12 - String.length (String "-" digits))
                        ++ digits)).
  set (rest := PyStr.ljust 3 (Transaction.currency t)
               ++ PyStr.spaces 97 ++ PyStr.newline).
  set (column := PyStr.zfill 6 (PyStr.str_of_int c)).
  assert (Hcol : String.length column = 6%nat).
  { apply (numeral_column c 6); [|lia]. change (10 ^ Z.of_nat 6) with 1000000.
    lia. }
  set (tail := (PyStr.fill "0" (12 - String.length (String "-" digits))
                ++ digits) ++ rest).
  assert (Hslice : PyStr.slice 8 20
                     (TRANSACTION_FIELD_ID ++ column
                      ++ String "-" (PyStr.fill "0"
                                       (12 - String.length (String "-" digits))
                                     ++ digits) ++ rest)
                   = String "-" (substring 0 11 tail)).
  { assert (Hskip : forall (a b : string) (n m : nat),
               String.length a = n -> substring n m (a ++ b) = substring 0 m b)
      by (intros a b n m <-; apply substring_skip_append).
    unfold PyStr.slice. rewrite append_assoc.
    rewrite (Hskip (TRANSACTION_FIELD_ID ++ column))
      by (rewrite length_append, Hcol; reflexivity).
    reflexivity. }
  destruct (strip_minus (substring 0 11 tail)) as (amount & Hamount).
  eexists. exists (String "-" amount). split; [reflexivity|].
  unfold parse_transaction. rewrite Hslice, Hamount.
  change (PyStr.isdigit (String "-" amount)) with false.
  rewrite orb_true_r. reflexivity.
Qed.

(** A Transaction of -5.00 USD. *)
Lemma parse_transaction_rejects_negative_amount_sample :
  let t := Transaction.mk "02" (IInt 1) (FFloat (PyFloat.of_int (-5))) "USD" in
  int_times_100 (Transaction.amount t) = Return (-500)
  /\ exists line amount_str,
       format_transaction t = Return line
       /\ parse_transaction line (mk_world "" [])
          = (Return None,
             mk_world "" ([] ++ [Error_invalid_amount_format amount_str])%list).
Proof.
  assert (H : int_times_100
                (Transaction.amount
                   (Transaction.mk "02" (IInt 1)
                      (FFloat (PyFloat.of_int (-5))) "USD"))
              = Return (-500)) by (vm_compute; reflexivity).
  split; [exact H|].
  exact (parse_transaction_rejects_negative_amount
           (Transaction.mk "02" (IInt 1) (FFloat (PyFloat.of_int (-5))) "USD")
           (-500) (mk_world "" []) eq_refl eq_refl H eq_refl).
Defined.

(** * C4 and C10: inserting a Transaction *)

Local Open Scope list_scope.



(** C4 (as the code has it).  On a decodable sequence with a last element,
    [add_transaction] hands to [write_file] the same records in the same
    order with the new Transaction immediately before the last one, whatever
    that is, and no record changed, the Footer included.  When each record
    of that sequence can be encoded the call returns and the file holds
    their lines; when each record fits the format, the file decodes to that
    very sequence, so that every record the file had, its Footer with
    [total_counter] and [control_sum] included, is persisted unchanged.  The
    sequence has one more element: on one Header, two Transactions and a
    Footer it has five, the new Transaction at index 3. *)
Theorem add_transaction_inserts_before_the_last_record :
  forall (counter : Z) (amount : float) (currency : string) (w w' : world)
         (init : list record) (lst : record),
    read_file w = (Return (init ++ [lst]), w') ->
    let new :=
      RTransaction
        (Transaction.mk TRANSACTION_FIELD_ID (IInt counter) (FFloat amount)
           currency) in
    let result := init ++ [new; lst] in
    add_transaction counter amount currency w = write_file result w'
    /\ (forall lines, format_all result = Return lines ->
          add_transaction counter amount currency w
          = (Return tt, mk_world (String.concat "" lines) (log w')))
    /\ (forallb canonical result = true ->
          exists content,
            add_transaction counter amount currency w
            = (Return tt, mk_world content (log w'))
            /\ read_file (mk_world content (log w'))
               = (Return result, mk_world content (log w')))
    /\ List.length result = S (List.length (init ++ [lst]))
    /\ (forall i, (i < List.length init)%nat ->
          nth_error result i = nth_error (init ++ [lst]) i)
    /\ nth_error result (List.length init) = Some new
    /\ nth_error result (S (List.length init)) = Some lst.
Proof.
  intros counter amount currency w w' init lst Hread new result.
  assert (Hw : add_transaction counter amount currency w = write_file result w').
  { unfold add_transaction. rewrite (bind_Return _ _ _ _ _ Hread).
    now rewrite insert_minus_1_snoc. }
  split; [exact Hw|]. split; [|split; [|split; [|split; [|split]]]].
  - intros lines Hl. rewrite Hw. now apply write_file_format_all.
  - intros Hcan. destruct (canonical_content result Hcan)
      as (content & Hwrite & Hback).
    exists content. split; [rewrite Hw; apply Hwrite|apply Hback].
  - subst result. rewrite !length_app. cbn. lia.
  - intros i Hi. subst result. now rewrite !nth_error_app1.
  - subst result. rewrite nth_error_app2, Nat.sub_diag by lia. reflexivity.
  - subst result. rewrite nth_error_app2 by lia.
    replace (S (List.length init) - List.length init)%nat with 1%nat by lia.
    reflexivity.
Qed.

(** [insertTransaction(3, 45.00, "USD")] on the file of one Header, two
    Transactions and a Footer: the five records fit the format, the file
    holds their five lines, the new one at index 3 and the Footer line the
    one the file had, and it decodes to the five records. *)
Lemma add_transaction_1h2t1f :
  let w := mk_world Sample.file_1h2t1f [] in
  let result :=
    [RHeader Sample.header; RTransaction Sample.transaction_1;
     RTransaction Sample.transaction_2]
    ++ [RTransaction Sample.new_transaction; RFooter Sample.footer] in
  read_file w = (Return Sample.records_1h2t1f, w)
  /\ forallb canonical result = true
  /\ add_transaction 3 (Sample.money 4500) "USD" w = write_file result w
  /\ (exists content,
        add_transaction 3 (Sample.money 4500) "USD" w
        = (Return tt, mk_world content [])
        /\ read_file (mk_world content []) = (Return result, mk_world content []))
  /\ add_transaction 3 (Sample.money 4500) "USD" w
     = (Return tt,
        mk_world
          (Sample.header_line ++ Sample.transaction_line_1
           ++ Sample.transaction_line_2 ++ Sample.line "02000003000000004500USD"
           ++ Sample.footer_line)%string []).
Proof.
  cbv zeta.
  assert (H : read_file (mk_world Sample.file_1h2t1f [])
              = (Return ([RHeader Sample.header;
                          RTransaction Sample.transaction_1;
                          RTransaction Sample.transaction_2]
                         ++ [RFooter Sample.footer]),
                 mk_world Sample.file_1h2t1f []))
    by (vm_compute; reflexivity).
  split; [exact H|]. split; [vm_compute; reflexivity|]. split; [|split].
  - exact (proj1 (add_transaction_inserts_before_the_last_record
                    3 (Sample.money 4500) "USD" _ _ _ _ H)).
  - exact (proj1 (proj2 (proj2
             (add_transaction_inserts_before_the_last_record
                3 (Sample.money 4500) "USD" _ _ _ _ H))) eq_refl).
  - vm_compute. reflexivity.
Defined.

(** C4 as stated fails on its own figures: after the insertion into one
    Header, two Transactions and a Footer the sequence has five elements, not
    four, and index 2 still holds the second old Transaction; the new one is
    at index 3. *)
Lemma add_transaction_1h2t1f_has_five_records :
  let w := mk_world Sample.file_1h2t1f [] in
  let result :=
    PyList.insert (-1) (RTransaction Sample.new_transaction)
      Sample.records_1h2t1f in
  read_file w = (Return Sample.records_1h2t1f, w)
  /\ add_transaction 3 (Sample.money 4500) "USD" w = write_file result w
  /\ fst (read_file (snd (add_transaction 3 (Sample.money 4500) "USD" w)))
     = Return result
  /\ List.length result = 5%nat
  /\ nth_error result 2 = Some (RTransaction Sample.transaction_2)
  /\ nth_error result 3 = Some (RTransaction Sample.new_transaction)
  /\ ~ (List.length result = 4%nat
        /\ nth_error result 2 = Some (RTransaction Sample.new_transaction)).
Proof.
  cbv zeta. repeat split; try (vm_compute; reflexivity).
  intros [H _]. vm_compute in H. discriminate H.
Qed.

(** Records that do not fit the format are not persisted as they are.  The
    file of one Transaction of 0.29 USD under a Footer of 0.29 is valid;
    [add_transaction(2, 45.00, "USD")] returns, and both the old Transaction
    and the Footer are written with 28 cents, [int(0.29 * 100)] being 28:
    the file decodes to a Footer whose control sum is 0.28. *)
Lemma add_transaction_rewrites_truncated_amounts :
  let w := mk_world Sample.file_0_29 [] in
  let after := snd (add_transaction 2 (Sample.money 4500) "USD" w) in
  read_file w
  = (Return [RHeader Sample.header; RTransaction Sample.transaction_0_29;
             RFooter (Footer.mk "03" (IInt 1) (FFloat (Sample.money 29)))], w)
  /\ validate_file_structure false w
     = (Return true, mk_world Sample.file_0_29 [Info_structure_valid])
  /\ canonical (RTransaction Sample.transaction_0_29) = false
  /\ fst (add_transaction 2 (Sample.money 4500) "USD" w) = Return tt
  /\ file after
     = (Sample.header_line ++ Sample.line "02000001000000000028USD"
        ++ Sample.line "02000002000000004500USD"
        ++ Sample.line "03000001000000000028")%string
  /\ fst (read_file after)
     = Return
         [RHeader Sample.header;
          RTransaction
            (Transaction.mk "02" (IInt 1) (FFloat (Sample.money 28)) "USD");
          RTransaction
            (Transaction.mk "02" (IInt 2) (FFloat (Sample.money 4500)) "USD");
          RFooter (Footer.mk "03" (IInt 1) (FFloat (Sample.money 28)))].
Proof.
  cbv zeta. repeat split; vm_compute; reflexivity.
Qed.



